(** * Open Measures gateway: the CLI client (OM_api.py) and the HTTP server
    (local-api-OM.py), embedded in Rocq.

    Both programs wrap the same two remote services: the Open Measures
    content search (one HTTP GET) and a text-completion service (one HTTP
    POST).  The embedding keeps the Python code's shape: dynamically typed
    JSON values, exceptions, and the two remote services as functions from
    the request to what the `requests` library hands back. *)

From Stdlib Require Import ZArith NArith List String Ascii Bool Lia.
From Stdlib Require Import PrimFloat DecimalString.
Import ListNotations.

Set Implicit Arguments.
Set Warnings "-register-all".
Set Warnings "-notation-overridden".
Set Warnings "-notation-incompatible-prefix".
Set Warnings "-notation-for-abbreviation".

(* ===================================================================== *)
(** * Python values *)
(* ===================================================================== *)

Module Py.

(** A Python [str] is a sequence of Unicode code points. *)
Notation char := N (only parsing).
Notation pystr := (list N) (only parsing).

(** [u "text"] is the [str] whose code points are the bytes of an ASCII
    literal. *)
Definition u (s : string) : pystr := map N_of_ascii (list_ascii_of_string s).

Definition LF : char := 10%N.
Definition nl : pystr := [LF].

Fixpoint str_eqb (a b : pystr) : bool :=
  match a, b with
  | [], [] => true
  | x :: a', y :: b' => N.eqb x y && str_eqb a' b'
  | _, _ => false
  end.

(** [str.isspace] on one code point, which is what [str.strip()] removes. *)
Definition is_space (c : char) : bool :=
  ((9 <=? c) && (c <=? 13) || (28 <=? c) && (c <=? 32) || (c =? 133)
   || (c =? 160) || (c =? 5760) || (8192 <=? c) && (c <=? 8202)
   || (c =? 8232) || (c =? 8233) || (c =? 8239) || (c =? 8287)
   || (c =? 12288))%N.

Section Strip.
Variable blank : char -> bool.

Fixpoint lstrip_of (s : pystr) : pystr :=
  match s with
  | [] => []
  | c :: s' => if blank c then lstrip_of s' else s
  end.

Fixpoint rstrip_of (s : pystr) : pystr :=
  match s with
  | [] => []
  | c :: s' =>
      match rstrip_of s' with
      | [] => if blank c then [] else [c]
      | r => c :: r
      end
  end.

Definition strip_of (s : pystr) : pystr := rstrip_of (lstrip_of s).
End Strip.

(** [s.strip()] *)
Definition strip (s : pystr) : pystr := strip_of is_space s.

(** [s.startswith(p)] *)
Fixpoint startswith (p s : pystr) : bool :=
  match p, s with
  | [], _ => true
  | x :: p', y :: s' => N.eqb x y && startswith p' s'
  | _ :: _, [] => false
  end.

(** The first occurrence of [sub] in [s]: the text before it and the text
    after it. *)
Fixpoint find_sub (sub s : pystr) : option (pystr * pystr) :=
  if startswith sub s then Some ([], skipn (List.length sub) s)
  else match s with
       | [] => None
       | c :: s' =>
           match find_sub sub s' with
           | Some (before, after) => Some (c :: before, after)
           | None => None
           end
       end.

(** [sub in s] for two strings. *)
Definition str_contains (sub s : pystr) : bool :=
  match find_sub sub s with Some _ => true | None => false end.

(** [s.split(sep, 1)] for a non-empty separator. *)
Definition split_once (sep s : pystr) : list pystr :=
  match find_sub sep s with
  | Some (before, after) => [before; after]
  | None => [s]
  end.

(** [s.split(sep)] for a separator of one code point. *)
Fixpoint split_char (sep : char) (s : pystr) : list pystr :=
  match s with
  | [] => [[]]
  | c :: s' =>
      if N.eqb c sep then [] :: split_char sep s'
      else match split_char sep s' with
           | l :: ls => (c :: l) :: ls
           | [] => [[c]]
           end
  end.

(** [sep.join(parts)] *)
Fixpoint join (sep : pystr) (parts : list pystr) : pystr :=
  match parts with
  | [] => []
  | [x] => x
  | x :: rest => x ++ sep ++ join sep rest
  end.

(** [xs[1:-1]] *)
Definition slice_1_m1 (A : Type) (xs : list A) : list A := removelast (tl xs).

(** [s.lower()] on the ASCII letters (the only call site lowers "True" and
    "False"). *)
Definition lower_char (c : char) : char :=
  if ((65 <=? c) && (c <=? 90))%N then (c + 32)%N else c.
Definition lower (s : pystr) : pystr := map lower_char s.

(** [str(n)] for an [int]. *)
Definition str_of_Z (z : Z) : pystr := u (NilEmpty.string_of_int (Z.to_int z)).
Definition str_of_nat (n : nat) : pystr := str_of_Z (Z.of_nat n).

(** Values as [json.loads] and [response.json()] produce them.  A [dict]
    keeps its insertion order; keys are strings. *)
Inductive pyval : Type :=
| PNone
| PBool (b : bool)
| PInt (z : Z)
| PFloat (f : float)
| PStr (s : pystr)
| PList (items : list pyval)
| PDict (entries : list (pystr * pyval)).

(** The exception classes the two programs can meet. *)
Inductive pyexn : Type :=
| KeyError
| IndexError
| TypeError
| AttributeError
| ValueError
| RecursionError.

(** A computation either returns or raises. *)
Inductive result (A : Type) : Type :=
| Ret (a : A)
| Raise (e : pyexn).
Arguments Ret {A} a.
Arguments Raise {A} e.

Definition bind (A B : Type) (m : result A) (k : A -> result B) : result B :=
  match m with
  | Ret a => k a
  | Raise e => Raise e
  end.

Declare Scope py_scope.
Delimit Scope py_scope with py.
Notation "x <- m ;; k" := (bind m (fun x => k))
  (at level 61, m at next level, right associativity) : py_scope.
Open Scope py_scope.

(** Truth value of an object ([bool(v)], as [if], [not] and [or] use it). *)
Definition truthy (v : pyval) : bool :=
  match v with
  | PNone => false
  | PBool b => b
  | PInt z => negb (z =? 0)%Z
  | PFloat f => negb (PrimFloat.eqb f PrimFloat.zero)
  | PStr s => match s with [] => false | _ => true end
  | PList l => match l with [] => false | _ => true end
  | PDict d => match d with [] => false | _ => true end
  end.

(** [a or b] *)
Definition py_or (a b : pyval) : pyval := if truthy a then a else b.

Fixpoint dict_lookup (k : pystr) (d : list (pystr * pyval)) : option pyval :=
  match d with
  | [] => None
  | (k', v) :: d' => if str_eqb k k' then Some v else dict_lookup k d'
  end.

(** [d[k] = v]: an existing key keeps its place. *)
Fixpoint dict_set (k : pystr) (v : pyval) (d : list (pystr * pyval))
  : list (pystr * pyval) :=
  match d with
  | [] => [(k, v)]
  | (k', v') :: d' =>
      if str_eqb k k' then (k', v) :: d' else (k', v') :: dict_set k v d'
  end.

Definition is_str_eq (k : pystr) (v : pyval) : bool :=
  match v with PStr s => str_eqb k s | _ => false end.

(** [k in container] for a string [k]: key of a dict, element of a list,
    substring of a string; any other container raises TypeError. *)
Definition py_in (k : pystr) (container : pyval) : result bool :=
  match container with
  | PDict d => Ret (match dict_lookup k d with Some _ => true | None => false end)
  | PList l => Ret (existsb (is_str_eq k) l)
  | PStr s => Ret (str_contains k s)
  | _ => Raise TypeError
  end.

(** [container[k]] for a string [k]. *)
Definition py_getitem (container : pyval) (k : pystr) : result pyval :=
  match container with
  | PDict d => match dict_lookup k d with Some v => Ret v | None => Raise KeyError end
  | _ => Raise TypeError
  end.

(** [container[0]] *)
Definition py_first (container : pyval) : result pyval :=
  match container with
  | PList (x :: _) => Ret x
  | PList [] => Raise IndexError
  | PStr (c :: _) => Ret (PStr [c])
  | PStr [] => Raise IndexError
  | PDict _ => Raise KeyError
  | _ => Raise TypeError
  end.

(** [obj.get(k, default)]: only a dict has the method. *)
Definition py_get (obj : pyval) (k : pystr) (default : pyval) : result pyval :=
  match obj with
  | PDict d => Ret (match dict_lookup k d with Some v => v | None => default end)
  | _ => Raise AttributeError
  end.

(** [len(v)] *)
Definition py_len (v : pyval) : result nat :=
  match v with
  | PStr s => Ret (List.length s)
  | PList l => Ret (List.length l)
  | PDict d => Ret (List.length d)
  | _ => Raise TypeError
  end.

(** [v[:n]] *)
Definition py_slice_to (n : nat) (v : pyval) : result pyval :=
  match v with
  | PStr s => Ret (PStr (firstn n s))
  | PList l => Ret (PList (firstn n l))
  | _ => Raise TypeError
  end.

(** What the interpreter and its libraries do that the embedding leaves
    open: decimal text to binary64 and back, the quoting of [repr] on a
    string, the pretty-printer [json.dumps(_, indent=2)], the wording of
    an exception's message, and the limits [json.loads] meets:
    [recursion_headroom], which fixes the room the recursion limit leaves
    (see [recursion_room]); [errmsg_frames], the number of nested calls the
    scanner needs to build a JSONDecodeError where it stands (3 in CPython
    3.11: the call of the class, its [__init__], and [ValueError.__init__]
    inside); and [int_max_str_digits], which is
    [sys.get_int_max_str_digits()] (4300 unless changed, 0 for no
    limit). *)
Record Runtime : Type := {
  parse_float : pystr -> float;
  float_repr : float -> pystr;
  str_repr : pystr -> pystr;
  json_dumps_indent2 : pyval -> pystr;
  exn_message : pyexn -> pystr;
  recursion_headroom : nat;
  errmsg_frames : nat;
  int_max_str_digits : nat
}.

(** The number of JSON arrays and objects [json.loads] may have open at
    once before the recursion limit is reached.  It is the recursion limit
    less the depth of the call stack at the call (994 for a call from the
    top level of CPython 3.11).  Neither program changes the limit of 1000
    frames, and both call the decoder a few frames below their entry
    point, so the room is taken to be 900 at least; how much more is left
    open. *)
Definition min_recursion_room : nat := 900.
Definition recursion_room (rt : Runtime) : nat :=
  min_recursion_room + recursion_headroom rt.

Section Formatting.
Variable rt : Runtime.

(** [repr(v)] *)
Fixpoint py_repr (v : pyval) : pystr :=
  match v with
  | PNone => u "None"
  | PBool true => u "True"
  | PBool false => u "False"
  | PInt z => str_of_Z z
  | PFloat f => float_repr rt f
  | PStr s => str_repr rt s
  | PList l => u "[" ++ join (u ", ") (map py_repr l) ++ u "]"
  | PDict d =>
      u "{"
      ++ join (u ", ")
           (map (fun kv => str_repr rt (fst kv) ++ u ": " ++ py_repr (snd kv)) d)
      ++ u "}"
  end.

(** [str(v)], which is what an f-string field [{v}] inserts. *)
Definition py_str (v : pyval) : pystr :=
  match v with
  | PStr s => s
  | _ => py_repr v
  end.
End Formatting.

Definition f10000 : float := 10000%float.

(** [min(limit, 10000)]: the second argument wins only when
    [10000 < limit]; comparing an int with a str, None, a list or a dict
    raises TypeError. *)
Definition min_10000 (limit : pyval) : result pyval :=
  match limit with
  | PInt z => Ret (if (10000 <? z)%Z then PInt 10000 else limit)
  | PBool _ => Ret limit
  | PFloat f => Ret (if PrimFloat.ltb f10000 f then PInt 10000 else limit)
  | _ => Raise TypeError
  end.

Definition is_digit (c : char) : bool := ((48 <=? c) && (c <=? 57))%N.
Definition digit_val (c : char) : Z := Z.of_N (c - 48).

(** Digits with single underscores between them, as [int()] accepts:
    [after_digit] tells whether the previous code point was a digit. *)
Fixpoint int_digits (acc : Z) (after_digit : bool) (s : pystr) : option Z :=
  match s with
  | [] => if after_digit then Some acc else None
  | c :: s' =>
      if is_digit c then int_digits (10 * acc + digit_val c) true s'
      else if (c =? 95)%N && after_digit then
             match s' with
             | d :: _ => if is_digit d then int_digits acc false s' else None
             | [] => None
             end
           else None
  end.

(** The blanks [int()] skips around a number: those of [strip()] except
    the four separators U+001C to U+001F. *)
Definition is_int_space (c : char) : bool :=
  is_space c && negb ((28 <=? c) && (c <=? 31))%N.

(** [int(s)] for a string of Latin-1 text (no digits of other scripts)
    within the digit limit of [int()]: surrounding blanks, an optional
    sign, decimal digits. *)
Definition py_int (s : pystr) : result Z :=
  let body := strip_of is_int_space s in
  let parsed :=
    match body with
    | c :: rest =>
        if (c =? 45)%N then option_map Z.opp (int_digits 0 false rest)
        else if (c =? 43)%N then int_digits 0 false rest
        else int_digits 0 false body
    | [] => None
    end in
  match parsed with
  | Some z => Ret z
  | None => Raise ValueError
  end.

End Py.

(* ===================================================================== *)
(** * The JSON decoder: [json.loads] *)
(* ===================================================================== *)

(** Both programs hand the model's reply to [json.loads] and tell a
    JSONDecodeError from a value and from any other exception.  The decoder
    follows CPython's scanner: it reports the first position where no JSON
    value, delimiter or string character can be read; it raises
    RecursionError when more arrays and objects are open at once than the
    recursion limit leaves room for, or when it has to report an error so
    deep inside them that the room left does not suffice to build the
    JSONDecodeError; it raises ValueError for an integer literal with more
    digits than [int()] converts; a text that opens with a byte order mark
    is refused before any scanning. *)
Module Json.
Import Py.

Inductive errmsg : Type :=
| ExpectingValue
| ExtraData
| ExpectingPropertyName
| ExpectingColon
| ExpectingComma
| UnterminatedString
| InvalidControlCharacter
| InvalidEscape
| InvalidUnicodeEscape
| UnexpectedBOM.

Definition errmsg_text (m : errmsg) : pystr :=
  match m with
  | ExpectingValue => u "Expecting value"
  | ExtraData => u "Extra data"
  | ExpectingPropertyName => u "Expecting property name enclosed in double quotes"
  | ExpectingColon => u "Expecting ':' delimiter"
  | ExpectingComma => u "Expecting ',' delimiter"
  | UnterminatedString => u "Unterminated string starting at"
  | InvalidControlCharacter => u "Invalid control character at"
  | InvalidEscape => u "Invalid \escape"
  | InvalidUnicodeEscape => u "Invalid \uXXXX escape"
  | UnexpectedBOM => u "Unexpected UTF-8 BOM (decode using utf-8-sig)"
  end.

(** A JSONDecodeError: what went wrong, in which document, at which index. *)
Record JSONDecodeError : Type := {
  err_msg : errmsg;
  err_doc : pystr;
  err_pos : nat
}.

(** Line and column (both from 1) of index [pos] in [doc]. *)
Fixpoint line_col (doc : pystr) (pos : nat) (line col : nat) {struct pos}
  : nat * nat :=
  match pos, doc with
  | S pos', c :: doc' =>
      if N.eqb c LF then line_col doc' pos' (S line) 1
      else line_col doc' pos' line (S col)
  | _, _ => (line, col)
  end.

(** [str(e)] for a JSONDecodeError. *)
Definition error_str (e : JSONDecodeError) : pystr :=
  let lc := line_col (err_doc e) (err_pos e) 1 1 in
  errmsg_text (err_msg e) ++ u ": line " ++ str_of_nat (fst lc)
  ++ u " column " ++ str_of_nat (snd lc)
  ++ u " (char " ++ str_of_nat (err_pos e) ++ u ")".

(** What a scanning step yields: a value with the unread text and its index,
    StopIteration (no value starts here), a JSONDecodeError, another
    exception (RecursionError, ValueError), or [Exhausted] when the fuel
    that makes the definition structural is used up, which is no outcome of
    the decoder. *)
Inductive scan (A : Type) : Type :=
| Scanned (a : A) (rest : pystr) (pos : nat)
| StopIteration (idx : nat)
| DecodeFail (m : errmsg) (pos : nat)
| Raises (e : pyexn)
| Exhausted.
Arguments Scanned {A} a rest pos.
Arguments StopIteration {A} idx.
Arguments DecodeFail {A} m pos.
Arguments Raises {A} e.
Arguments Exhausted {A}.

(** A scanning step that returns a value has read at least one character,
    and it did not stop for lack of fuel. *)
Definition progress (A : Type) (s : pystr) (r : scan A) : Prop :=
  match r with
  | Scanned _ rest _ => List.length rest < List.length s
  | StopIteration _ => True
  | DecodeFail _ _ => True
  | Raises _ => True
  | Exhausted => False
  end.
Arguments progress {A} s r.

Definition is_json_ws (c : char) : bool :=
  ((c =? 32) || (c =? 9) || (c =? 10) || (c =? 13))%N.

Fixpoint skip_ws (s : pystr) (pos : nat) : pystr * nat :=
  match s with
  | c :: s' => if is_json_ws c then skip_ws s' (S pos) else (s, pos)
  | [] => (s, pos)
  end.

Definition hex_val (c : char) : option N :=
  if ((48 <=? c) && (c <=? 57))%N then Some (c - 48)%N
  else if ((97 <=? c) && (c <=? 102))%N then Some (c - 87)%N
  else if ((65 <=? c) && (c <=? 70))%N then Some (c - 55)%N
  else None.

Definition hex4 (a b c d : char) : option N :=
  match hex_val a, hex_val b, hex_val c, hex_val d with
  | Some x, Some y, Some z, Some w => Some (((x * 16 + y) * 16 + z) * 16 + w)%N
  | _, _, _, _ => None
  end.

Definition is_high_surrogate (c : N) : bool := ((55296 <=? c) && (c <=? 56319))%N.
Definition is_low_surrogate (c : N) : bool := ((56320 <=? c) && (c <=? 57343))%N.
Definition join_surrogates (hi lo : N) : N :=
  (65536 + (hi - 55296) * 1024 + (lo - 56320))%N.

(** The character a one-letter escape stands for. *)
Definition simple_escape (c : char) : option char :=
  if (c =? 34)%N then Some 34%N          (* quote *)
  else if (c =? 92)%N then Some 92%N     (* backslash *)
  else if (c =? 47)%N then Some 47%N     (* slash *)
  else if (c =? 98)%N then Some 8%N      (* b: backspace *)
  else if (c =? 102)%N then Some 12%N    (* f: form feed *)
  else if (c =? 110)%N then Some 10%N    (* n: line feed *)
  else if (c =? 114)%N then Some 13%N    (* r: carriage return *)
  else if (c =? 116)%N then Some 9%N     (* t: tab *)
  else None.

(** The body of a string literal, read from just after its opening quote
    (which sits at index [begin]); [acc] holds the decoded characters in
    reverse. *)
Fixpoint scanstring (begin : nat) (acc : pystr) (s : pystr) (pos : nat)
  {struct s} : scan pystr :=
  match s with
  | [] => DecodeFail UnterminatedString begin
  | c :: s1 =>
      if (c =? 34)%N then Scanned (rev acc) s1 (S pos)
      else if (c =? 92)%N then
        match s1 with
        | [] => DecodeFail UnterminatedString begin
        | e :: s2 =>
            if (e =? 117)%N then
              match s2 with
              | h1 :: h2 :: h3 :: h4 :: ((_ :: _) as s3) =>
                  match hex4 h1 h2 h3 h4 with
                  | None => DecodeFail InvalidUnicodeEscape (S pos)
                  | Some c1 =>
                      match s3 with
                      | b :: w :: g1 :: g2 :: g3 :: g4 :: ((_ :: _) as s4) =>
                          if is_high_surrogate c1 && (b =? 92)%N && (w =? 117)%N then
                            match hex4 g1 g2 g3 g4 with
                            | None => DecodeFail InvalidUnicodeEscape (pos + 7)
                            | Some c2 =>
                                if is_low_surrogate c2
                                then scanstring begin (join_surrogates c1 c2 :: acc) s4 (pos + 12)
                                else scanstring begin (c1 :: acc) s3 (pos + 6)
                            end
                          else scanstring begin (c1 :: acc) s3 (pos + 6)
                      | _ => scanstring begin (c1 :: acc) s3 (pos + 6)
                      end
                  end
              | _ => DecodeFail InvalidUnicodeEscape (S pos)
              end
            else
              match simple_escape e with
              | Some d => scanstring begin (d :: acc) s2 (pos + 2)
              | None => DecodeFail InvalidEscape pos
              end
        end
      else if (c <=? 31)%N then DecodeFail InvalidControlCharacter pos
      else scanstring begin (c :: acc) s1 (S pos)
  end.

Fixpoint span_digits (s : pystr) : pystr * pystr :=
  match s with
  | c :: s' =>
      if is_digit c then let r := span_digits s' in (c :: fst r, snd r)
      else ([], s)
  | [] => ([], [])
  end.

Definition digits_value (ds : pystr) : Z :=
  fold_left (fun acc c => (10 * acc + digit_val c)%Z) ds 0%Z.

(** The byte order mark U+FEFF. *)
Definition BOM : char := 65279%N.

(** The conversion of a decimal literal of [digits] digits is refused:
    there is a limit, the literal is longer, and it is longer than the 640
    digits below which the limit is not looked at. *)
Definition exceeds_int_limit (max_str_digits digits : nat) : bool :=
  Nat.ltb 0 max_str_digits && Nat.ltb max_str_digits digits && Nat.ltb 640 digits.

Section Decoder.
Variable rt : Runtime.

(** A number at the head of [s]: an int when it has neither fraction nor
    exponent, a float otherwise.  The int is converted as [int()] does it,
    which raises ValueError beyond the digit limit. *)
Definition match_number (s : pystr) (pos : nat) : scan pyval :=
  let neg := match s with c :: _ => (c =? 45)%N | [] => false end in
  let s0 := if neg then tl s else s in
  let int_part :=
    match s0 with
    | c :: s1 =>
        if ((49 <=? c) && (c <=? 57))%N then
          let r := span_digits s1 in Some (c :: fst r, snd r)
        else if (c =? 48)%N then Some ([c], s1)
        else None
    | [] => None
    end in
  match int_part with
  | None => StopIteration pos
  | Some (ds, s1) =>
      let frac :=
        match s1 with
        | dot :: d :: _ =>
            if (dot =? 46)%N && is_digit d then
              let r := span_digits (tl s1) in (dot :: fst r, snd r)
            else ([], s1)
        | _ => ([], s1)
        end in
      let s2 := snd frac in
      let expo :=
        match s2 with
        | e :: s3 =>
            if ((e =? 101) || (e =? 69))%N then
              let sign_rest :=
                match s3 with
                | sg :: s4 =>
                    if ((sg =? 45) || (sg =? 43))%N then ([sg], s4) else ([], s3)
                | [] => ([], s3)
                end in
              let r := span_digits (snd sign_rest) in
              match fst r with
              | [] => ([], s2)
              | _ => (e :: fst sign_rest ++ fst r, snd r)
              end
            else ([], s2)
        | [] => ([], s2)
        end in
      let lexeme := (if neg then [45%N] else []) ++ ds ++ fst frac ++ fst expo in
      match fst frac, fst expo with
      | [], [] =>
          if exceeds_int_limit (int_max_str_digits rt) (List.length ds)
          then Raises ValueError
          else Scanned (PInt (if neg then - digits_value ds else digits_value ds))
                 (snd expo) (pos + List.length lexeme)
      | _, _ =>
          Scanned (PFloat (parse_float rt lexeme)) (snd expo) (pos + List.length lexeme)
      end
  end.

(** The scanner's [raise_errmsg]: the JSONDecodeError is built where the
    error is met, which takes [errmsg_frames] nested calls; with less
    [room] left the outcome is RecursionError.  (That no value starts at a
    position is reported by StopIteration, which takes no call: the
    JSONDecodeError "Expecting value" is built by the caller of the
    scanner.) *)
Definition raise_errmsg (room : nat) (m : errmsg) (pos : nat) : scan pyval :=
  if Nat.ltb room (errmsg_frames rt) then Raises RecursionError
  else DecodeFail m pos.

(** [scan_once], and the two loops over the members of an object and the
    elements of an array.  [room] is the number of arrays and objects that
    may still be opened inside one another: opening one when none is left
    raises RecursionError, also when it would be closed at once.  [fuel]
    bounds the number of steps. *)
Fixpoint scan_once (fuel : nat) (room : nat) (s : pystr) (pos : nat) {struct fuel}
  : scan pyval :=
  match fuel with
  | O => Exhausted
  | S f =>
      match s with
      | [] => StopIteration pos
      | c :: s1 =>
          if (c =? 34)%N then
            match scanstring pos [] s1 (S pos) with
            | Scanned str rest p => Scanned (PStr str) rest p
            | StopIteration i => StopIteration i
            | DecodeFail m p => raise_errmsg room m p
            | Raises e => Raises e
            | Exhausted => Exhausted
            end
          else if (c =? 123)%N then
            match room with
            | O => Raises RecursionError
            | S inner =>
                let sp := skip_ws s1 (S pos) in
                match fst sp with
                | 125%N :: rest => Scanned (PDict []) rest (S (snd sp))
                | _ => parse_members f inner [] (fst sp) (snd sp)
                end
            end
          else if (c =? 91)%N then
            match room with
            | O => Raises RecursionError
            | S inner =>
                let sp := skip_ws s1 (S pos) in
                match fst sp with
                | 93%N :: rest => Scanned (PList []) rest (S (snd sp))
                | _ => parse_elements f inner [] (fst sp) (snd sp)
                end
            end
          else if startswith (u "null") s then Scanned PNone (skipn 4 s) (pos + 4)
          else if startswith (u "true") s then Scanned (PBool true) (skipn 4 s) (pos + 4)
          else if startswith (u "false") s then Scanned (PBool false) (skipn 5 s) (pos + 5)
          else if startswith (u "NaN") s then Scanned (PFloat nan) (skipn 3 s) (pos + 3)
          else if startswith (u "Infinity") s
               then Scanned (PFloat infinity) (skipn 8 s) (pos + 8)
          else if startswith (u "-Infinity") s
               then Scanned (PFloat neg_infinity) (skipn 9 s) (pos + 9)
          else match_number s pos
      end
  end

with parse_members (fuel : nat) (room : nat) (acc : list (pystr * pyval))
       (s : pystr) (pos : nat) {struct fuel} : scan pyval :=
  match fuel with
  | O => Exhausted
  | S f =>
      match s with
      | 34%N :: s1 =>
          match scanstring pos [] s1 (S pos) with
          | Scanned key s2 p2 =>
              let sp3 := skip_ws s2 p2 in
              match fst sp3 with
              | 58%N :: s4 =>
                  let sp5 := skip_ws s4 (S (snd sp3)) in
                  match scan_once f room (fst sp5) (snd sp5) with
                  | Scanned v s6 p6 =>
                      let sp7 := skip_ws s6 p6 in
                      let acc' := dict_set key v acc in
                      match fst sp7 with
                      | 125%N :: s8 => Scanned (PDict acc') s8 (S (snd sp7))
                      | 44%N :: s8 =>
                          let sp9 := skip_ws s8 (S (snd sp7)) in
                          parse_members f room acc' (fst sp9) (snd sp9)
                      | _ => raise_errmsg room ExpectingComma (snd sp7)
                      end
                  | other => other
                  end
              | _ => raise_errmsg room ExpectingColon (snd sp3)
              end
          | StopIteration i => StopIteration i
          | DecodeFail m p => raise_errmsg room m p
          | Raises e => Raises e
          | Exhausted => Exhausted
          end
      | _ => raise_errmsg room ExpectingPropertyName pos
      end
  end

with parse_elements (fuel : nat) (room : nat) (acc : list pyval) (s : pystr)
       (pos : nat) {struct fuel} : scan pyval :=
  match fuel with
  | O => Exhausted
  | S f =>
      match scan_once f room s pos with
      | Scanned v s1 p1 =>
          let sp2 := skip_ws s1 p1 in
          match fst sp2 with
          | 93%N :: s3 => Scanned (PList (acc ++ [v])) s3 (S (snd sp2))
          | 44%N :: s3 =>
              let sp4 := skip_ws s3 (S (snd sp2)) in
              parse_elements f room (acc ++ [v]) (fst sp4) (snd sp4)
          | _ => raise_errmsg room ExpectingComma (snd sp2)
          end
      | other => other
      end
  end.

(** What [json.loads] does with a document: it returns a value, raises
    JSONDecodeError, or raises another exception. *)
Inductive loaded : Type :=
| Loaded (v : pyval)
| Failed (e : JSONDecodeError)
| Raised (e : pyexn).

(** [json.loads(doc)]: no byte order mark, then leading whitespace, one
    value, trailing whitespace, nothing else.  The fuel, twice the length
    of the text, is never used up (lemma [loads_fuel_suffices]), so the
    last case does not occur: a RecursionError comes from the nesting
    alone. *)
Definition loads (doc : pystr) : loaded :=
  if startswith [BOM] doc then
    Failed {| err_msg := UnexpectedBOM; err_doc := doc; err_pos := 0 |}
  else
    let sp := skip_ws doc 0 in
    match scan_once (2 * List.length doc + 2) (recursion_room rt) (fst sp) (snd sp) with
    | Scanned v rest p =>
        let sp' := skip_ws rest p in
        match fst sp' with
        | [] => Loaded v
        | _ => Failed {| err_msg := ExtraData; err_doc := doc; err_pos := snd sp' |}
        end
    | StopIteration i =>
        Failed {| err_msg := ExpectingValue; err_doc := doc; err_pos := i |}
    | DecodeFail m p => Failed {| err_msg := m; err_doc := doc; err_pos := p |}
    | Raises e => Raised e
    | Exhausted => Raised RecursionError
    end.
End Decoder.

End Json.

(* ===================================================================== *)
(** * The two remote services *)
(* ===================================================================== *)

Module Net.
Import Py.

(** What the `requests` calls hand back.  [inl msg] is a
    [requests.exceptions.RequestException] whose [str()] is [msg]: no
    connection, an HTTP error status turned into an exception by
    [raise_for_status()], or a body that [response.json()] cannot decode.
    [inr body] is the decoded JSON body of a successful response. *)
Record Network : Type := {
  (** [session.get(url, params=params)] *)
  session_get : pystr -> pyval -> pystr + pyval;
  (** [requests.post(url, headers=headers, json=data)] *)
  requests_post : pystr -> pyval -> pyval -> pystr + pyval
}.

End Net.

(* ===================================================================== *)
(** * Shared by the two copies of [OpenMeasuresAPI] *)
(* ===================================================================== *)

(** The class body is the same text in both files up to [call_claude]; the
    constants and the prompt are written once here and used by both
    modules below. *)
Module Common.
Import Py.

Definition DQ : pystr := [34%N].
Definition FENCE : pystr := u "```".

Definition BASE_URL : pystr := u "https://api.openmeasures.io/content".
Definition SITES : list pystr :=
  [u "telegram"; u "gettr"; u "win"; u "gab"; u "parler"; u "scored"; u "truthsocial"].
Definition QUERY_TYPES : list pystr :=
  [u "content"; u "boolean_content"; u "query_string"].
Definition claude_api_url : pystr := u "https://api.anthropic.com/v1/messages".

(** [not self.claude_api_key] for an [Optional[str]]. *)
Definition key_missing (key : option pystr) : bool :=
  match key with
  | None => true
  | Some [] => true
  | Some _ => false
  end.

Definition claude_headers (key : option pystr) : pyval :=
  PDict [(u "Content-Type", PStr (u "application/json"));
         (u "x-api-key", match key with Some k => PStr k | None => PNone end);
         (u "anthropic-version", PStr (u "2023-06-01"))].

Definition claude_data (prompt : pystr) : pyval :=
  PDict [(u "model", PStr (u "claude-sonnet-4-20250514"));
         (u "max_tokens", PInt 4096);
         (u "messages",
          PList [PDict [(u "role", PStr (u "user")); (u "content", PStr prompt)]])].

(** The f-string both interpreters send to the completion service;
    [user_query] is the text [{user_query}] inserts. *)
Definition parse_prompt (user_query : pystr) : pystr :=
  u "Given this natural language search query, extract the search parameters for the Open Measures API."
  ++ nl ++ nl
  ++ u "User query: " ++ DQ ++ user_query ++ DQ ++ nl ++ nl
  ++ u "Available platforms: " ++ join (u ", ") SITES ++ nl
  ++ u "Query types: content (simple search), boolean_content (AND/OR logic), query_string (advanced field search)"
  ++ nl ++ nl
  ++ u "Return a JSON object with these fields:" ++ nl
  ++ u "- term: the search term or query" ++ nl
  ++ u "- site: the platform to search (default: telegram)" ++ nl
  ++ u "- limit: number of results (default: 20, max: 10000)" ++ nl
  ++ u "- querytype: type of query (default: content)" ++ nl ++ nl
  ++ u "Only return the JSON object, nothing else.".

(** The text handed to [json.loads]: the reply stripped; when it opens with
    a fence, its lines without the first and the last; then without a
    leading [json]. *)
Definition extract_json (response : pystr) : pystr :=
  let json_str := strip response in
  let json_str :=
    if startswith FENCE json_str
    then join nl (slice_1_m1 (split_char LF json_str))
    else json_str in
  if startswith (u "json") json_str then strip (skipn 4 json_str) else json_str.

Definition error_dict (msg : pystr) : pyval := PDict [(u "error", PStr msg)].

(** [for x in v]: the elements of a list, the characters of a string, the
    keys of a dict. *)
Definition py_iter (v : pyval) : result (list pyval) :=
  match v with
  | PList l => Ret l
  | PStr s => Ret (map (fun c => PStr [c]) s)
  | PDict d => Ret (map (fun kv => PStr (fst kv)) d)
  | _ => Raise TypeError
  end.

(** A loop body run on the items of [enumerate(items, i)], collecting what
    each round appends; the first exception ends the loop. *)
Fixpoint for_enumerate (A : Type) (body : nat -> pyval -> result A) (i : nat)
  (items : list pyval) : result (list A) :=
  match items with
  | [] => Ret []
  | x :: rest =>
      a <- body i x ;;
      more <- for_enumerate body (S i) rest ;;
      Ret (a :: more)
  end.

(** The [limit] entry of a [params] dict, when it is an int. *)
Definition sent_limit (params : pyval) : option Z :=
  match params with
  | PDict d => match dict_lookup (u "limit") d with
               | Some (PInt z) => Some z
               | _ => None
               end
  | _ => None
  end.

(** [limit] is something [min(limit, 10000)] can compare with an int. *)
Definition is_number (v : pyval) : bool :=
  match v with
  | PInt _ | PBool _ | PFloat _ => true
  | _ => false
  end.

(** The number of line feeds in a string. *)
Definition count_lf (s : pystr) : nat := List.length (filter (N.eqb LF) s).

End Common.

(* ===================================================================== *)
(** * OM_api.py: the command-line client *)
(* ===================================================================== *)

Module Cli.
Import Py Json Net Common.

Section Api.
Variable rt : Runtime.
Variable net : Network.

(** The [params] dict that [search] builds before the request. *)
Definition search_params (term site limit since until querytype : pyval)
  (sortdesc : bool) : result pyval :=
  lim <- min_10000 limit ;;                              (* Cap at API maximum *)
  let params :=
    [(u "term", term); (u "site", site); (u "limit", lim);
     (u "querytype", querytype);
     (u "sortdesc", PStr (lower (py_str rt (PBool sortdesc))))] in
  let params := if truthy since then dict_set (u "since") since params else params in
  let params := if truthy until then dict_set (u "until") until params else params in
  Ret (PDict params).

(** [OpenMeasuresAPI.search]; on a request error this copy also prints the
    error to the console, which is left out. *)
Definition search (term site limit since until querytype : pyval)
  (sortdesc : bool) : result pyval :=
  params <- search_params term site limit since until querytype sortdesc ;;
  match session_get net BASE_URL params with
  | inr body => Ret body
  | inl e => Ret (error_dict e)
  end.

(** [OpenMeasuresAPI.call_claude] *)
Definition call_claude (claude_api_key : option pystr) (prompt : pystr)
  : result pyval :=
  if key_missing claude_api_key then Ret (PStr (u "Error: Claude API key not set"))
  else
    match requests_post net claude_api_url (claude_headers claude_api_key)
            (claude_data prompt) with
    | inr result =>
        content <- py_getitem result (u "content") ;;
        block <- py_first content ;;
        py_getitem block (u "text")
    | inl e => Ret (PStr (u "Error calling Claude API: " ++ e))
    end.

(** One round of the loop in [_format_results_for_summary]. *)
Definition summary_entry (i : nat) (hit : pyval) : result pystr :=
  source <- py_get hit (u "_source") (PDict []) ;;
  message <- py_get source (u "message") PNone ;;
  txt <- py_get source (u "txt") PNone ;;
  content <- py_get source (u "content") PNone ;;
  text <- py_slice_to 500 (py_or (py_or (py_or message txt) content) (PStr [])) ;;
  uinf <- py_get source (u "uinf") (PDict []) ;;
  username <- py_get uinf (u "username") (PStr (u "Unknown")) ;;
  timestamp <- py_get source (u "timestamp") (PStr (u "N/A")) ;;
  Ret (u "Result " ++ str_of_nat i ++ u ":" ++ nl
       ++ u "User: " ++ py_str rt username ++ nl
       ++ u "Time: " ++ py_str rt timestamp ++ nl
       ++ u "Text: " ++ py_str rt text ++ nl).

(** [OpenMeasuresAPI._format_results_for_summary] *)
Definition _format_results_for_summary (hits : pyval) : result pystr :=
  first20 <- py_slice_to 20 hits ;;
  items <- py_iter first20 ;;
  formatted <- for_enumerate summary_entry 1 items ;;
  Ret (join nl formatted).

Definition summary_prompt (user_query : pystr) (params : pyval) (n_hits : nat)
  (results_text : pystr) : result pystr :=
  term <- py_get params (u "term") PNone ;;
  site <- py_get params (u "site") PNone ;;
  Ret (u "Analyze and summarize these search results from the Open Measures API."
       ++ nl ++ nl
       ++ u "Original query: " ++ DQ ++ user_query ++ DQ ++ nl
       ++ u "Search term: " ++ DQ ++ py_str rt term ++ DQ ++ nl
       ++ u "Platform: " ++ py_str rt site ++ nl
       ++ u "Number of results: " ++ str_of_nat n_hits ++ nl ++ nl
       ++ u "Results:" ++ nl ++ results_text ++ nl ++ nl
       ++ u "Provide a concise summary that includes:" ++ nl
       ++ u "1. Key themes and topics found" ++ nl
       ++ u "2. Notable patterns or trends" ++ nl
       ++ u "3. Any significant usernames or sources mentioned" ++ nl
       ++ u "4. Overall sentiment or tone if apparent" ++ nl ++ nl
       ++ u "Keep the summary under 300 words.").

(** The [try] block of [natural_language_search] once [json.loads] has
    returned [params]. *)
Definition search_and_summarize (claude_api_key : option pystr)
  (user_query : pystr) (params : pyval) : result pyval :=
  term <- py_get params (u "term") (PStr []) ;;
  site <- py_get params (u "site") (PStr (u "telegram")) ;;
  limit <- py_get params (u "limit") (PInt 20) ;;
  querytype <- py_get params (u "querytype") (PStr (u "content")) ;;
  results <- search term site limit PNone PNone querytype false ;;
  has_error <- py_in (u "error") results ;;
  if has_error then
    e <- py_getitem results (u "error") ;;
    Ret (PDict [(u "error", e)])
  else
    outer <- py_get results (u "hits") (PDict []) ;;
    hits <- py_get outer (u "hits") (PList []) ;;
    if negb (truthy hits) then
      Ret (PDict [(u "params", params); (u "results", PList []);
                  (u "summary", PStr (u "No results found for this query."))])
    else
      first20 <- py_slice_to 20 hits ;;
      results_text <- _format_results_for_summary first20 ;;
      n <- py_len hits ;;
      prompt <- summary_prompt user_query params n results_text ;;
      summary <- call_claude claude_api_key prompt ;;
      n' <- py_len hits ;;
      Ret (PDict [(u "params", params); (u "results", hits);
                  (u "summary", summary); (u "total_found", PInt (Z.of_nat n'))]).

(** The [try] statement of [natural_language_search], entered with the
    reply of the first completion call: a JSONDecodeError and any other
    exception each get their own message. *)
Definition interpret_reply (claude_api_key : option pystr)
  (user_query : pystr) (parse_response : pyval) : result pyval :=
  let other_exception (e : pyexn) :=
    Ret (error_dict (u "Error during natural language search: " ++ exn_message rt e)) in
  match parse_response with
  | PStr reply =>
      match loads rt (extract_json reply) with
      | Loaded params =>
          match search_and_summarize claude_api_key user_query params with
          | Ret v => Ret v
          | Raise e => other_exception e
          end
      | Failed e =>
          Ret (error_dict (u "Failed to parse Claude's response: " ++ error_str e
                           ++ nl ++ u "Response: " ++ reply))
      | Raised e => other_exception e
      end
  | _ => other_exception AttributeError
  end.

(** [OpenMeasuresAPI.natural_language_search].  The console output is left
    out.  [call_claude] runs before the [try]. *)
Definition natural_language_search (claude_api_key : option pystr)
  (user_query : pystr) : result pyval :=
  if key_missing claude_api_key then Ret (error_dict (u "Claude API key not set"))
  else
    parse_response <- call_claude claude_api_key (parse_prompt user_query) ;;
    interpret_reply claude_api_key user_query parse_response.

(** What [main] prints for one hit (the body of its display loop), line by
    line. *)
Definition display_result (i : nat) (result : pyval) : Py.result (list pystr) :=
  source <- py_get result (u "_source") (PDict []) ;;
  message <- py_get source (u "message") PNone ;;
  txt <- py_get source (u "txt") PNone ;;
  content <- py_get source (u "content") PNone ;;
  let text := py_or (py_or (py_or message txt) content) (PStr []) in
  timestamp <- py_get source (u "timestamp") (PStr (u "N/A")) ;;
  uinf <- py_get source (u "uinf") (PDict []) ;;
  username <- py_get uinf (u "username") (PStr (u "N/A")) ;;
  shown <- py_slice_to 300 text ;;
  n <- py_len text ;;
  Ret [u "Result " ++ str_of_nat i ++ u ":";
       u "  User: " ++ py_str rt username;
       u "  Time: " ++ py_str rt timestamp;
       u "  Text: " ++ py_str rt shown ++ (if 300 <? n then u "..." else []);
       List.concat (repeat (u "-") 60)].
(** [OpenMeasuresAPI.simple_search]: the [try] catches KeyError and
    AttributeError only, and the test ["error" in response] stands before
    it. *)
Definition simple_search (term site limit : pyval) : result pyval :=
  response <- search term site limit PNone PNone (PStr (u "content")) false ;;
  has_error <- py_in (u "error") response ;;
  if has_error then Ret (PList [])
  else
    match (outer <- py_get response (u "hits") (PDict []) ;;
           py_get outer (u "hits") (PList [])) with
    | Ret hits => Ret hits
    | Raise KeyError => Ret (PList [])
    | Raise AttributeError => Ret (PList [])
    | Raise e => Raise e
    end.

(** In [main]: [query_type_map] and
    [querytype = query_type_map.get(query_choice, "content")], where
    [query_choice] is the line typed, stripped, or "1" when that is empty. *)
Definition query_type_map : list (pystr * pyval) :=
  [(u "1", PStr (u "content"));
   (u "2", PStr (u "boolean_content"));
   (u "3", PStr (u "query_string"))].

Definition main_querytype (typed : pystr) : pyval :=
  let query_choice := match strip typed with [] => u "1" | c => c end in
  match dict_lookup query_choice query_type_map with
  | Some v => v
  | None => PStr (u "content")
  end.

(** In [main]: [total_value], from [hits.total] as an object or as a bare
    value. *)
Definition main_total_value (results : pyval) : result pyval :=
  outer <- py_get results (u "hits") (PDict []) ;;
  total <- py_get outer (u "total") (PDict []) ;;
  match total with
  | PDict _ => py_get total (u "value") (PInt 0)
  | _ => Ret total
  end.

(** What [main] prints once [api.search] has returned [results] (its
    "Display results" part): one string per [print] call. *)
Definition main_display (results : pyval) : result (list pystr) :=
  has_error <- py_in (u "error") results ;;
  if has_error then
    e <- py_getitem results (u "error") ;;
    Ret [u "Error: " ++ py_str rt e]
  else
    outer <- py_get results (u "hits") (PDict []) ;;
    hits <- py_get outer (u "hits") (PList []) ;;
    total_value <- main_total_value results ;;
    n <- py_len hits ;;
    let found := u "Found " ++ str_of_nat n ++ u " results (total matching: "
                 ++ py_str rt total_value ++ u ")" ++ nl in
    if negb (truthy hits) then Ret [found; u "No results found."]
    else
      items <- py_iter hits ;;
      blocks <- for_enumerate display_result 1 items ;;
      Ret (found :: List.concat blocks).
End Api.

End Cli.

(* ===================================================================== *)
(** * local-api-OM.py: the HTTP server *)
(* ===================================================================== *)

Module Server.
Import Py Json Net Common.

(** What a Flask view returns: a JSON body and a status. *)
Record http_response : Type := {
  body : pyval;
  status : Z
}.

(** [return jsonify(v)] and [return jsonify(v), code] *)
Definition jsonify (v : pyval) : http_response := {| body := v; status := 200 |}.
Definition jsonify_with (v : pyval) (code : Z) : http_response :=
  {| body := v; status := code |}.

(** The status the client sees: an exception that leaves the view is
    answered by Flask with 500. *)
Definition http_status (r : result http_response) : Z :=
  match r with
  | Ret resp => status resp
  | Raise _ => 500
  end.

Definition placeholder_key : pystr := u "your-claude-api-key-here".

(** The operator has replaced the placeholder key. *)
Definition key_configured (key : pystr) : Prop :=
  key_missing (Some key) = false /\ str_eqb key placeholder_key = false.

Section Api.
Variable rt : Runtime.
Variable net : Network.
(** The module constant [CLAUDE_API_KEY], which the operator edits. *)
Variable CLAUDE_API_KEY : pystr.

(** The [params] dict that [search] builds before the request. *)
Definition search_params (term site limit since until querytype : pyval)
  (sortdesc : bool) : result pyval :=
  lim <- min_10000 limit ;;
  let params :=
    [(u "term", term); (u "site", site); (u "limit", lim);
     (u "querytype", querytype);
     (u "sortdesc", PStr (lower (py_str rt (PBool sortdesc))))] in
  let params := if truthy since then dict_set (u "since") since params else params in
  let params := if truthy until then dict_set (u "until") until params else params in
  Ret (PDict params).

(** [OpenMeasuresAPI.search] *)
Definition search (term site limit since until querytype : pyval)
  (sortdesc : bool) : result pyval :=
  params <- search_params term site limit since until querytype sortdesc ;;
  match session_get net BASE_URL params with
  | inr body => Ret body
  | inl e => Ret (error_dict e)
  end.

(** [OpenMeasuresAPI.call_claude] *)
Definition call_claude (claude_api_key : option pystr) (prompt : pystr)
  : result pyval :=
  if key_missing claude_api_key then Ret (PStr (u "Error: Claude API key not set"))
  else
    match requests_post net claude_api_url (claude_headers claude_api_key)
            (claude_data prompt) with
    | inr result =>
        content <- py_getitem result (u "content") ;;
        block <- py_first content ;;
        py_getitem block (u "text")
    | inl e => Ret (PStr (u "Error calling Claude API: " ++ e))
    end.

(** The [try] statement of [parse_natural_language_query], entered with
    the reply of the completion call: only a JSONDecodeError is caught. *)
Definition parse_reply (response : pyval) : result pyval :=
  match response with
  | PStr reply =>
      match loads rt (extract_json reply) with
      | Loaded params => Ret params
      | Failed e => Ret (error_dict (u "Failed to parse query: " ++ error_str e))
      | Raised e => Raise e
      end
  | _ => Raise AttributeError
  end.

(** [OpenMeasuresAPI.parse_natural_language_query] *)
Definition parse_natural_language_query (claude_api_key : option pystr)
  (user_query : pyval) : result pyval :=
  response <- call_claude claude_api_key (parse_prompt (py_str rt user_query)) ;;
  parse_reply response.

(** [is_chat_completion = 'messages' in data and 'model' in data] *)
Definition is_chat_completion (data : pyval) : result bool :=
  has_messages <- py_in (u "messages") data ;;
  if has_messages then py_in (u "model") data else Ret false.

(** The chat branch of the query extraction, from the last message on. *)
Definition query_of_last_message (last_message : pyval) : pyval :=
  match last_message with
  | PDict d =>
      match dict_lookup (u "content") d with
      | Some (PStr content) =>
          if str_contains (u "]:") content then
            match split_once (u "]:") content with
            | _ :: part :: _ => PStr (strip part)
            | _ => PStr content
            end
          else PStr content
      | Some content => content
      | None => PNone
      end
  | _ => PNone
  end.

(** "Extract query from either format": the value of [query] when the
    handler reaches [if not query]. *)
Definition extract_query (data : pyval) : result pyval :=
  has_query <- py_in (u "query") data ;;
  if has_query then py_getitem data (u "query")
  else
    has_messages <- py_in (u "messages") data ;;
    if has_messages then
      messages <- py_getitem data (u "messages") ;;
      match messages with
      | PList (m :: ms) => Ret (query_of_last_message (last ms m))
      | _ => Ret PNone
      end
    else Ret PNone.

(** The URL shown to the caller, rebuilt from the interpreted parameters. *)
Definition api_request_url (params : pyval) : result pystr :=
  term <- py_get params (u "term") PNone ;;
  site <- py_get params (u "site") PNone ;;
  limit <- py_get params (u "limit") PNone ;;
  querytype <- py_get params (u "querytype") PNone ;;
  Ret (BASE_URL ++ u "?term=" ++ py_str rt term ++ u "&site=" ++ py_str rt site
       ++ u "&limit=" ++ py_str rt limit ++ u "&querytype=" ++ py_str rt querytype).

Definition search_parameters_block (params : pyval) : result pystr :=
  term <- py_get params (u "term") PNone ;;
  site <- py_get params (u "site") PNone ;;
  querytype <- py_get params (u "querytype") PNone ;;
  limit <- py_get params (u "limit") PNone ;;
  Ret (u "**Search Parameters:**" ++ nl
       ++ u "- Term: `" ++ py_str rt term ++ u "`" ++ nl
       ++ u "- Platform: `" ++ py_str rt site ++ u "`" ++ nl
       ++ u "- Query Type: `" ++ py_str rt querytype ++ u "`" ++ nl
       ++ u "- Limit: `" ++ py_str rt limit ++ u "`" ++ nl).

Definition request_sent_block (url : pystr) : pystr :=
  u "**API Request Sent:**" ++ nl ++ FENCE ++ nl ++ url ++ nl ++ FENCE.

(** [response_content]: the assistant message of a chat-format answer. *)
Definition response_content (query params results : pyval) : result pystr :=
  outer <- py_get results (u "hits") (PDict []) ;;
  hits <- py_get outer (u "hits") (PList []) ;;
  outer' <- py_get results (u "hits") (PDict []) ;;
  total <- py_get outer' (u "total") (PDict []) ;;
  total_hits <- match total with
                | PDict _ => py_get total (u "value") (PInt 0)
                | _ => Ret total
                end ;;
  url <- api_request_url params ;;
  has_error <- py_in (u "error") results ;;
  if has_error then
    e <- py_getitem results (u "error") ;;
    Ret (u "Error searching Open Measures: " ++ py_str rt e ++ nl ++ nl
         ++ request_sent_block url)
  else if negb (truthy hits) then
    block <- search_parameters_block params ;;
    Ret ([10060%N] ++ u " No results found for: " ++ py_str rt query ++ nl ++ nl
         ++ block ++ nl ++ request_sent_block url)
  else
    block <- search_parameters_block params ;;
    n <- py_len hits ;;
    Ret ([9989%N] ++ u " Open Measures Search Complete" ++ nl ++ nl
         ++ block
         ++ u "- Results Received: `" ++ str_of_nat n ++ u "`" ++ nl
         ++ u "- Total Available: `" ++ py_str rt total_hits ++ u "`" ++ nl ++ nl
         ++ request_sent_block url ++ nl ++ nl
         ++ u "**Raw JSON Results:**" ++ nl ++ FENCE ++ u "json" ++ nl
         ++ json_dumps_indent2 rt results
         ++ nl ++ FENCE).

(** ["created": int(request.headers.get('X-Request-Time', '0')) or 1234567890] *)
Definition created (x_request_time : option pystr) : result Z :=
  t <- py_int (match x_request_time with Some h => h | None => u "0" end) ;;
  Ret (if (t =? 0)%Z then 1234567890%Z else t).

(** The chat-completion object of the last [return jsonify]. *)
Definition chat_completion (data : pyval) (x_request_time : option pystr)
  (content : pystr) : result http_response :=
  t <- created x_request_time ;;
  model <- py_get data (u "model") (PStr (u "openai/gpt-oss-20b")) ;;
  Ret (jsonify (PDict
    [(u "id", PStr (u "chatcmpl-openmeasures"));
     (u "object", PStr (u "chat.completion"));
     (u "created", PInt t);
     (u "model", model);
     (u "choices",
      PList [PDict [(u "index", PInt 0);
                    (u "message", PDict [(u "role", PStr (u "assistant"));
                                         (u "content", PStr content)]);
                    (u "finish_reason", PStr (u "stop"))]])])).

(** The handler from [params = api.parse_natural_language_query(query)]
    on. *)
Definition answer_query (is_chat : bool) (data : pyval)
  (x_request_time : option pystr) (query : pyval) : result http_response :=
  params <- parse_natural_language_query (Some CLAUDE_API_KEY) query ;;
  has_error <- py_in (u "error") params ;;
  if has_error then
    e <- py_getitem params (u "error") ;;
    if is_chat then
      Ret (jsonify (PDict
        [(u "choices",
          PList [PDict [(u "message",
                         PDict [(u "role", PStr (u "assistant"));
                                (u "content",
                                 PStr (u "Error parsing query: " ++ py_str rt e))]);
                        (u "finish_reason", PStr (u "stop"))]])]))
    else
      Ret (jsonify_with (PDict [(u "error", e); (u "stage", PStr (u "parsing"))]) 400)
  else
    term <- py_get params (u "term") (PStr []) ;;
    site <- py_get params (u "site") (PStr (u "telegram")) ;;
    limit <- py_get params (u "limit") (PInt 20) ;;
    querytype <- py_get params (u "querytype") (PStr (u "content")) ;;
    results <- search term site limit PNone PNone querytype false ;;
    if is_chat then
      content <- response_content query params results ;;
      chat_completion data x_request_time content
    else
      Ret (jsonify results).

(** The view of [POST /search].  [data] is what [request.get_json()]
    returned, [x_request_time] the X-Request-Time header if the request
    carries one. *)
Definition search_route (data : pyval) (x_request_time : option pystr)
  : result http_response :=
  if negb (truthy data) then
    Ret (jsonify_with (error_dict (u "Missing request body")) 400)
  else
    is_chat <- is_chat_completion data ;;
    query <- extract_query data ;;
    if negb (truthy query) then
      Ret (jsonify_with
             (error_dict (u "Missing query. Provide either 'query' field or 'messages' array"))
             400)
    else if key_missing (Some CLAUDE_API_KEY) || str_eqb CLAUDE_API_KEY placeholder_key then
      Ret (jsonify_with
             (error_dict (u "Claude API key not configured. Please set CLAUDE_API_KEY in the code."))
             500)
    else answer_query is_chat data x_request_time query.
End Api.

End Server.

(* ===================================================================== *)
(** * Sample runs: a runtime, two networks, request bodies *)
(* ===================================================================== *)

Module Scenario.
Import Py Json Net Common.

(** A runtime with room for 994 nested arrays and objects and the default
    digit limit, for runs in which no float, no [repr] of a string and no
    exception message is asked for. *)
Definition rt0 : Runtime := {|
  parse_float := fun _ => PrimFloat.zero;
  float_repr := fun _ => u "0.0";
  str_repr := fun s => u "'" ++ s ++ u "'";
  json_dumps_indent2 := fun _ => u "{}";
  exn_message := fun _ => [];
  recursion_headroom := 94;
  errmsg_frames := 3;
  int_max_str_digits := 4300
|}.

(** An ASCII literal in which each apostrophe stands for a double quote. *)
Definition q (s : string) : pystr :=
  map (fun c => if (c =? 39)%N then 34%N else c) (u s).

Definition key0 : pystr := u "sk-test".

(** A completion response carrying [text] as its first content block. *)
Definition completion_body (text : pystr) : pyval :=
  PDict [(u "content",
          PList [PDict [(u "type", PStr (u "text")); (u "text", PStr text)]])].

(** The completion service answers every prompt with [reply]; the search
    service fails with a connection error. *)
Definition net_search_down (reply : pystr) : Network := {|
  session_get := fun _ _ => inl (u "connection refused");
  requests_post := fun _ _ _ => inr (completion_body reply)
|}.

(** The completion service answers every prompt with [reply]; the search
    service answers with [results]. *)
Definition net_ok (reply : pystr) (results : pyval) : Network := {|
  session_get := fun _ _ => inr results;
  requests_post := fun _ _ _ => inr (completion_body reply)
|}.

(** The completion service is unreachable. *)
Definition net_claude_down : Network := {|
  session_get := fun _ _ => inl (u "connection refused");
  requests_post := fun _ _ _ => inl (u "connection refused")
|}.

(** The completion service answers with the JSON body [response]. *)
Definition net_claude_body (response : pyval) : Network := {|
  session_get := fun _ _ => inl (u "connection refused");
  requests_post := fun _ _ _ => inr response
|}.

Definition reply_gab : pystr := q "{'term': 'X', 'site': 'gab', 'limit': 50}".

(** A chat-format body: [messages] and [model]. *)
Definition chat_body : pyval :=
  PDict [(u "model", PStr (u "gpt-4"));
         (u "messages",
          PList [PDict [(u "role", PStr (u "user"));
                        (u "content", PStr (u "find gab posts about X"))]])].

(** The request body of the actor-envelope example, as text and decoded. *)
Definition envelope_body_text : pystr :=
  q "{'messages':[{'role':'user','content':'[alice (123) at 2024-01-01]:\nfind gab posts about X'}]}".

Definition envelope_message : pyval :=
  PDict [(u "role", PStr (u "user"));
         (u "content",
          PStr (u "[alice (123) at 2024-01-01]:" ++ nl
                ++ u "find gab posts about X"))].

Definition envelope_body : pyval :=
  PDict [(u "messages", PList [envelope_message])].

Definition one_hit : pyval :=
  PDict [(u "hits",
          PDict [(u "total", PDict [(u "value", PInt 1)]);
                 (u "hits",
                  PList [PDict [(u "_source",
                                 PDict [(u "message", PStr (u "hello"))])]])])].

(** A hit whose only text field is [message]. *)
Definition hit_with_message (text : pystr) : pyval :=
  PDict [(u "_source", PDict [(u "message", PStr text)])].

(** A reply of a thousand opening brackets. *)
Definition deep_reply : pystr := repeat 91%N 1000.

(** [n + 1] arrays inside one another, closed: the value [json.loads]
    builds for them. *)
Fixpoint nested_lists (n : nat) : pyval :=
  match n with
  | O => PList []
  | S m => PList [nested_lists m]
  end.

End Scenario.

(* ===================================================================== *)
(** * Facts about strings *)
(* ===================================================================== *)

Import Py Json Net Common.

Unset Implicit Arguments.

Section StringFacts.

Lemma startswith_app (p s : pystr) : startswith p (p ++ s) = true.
Proof.
  induction p as [|c p IH]; simpl; [reflexivity|].
  now rewrite N.eqb_refl, IH.
Qed.

Lemma find_sub_app (sub pre post : pystr) :
  exists before after, find_sub sub (pre ++ sub ++ post) = Some (before, after).
Proof.
  induction pre as [|c pre IH].
  - simpl. exists [], (skipn (List.length sub) (sub ++ post)).
    destruct (sub ++ post) eqn:E; unfold find_sub; fold find_sub;
      rewrite <- E, startswith_app; reflexivity.
  - destruct IH as (b & a & IH).
    destruct (startswith sub ((c :: pre) ++ sub ++ post)) eqn:E.
    + exists [], (skipn (List.length sub) ((c :: pre) ++ sub ++ post)).
      simpl app in *. unfold find_sub; fold find_sub. now rewrite E.
    + exists (c :: b), a.
      simpl app in *. unfold find_sub; fold find_sub. now rewrite E, IH.
Qed.

(** A string contains each of its pieces. *)
Lemma str_contains_app (sub pre post : pystr) :
  str_contains sub (pre ++ sub ++ post) = true.
Proof.
  unfold str_contains.
  destruct (find_sub_app sub pre post) as (b & a & ->). reflexivity.
Qed.

Lemma str_eqb_refl (s : pystr) : str_eqb s s = true.
Proof. induction s; simpl; [reflexivity | now rewrite N.eqb_refl]. Qed.

Lemma str_eqb_eq (a b : pystr) : str_eqb a b = true <-> a = b.
Proof.
  split; [|intros ->; apply str_eqb_refl].
  revert b; induction a as [|x a IH]; destruct b as [|y b]; simpl; try easy.
  rewrite andb_true_iff, N.eqb_eq. intros [-> H]. now rewrite (IH _ H).
Qed.

Variable blank : char -> bool.

Lemma lstrip_of_cons (c : char) (s : pystr) :
  blank c = false -> lstrip_of blank (c :: s) = c :: s.
Proof. intros H; simpl; now rewrite H. Qed.

Lemma rstrip_of_cons (c : char) (s : pystr) :
  blank c = false -> exists r, rstrip_of blank (c :: s) = c :: r.
Proof.
  intros H; simpl. destruct (rstrip_of blank s); [rewrite H|]; eauto.
Qed.

Lemma rstrip_of_last (s : pystr) (c : char) :
  blank c = false -> rstrip_of blank (s ++ [c]) = s ++ [c].
Proof.
  intros H; induction s as [|x s IH]; simpl.
  - now rewrite H.
  - rewrite IH. destruct (s ++ [c]) eqn:E; [|reflexivity].
    now destruct s.
Qed.

(** Stripping leaves alone a string that neither starts nor ends with a
    blank. *)
Lemma strip_of_framed (a b : char) (s : pystr) :
  blank a = false -> blank b = false ->
  strip_of blank (a :: s ++ [b]) = a :: s ++ [b].
Proof.
  intros Ha Hb; unfold strip_of. rewrite lstrip_of_cons by assumption.
  apply (rstrip_of_last (a :: s)); assumption.
Qed.

Lemma strip_of_cons (c : char) (s : pystr) :
  blank c = false -> exists r, strip_of blank (c :: s) = c :: r.
Proof.
  intros H; unfold strip_of. rewrite lstrip_of_cons by assumption.
  now apply rstrip_of_cons.
Qed.

End StringFacts.

Lemma split_char_nonempty (sep : char) (s : pystr) : split_char sep s <> [].
Proof.
  destruct s as [|c s]; simpl; [easy|].
  destruct (N.eqb c sep); [easy|]. now destruct (split_char sep s).
Qed.

(** Splitting at a separator splits each side of it. *)
Lemma split_char_app (sep : char) (s t : pystr) :
  split_char sep (s ++ sep :: t) = split_char sep s ++ split_char sep t.
Proof.
  induction s as [|c s IH]; simpl.
  - now rewrite N.eqb_refl.
  - destruct (N.eqb c sep); [now rewrite IH|].
    rewrite IH. destruct (split_char sep s) eqn:E; [|reflexivity].
    now apply split_char_nonempty in E.
Qed.

(** Joining the pieces with the separator gives the string back. *)
Lemma join_split_char (sep : char) (s : pystr) :
  join [sep] (split_char sep s) = s.
Proof.
  induction s as [|c s IH]; simpl; [reflexivity|].
  destruct (N.eqb c sep) eqn:E.
  - apply N.eqb_eq in E; subst c.
    destruct (split_char sep s) eqn:S; [now apply split_char_nonempty in S|].
    simpl in *. now rewrite IH.
  - destruct (split_char sep s) as [|l ls] eqn:S; [now apply split_char_nonempty in S|].
    destruct ls; simpl in *; now rewrite <- IH.
Qed.

(* ===================================================================== *)
(** * The limit sent to the search service *)
(* ===================================================================== *)

Lemma dict_lookup_set_other (k k' : pystr) (v : pyval) (d : list (pystr * pyval)) :
  str_eqb k k' = false -> dict_lookup k (dict_set k' v d) = dict_lookup k d.
Proof.
  intros H. induction d as [|[k0 v0] d IH]; simpl.
  - now rewrite H.
  - destruct (str_eqb k' k0) eqn:E; simpl.
    + apply str_eqb_eq in E; subst k0. now rewrite H.
    + now rewrite IH.
Qed.

(** Both copies of [search] send [min(L, 10000)] for an int limit [L]. *)
Lemma cli_search_params_limit (rt : Runtime) (term site since until querytype : pyval)
  (sortdesc : bool) (L : Z) :
  exists params,
    Cli.search_params rt term site (PInt L) since until querytype sortdesc = Ret params
    /\ sent_limit params = Some (Z.min L 10000).
Proof.
  unfold Cli.search_params; simpl.
  assert (E : (if (10000 <? L)%Z then PInt 10000 else PInt L) = PInt (Z.min L 10000)).
  { destruct (Z.ltb_spec 10000 L); f_equal; lia. }
  rewrite E. eexists; split; [reflexivity|].
  unfold sent_limit.
  destruct (truthy since), (truthy until);
    rewrite ?dict_lookup_set_other by reflexivity; reflexivity.
Qed.

Lemma server_search_params_limit (rt : Runtime) (term site since until querytype : pyval)
  (sortdesc : bool) (L : Z) :
  exists params,
    Server.search_params rt term site (PInt L) since until querytype sortdesc = Ret params
    /\ sent_limit params = Some (Z.min L 10000).
Proof.
  unfold Server.search_params; simpl.
  assert (E : (if (10000 <? L)%Z then PInt 10000 else PInt L) = PInt (Z.min L 10000)).
  { destruct (Z.ltb_spec 10000 L); f_equal; lia. }
  rewrite E. eexists; split; [reflexivity|].
  unfold sent_limit.
  destruct (truthy since), (truthy until);
    rewrite ?dict_lookup_set_other by reflexivity; reflexivity.
Qed.

(** C1, as stated, fails: a limit of 0 is sent as 0, below the claimed lower
    bound 1.  (CLI copy; the server copy computes the same.) *)
Lemma search_limit_zero_sent_as_zero :
  exists params,
    Cli.search_params Scenario.rt0 (PStr (u "x")) (PStr (u "telegram")) (PInt 0)
      PNone PNone (PStr (u "content")) false = Ret params
    /\ sent_limit params = Some 0%Z
    /\ ~ (1 <= 0 <= 10000)%Z.
Proof.
  eexists; split; [reflexivity|]. split; [reflexivity|lia].
Qed.

(** C1 (amended): for every int limit [L], in both programs, [search] puts
    [min(L, 10000)] in the [params] it dispatches; so the limit sent never
    exceeds 10000, and it is at least 1 exactly when [L] is: there is an
    upper cap and no lower clamp. *)
Theorem search_limit_is_min (rt : Runtime) (net : Network)
  (term site since until querytype : pyval) (sortdesc : bool) (L : Z) :
  (exists params,
      Cli.search_params rt term site (PInt L) since until querytype sortdesc = Ret params
      /\ sent_limit params = Some (Z.min L 10000)
      /\ Cli.search rt net term site (PInt L) since until querytype sortdesc
         = Ret (match session_get net BASE_URL params with
                | inr body => body
                | inl e => error_dict e
                end))
  /\ (exists params,
      Server.search_params rt term site (PInt L) since until querytype sortdesc = Ret params
      /\ sent_limit params = Some (Z.min L 10000)
      /\ Server.search rt net term site (PInt L) since until querytype sortdesc
         = Ret (match session_get net BASE_URL params with
                | inr body => body
                | inl e => error_dict e
                end))
  /\ (Z.min L 10000 <= 10000)%Z
  /\ (0 < L -> 1 <= Z.min L 10000)%Z
  /\ (L <= 0 -> Z.min L 10000 = L)%Z.
Proof.
  repeat split; try lia.
  - destruct (cli_search_params_limit rt term site since until querytype sortdesc L)
      as (params & Hp & Hl).
    exists params. repeat split; try assumption.
    unfold Cli.search. rewrite Hp. simpl.
    now destruct (session_get net BASE_URL params).
  - destruct (server_search_params_limit rt term site since until querytype sortdesc L)
      as (params & Hp & Hl).
    exists params. repeat split; try assumption.
    unfold Server.search. rewrite Hp. simpl.
    now destruct (session_get net BASE_URL params).
Qed.

Lemma search_limit_is_min_witness :
  (1 <= Z.min 50 10000)%Z /\ Z.min (-3) 10000 = (-3)%Z.
Proof.
  split.
  - refine (proj1 (proj2 (proj2 (proj2
      (search_limit_is_min Scenario.rt0 Scenario.net_claude_down
         (PStr (u "x")) (PStr (u "gab")) PNone PNone (PStr (u "content")) false 50))))
      _).
    reflexivity.
  - refine (proj2 (proj2 (proj2 (proj2
      (search_limit_is_min Scenario.rt0 Scenario.net_claude_down
         (PStr (u "x")) (PStr (u "gab")) PNone PNone (PStr (u "content")) false (-3)))))
      _).
    discriminate.
Defined.

(* ===================================================================== *)
(** * The completion client *)
(* ===================================================================== *)

(** C4, as stated, fails: a completion response without [content] makes
    [call_claude] raise KeyError, and one whose [content] is empty makes it
    raise IndexError; neither returns a Failure. *)
Lemma call_claude_bad_shape_raises :
  Cli.call_claude (Scenario.net_claude_body (PDict [])) (Some Scenario.key0) (u "hi")
  = Raise KeyError
  /\ Server.call_claude (Scenario.net_claude_body (PDict [])) (Some Scenario.key0) (u "hi")
     = Raise KeyError
  /\ Cli.call_claude (Scenario.net_claude_body (PDict [(u "content", PList [])]))
       (Some Scenario.key0) (u "hi")
     = Raise IndexError
  /\ Server.call_claude (Scenario.net_claude_body (PDict [(u "content", PList [])]))
       (Some Scenario.key0) (u "hi")
     = Raise IndexError.
Proof. repeat split; reflexivity. Qed.

(** A transport error comes back as an ordinary string. *)
Lemma call_claude_transport_error (net : Network) (key : option pystr)
  (prompt e : pystr) :
  key_missing key = false ->
  requests_post net claude_api_url (claude_headers key) (claude_data prompt) = inl e ->
  Cli.call_claude net key prompt = Ret (PStr (u "Error calling Claude API: " ++ e))
  /\ Server.call_claude net key prompt
     = Ret (PStr (u "Error calling Claude API: " ++ e)).
Proof.
  intros Hkey Hpost. unfold Cli.call_claude, Server.call_claude.
  now rewrite Hkey, Hpost.
Qed.

(** C4 (amended): with a key set, [call_claude] (both copies) returns the
    [text] entry of the first element of the response's [content]; on a
    transport error it returns, without raising, the string
    "Error calling Claude API: " followed by the error; on a response
    without [content] it raises KeyError and on an empty [content] it raises
    IndexError. *)
Theorem call_claude_outcomes (net : Network) (key : option pystr) (prompt : pystr) :
  key_missing key = false ->
  let sent := requests_post net claude_api_url (claude_headers key) (claude_data prompt) in
  (forall d b blocks t,
      sent = inr (PDict d) ->
      dict_lookup (u "content") d = Some (PList (PDict b :: blocks)) ->
      dict_lookup (u "text") b = Some t ->
      Cli.call_claude net key prompt = Ret t
      /\ Server.call_claude net key prompt = Ret t)
  /\ (forall e,
      sent = inl e ->
      Cli.call_claude net key prompt = Ret (PStr (u "Error calling Claude API: " ++ e))
      /\ Server.call_claude net key prompt = Ret (PStr (u "Error calling Claude API: " ++ e)))
  /\ (forall d,
      sent = inr (PDict d) ->
      dict_lookup (u "content") d = None ->
      Cli.call_claude net key prompt = Raise KeyError
      /\ Server.call_claude net key prompt = Raise KeyError)
  /\ (forall d,
      sent = inr (PDict d) ->
      dict_lookup (u "content") d = Some (PList []) ->
      Cli.call_claude net key prompt = Raise IndexError
      /\ Server.call_claude net key prompt = Raise IndexError).
Proof.
  intros Hkey sent. unfold Cli.call_claude, Server.call_claude. rewrite Hkey.
  subst sent. repeat split; intros.
  all: match goal with H : requests_post _ _ _ _ = _ |- _ => rewrite H end.
  all: simpl; try reflexivity.
  all: match goal with H : dict_lookup (u "content") _ = _ |- _ => rewrite H end.
  all: simpl; try reflexivity.
  all: match goal with H : dict_lookup (u "text") _ = _ |- _ => rewrite H end.
  all: reflexivity.
Qed.

Lemma call_claude_outcomes_witness :
  (Cli.call_claude (Scenario.net_claude_body (Scenario.completion_body (u "ok")))
     (Some Scenario.key0) (u "hi") = Ret (PStr (u "ok"))
   /\ Server.call_claude (Scenario.net_claude_body (Scenario.completion_body (u "ok")))
        (Some Scenario.key0) (u "hi") = Ret (PStr (u "ok")))
  /\ (Cli.call_claude Scenario.net_claude_down (Some Scenario.key0) (u "hi")
      = Ret (PStr (u "Error calling Claude API: " ++ u "connection refused"))
      /\ Server.call_claude Scenario.net_claude_down (Some Scenario.key0) (u "hi")
         = Ret (PStr (u "Error calling Claude API: " ++ u "connection refused"))).
Proof.
  split.
  - refine (proj1 (call_claude_outcomes
                     (Scenario.net_claude_body (Scenario.completion_body (u "ok")))
                     (Some Scenario.key0) (u "hi") eq_refl) _ _ _ _ eq_refl eq_refl eq_refl).
  - refine (proj1 (proj2 (call_claude_outcomes Scenario.net_claude_down
                            (Some Scenario.key0) (u "hi") eq_refl)) _ eq_refl).
Defined.

(* ===================================================================== *)
(** * The decoder's fuel *)
(* ===================================================================== *)

Lemma skip_ws_length (s : pystr) (p : nat) :
  List.length (fst (skip_ws s p)) <= List.length s.
Proof.
  revert p. induction s as [|c s IH]; intros p; simpl; [lia|].
  destruct (is_json_ws c); simpl; [specialize (IH (S p)); lia | lia].
Qed.

Lemma span_digits_length (s : pystr) :
  List.length (snd (span_digits s)) <= List.length s.
Proof.
  induction s as [|c s IH]; simpl; [lia|].
  destruct (is_digit c); simpl; lia.
Qed.

Lemma progress_shorter (A : Type) (s s' : pystr) (r : scan A) :
  List.length s' <= List.length s -> progress s' r -> progress s r.
Proof. destruct r; simpl; lia. Qed.

Lemma scanstring_progress (n : nat) :
  forall (s : pystr) (begin : nat) (acc : pystr) (pos : nat),
    List.length s <= n -> progress s (scanstring begin acc s pos).
Proof.
  induction n as [|n IH]; intros s begin acc pos Hn.
  - destruct s; [exact I | simpl in Hn; lia].
  - destruct s as [|c s1]; [exact I|].
    cbn [scanstring].
    destruct (c =? 34)%N; [simpl; lia|].
    destruct (c =? 92)%N.
    + destruct s1 as [|e s2]; [exact I|].
      destruct (e =? 117)%N.
      * destruct s2 as [|h1 [|h2 [|h3 [|h4 [|x s3]]]]]; try exact I.
        destruct (hex4 h1 h2 h3 h4) as [c1|]; [|exact I].
        assert (Hrec : forall acc' pos',
                   progress (c :: e :: h1 :: h2 :: h3 :: h4 :: x :: s3)
                     (scanstring begin acc' (x :: s3) pos')).
        { intros acc' pos'.
          apply progress_shorter with (s' := x :: s3); [simpl; lia|].
          apply IH. simpl in *; lia. }
        destruct s3 as [|w [|g1 [|g2 [|g3 [|g4 [|y s4]]]]]]; try apply Hrec.
        destruct (is_high_surrogate c1 && (x =? 92)%N && (w =? 117)%N); [|apply Hrec].
        destruct (hex4 g1 g2 g3 g4) as [c2|]; [|exact I].
        destruct (is_low_surrogate c2); [|apply Hrec].
        apply progress_shorter with (s' := y :: s4); [simpl; lia|].
        apply IH. simpl in *; lia.
      * destruct (simple_escape e) as [d|]; [|exact I].
        apply progress_shorter with (s' := s2); [simpl; lia|].
        apply IH. simpl in *; lia.
    + destruct (c <=? 31)%N; [exact I|].
      apply progress_shorter with (s' := s1); [simpl; lia|].
      apply IH. simpl in *; lia.
Qed.

Lemma match_number_progress (rt : Runtime) (s : pystr) (pos : nat) :
  progress s (match_number rt s pos).
Proof.
  unfold match_number.
  set (neg := match s with c :: _ => (c =? 45)%N | [] => false end).
  set (s0 := if neg then tl s else s).
  assert (H0 : List.length s0 <= List.length s).
  { unfold s0. destruct neg; [destruct s; simpl; lia | lia]. }
  destruct s0 as [|c s1]; [exact I|].
  assert (Hexp : forall (ds : pystr) (s1' : pystr),
             List.length s1' < List.length s ->
             progress s
               (let frac :=
                  match s1' with
                  | dot :: d :: _ =>
                      if (dot =? 46)%N && is_digit d then
                        let r := span_digits (tl s1') in (dot :: fst r, snd r)
                      else ([], s1')
                  | _ => ([], s1')
                  end in
                let s2 := snd frac in
                let expo :=
                  match s2 with
                  | e :: s3 =>
                      if ((e =? 101) || (e =? 69))%N then
                        let sign_rest :=
                          match s3 with
                          | sg :: s4 =>
                              if ((sg =? 45) || (sg =? 43))%N then ([sg], s4) else ([], s3)
                          | [] => ([], s3)
                          end in
                        let r := span_digits (snd sign_rest) in
                        match fst r with
                        | [] => ([], s2)
                        | _ => (e :: fst sign_rest ++ fst r, snd r)
                        end
                      else ([], s2)
                  | [] => ([], s2)
                  end in
                let lexeme := (if neg then [45%N] else []) ++ ds ++ fst frac ++ fst expo in
                match fst frac, fst expo with
                | [], [] =>
                    if exceeds_int_limit (int_max_str_digits rt) (List.length ds)
                    then Raises ValueError
                    else Scanned (PInt (if neg then - digits_value ds else digits_value ds))
                           (snd expo) (pos + List.length lexeme)
                | _, _ =>
                    Scanned (PFloat (parse_float rt lexeme)) (snd expo)
                      (pos + List.length lexeme)
                end)).
  { intros ds s1' Hlt. cbv zeta.
    set (frac := match s1' with
                 | dot :: d :: _ =>
                     if (dot =? 46)%N && is_digit d then
                       (dot :: fst (span_digits (tl s1')), snd (span_digits (tl s1')))
                     else ([], s1')
                 | _ => ([], s1')
                 end).
    assert (Hf : List.length (snd frac) <= List.length s1').
    { unfold frac. destruct s1' as [|dot [|d r]]; simpl; try lia.
      destruct ((dot =? 46)%N && is_digit d); simpl; [|lia].
      pose proof (span_digits_length (d :: r)). simpl in *. lia. }
    set (s2 := snd frac) in *.
    set (expo := match s2 with
                 | e :: s3 => _
                 | [] => ([], s2)
                 end).
    assert (He : List.length (snd expo) <= List.length s2).
    { unfold expo. destruct s2 as [|e s3]; simpl; [lia|].
      destruct ((e =? 101) || (e =? 69))%N; simpl; [|lia].
      set (sr := match s3 with
                 | sg :: s4 => if ((sg =? 45) || (sg =? 43))%N then ([sg], s4) else ([], s3)
                 | [] => ([], s3)
                 end).
      assert (Hs : List.length (snd sr) <= List.length s3).
      { unfold sr. destruct s3 as [|sg s4]; simpl; [lia|].
        destruct ((sg =? 45) || (sg =? 43))%N; simpl; lia. }
      pose proof (span_digits_length (snd sr)).
      destruct (fst (span_digits (snd sr))); simpl; lia. }
    destruct (fst frac), (fst expo);
      try destruct (exceeds_int_limit (int_max_str_digits rt) (List.length ds));
      simpl; try exact I; lia. }
  destruct ((49 <=? c) && (c <=? 57))%N.
  - apply Hexp. pose proof (span_digits_length s1). simpl in *. lia.
  - destruct (c =? 48)%N; [|exact I].
    apply Hexp. simpl in *. lia.
Qed.

Lemma skipn_progress (A : Type) (v : A) (k : nat) (s : pystr) (pos : nat) :
  0 < k -> k <= List.length s ->
  progress s (Scanned v (skipn k s) pos).
Proof. intros Hk Hs. simpl. rewrite length_skipn. lia. Qed.

Lemma startswith_length (p s : pystr) :
  startswith p s = true -> List.length p <= List.length s.
Proof.
  revert s. induction p as [|x p IH]; intros s H; simpl; [lia|].
  destruct s as [|y s]; [discriminate|]. simpl in H.
  apply andb_true_iff in H as [_ H]. specialize (IH s H). simpl. lia.
Qed.

Lemma progress_raise_errmsg (rt : Runtime) (s : pystr) (room : nat) (m : errmsg)
  (pos : nat) :
  progress s (raise_errmsg rt room m pos).
Proof. unfold raise_errmsg. now destruct (Nat.ltb room (errmsg_frames rt)). Qed.

Lemma scan_progress (rt : Runtime) (fuel : nat) :
  (forall room s pos, 2 * List.length s + 1 <= fuel ->
                      progress s (scan_once rt fuel room s pos))
  /\ (forall room acc s pos, 2 * List.length s + 1 <= fuel ->
                             progress s (parse_members rt fuel room acc s pos))
  /\ (forall room acc s pos, 2 * List.length s + 2 <= fuel ->
                             progress s (parse_elements rt fuel room acc s pos)).
Proof.
  induction fuel as [|f (IHv & IHm & IHe)].
  - repeat split; intros; lia.
  - split; [|split].
    + intros room s pos Hf. cbn [scan_once].
      destruct s as [|c s1]; [first [exact I | apply progress_raise_errmsg]|]. simpl in Hf.
      destruct (c =? 34)%N.
      { pose proof (scanstring_progress (List.length s1) s1 pos [] (S pos) (le_n _)) as H.
        destruct (scanstring pos [] s1 (S pos)); simpl in *; try exact I; try apply progress_raise_errmsg;
          try apply progress_raise_errmsg; lia. }
      destruct (c =? 123)%N.
      { destruct room as [|inner]; [first [exact I | apply progress_raise_errmsg]|].
        pose proof (skip_ws_length s1 (S pos)) as Hw.
        destruct (fst (skip_ws s1 (S pos))) as [|x rest] eqn:E.
        - apply progress_shorter with (s' := []); [simpl; lia|].
          apply IHm. simpl. lia.
        - assert (Hm : progress (c :: s1)
                         (parse_members rt f inner [] (x :: rest) (snd (skip_ws s1 (S pos))))).
          { apply progress_shorter with (s' := x :: rest); [simpl in *; lia|].
            apply IHm. simpl in *. lia. }
          destruct x; try exact Hm.
          repeat (match goal with
                  | |- context [match ?p with xH => _ | xI _ => _ | xO _ => _ end] =>
                      destruct p; try exact Hm
                  end).
          simpl in *. lia. }
      destruct (c =? 91)%N.
      { destruct room as [|inner]; [first [exact I | apply progress_raise_errmsg]|].
        pose proof (skip_ws_length s1 (S pos)) as Hw.
        destruct (fst (skip_ws s1 (S pos))) as [|x rest] eqn:E.
        - apply progress_shorter with (s' := []); [simpl; lia|].
          apply IHe. simpl. lia.
        - assert (Hm : progress (c :: s1)
                         (parse_elements rt f inner [] (x :: rest) (snd (skip_ws s1 (S pos))))).
          { apply progress_shorter with (s' := x :: rest); [simpl in *; lia|].
            apply IHe. simpl in *. lia. }
          destruct x; try exact Hm.
          repeat (match goal with
                  | |- context [match ?p with xH => _ | xI _ => _ | xO _ => _ end] =>
                      destruct p; try exact Hm
                  end).
          simpl in *. lia. }
      repeat match goal with
             | |- progress _ (if startswith ?p ?t then _ else _) =>
                 let E := fresh "E" in
                 destruct (startswith p t) eqn:E;
                 [apply startswith_length in E; apply skipn_progress;
                  [lia | exact E]|]
             end.
      apply match_number_progress.
    + intros room acc s pos Hf. cbn [parse_members].
      destruct s as [|c s1]; [first [exact I | apply progress_raise_errmsg]|].
      assert (Hbody :
                progress (c :: s1)
                  match scanstring pos [] s1 (S pos) with
                  | Scanned key s2 p2 =>
                      let sp3 := skip_ws s2 p2 in
                      match fst sp3 with
                      | 58%N :: s4 =>
                          let sp5 := skip_ws s4 (S (snd sp3)) in
                          match scan_once rt f room (fst sp5) (snd sp5) with
                          | Scanned v s6 p6 =>
                              let sp7 := skip_ws s6 p6 in
                              let acc' := dict_set key v acc in
                              match fst sp7 with
                              | 125%N :: s8 => Scanned (PDict acc') s8 (S (snd sp7))
                              | 44%N :: s8 =>
                                  let sp9 := skip_ws s8 (S (snd sp7)) in
                                  parse_members rt f room acc' (fst sp9) (snd sp9)
                              | _ => raise_errmsg rt room ExpectingComma (snd sp7)
                              end
                          | other => other
                          end
                      | _ => raise_errmsg rt room ExpectingColon (snd sp3)
                      end
                  | StopIteration i => StopIteration i
                  | DecodeFail m p => raise_errmsg rt room m p
                  | Raises e => Raises e
                  | Exhausted => Exhausted
                  end).
      { pose proof (scanstring_progress (List.length s1) s1 pos [] (S pos) (le_n _)) as H.
        destruct (scanstring pos [] s1 (S pos)) as [key s2 p2| | | |];
          try exact I; try apply progress_raise_errmsg; [|exact H].
        simpl in H. cbv zeta.
        pose proof (skip_ws_length s2 p2) as Hw3.
        destruct (fst (skip_ws s2 p2)) as [|x s4]; [first [exact I | apply progress_raise_errmsg]|].
        assert (Hcolon :
                  progress (c :: s1)
                    match scan_once rt f room (fst (skip_ws s4 (S (snd (skip_ws s2 p2)))))
                            (snd (skip_ws s4 (S (snd (skip_ws s2 p2))))) with
                    | Scanned v s6 p6 =>
                        match fst (skip_ws s6 p6) with
                        | 125%N :: s8 =>
                            Scanned (PDict (dict_set key v acc)) s8 (S (snd (skip_ws s6 p6)))
                        | 44%N :: s8 =>
                            parse_members rt f room (dict_set key v acc)
                              (fst (skip_ws s8 (S (snd (skip_ws s6 p6)))))
                              (snd (skip_ws s8 (S (snd (skip_ws s6 p6)))))
                        | _ => raise_errmsg rt room ExpectingComma (snd (skip_ws s6 p6))
                        end
                    | other => other
                    end).
        { pose proof (skip_ws_length s4 (S (snd (skip_ws s2 p2)))) as Hw5.
          simpl in Hw3, Hf.
          pose proof (IHv room (fst (skip_ws s4 (S (snd (skip_ws s2 p2)))))
                        (snd (skip_ws s4 (S (snd (skip_ws s2 p2)))))
                        ltac:(lia)) as Hv.
          destruct (scan_once rt f room (fst (skip_ws s4 (S (snd (skip_ws s2 p2)))))
                      (snd (skip_ws s4 (S (snd (skip_ws s2 p2))))))
            as [v s6 p6| | | |]; try exact I; try apply progress_raise_errmsg; [|exact Hv].
          simpl in Hv.
          pose proof (skip_ws_length s6 p6) as Hw7.
          destruct (fst (skip_ws s6 p6)) as [|y s8]; [first [exact I | apply progress_raise_errmsg]|].
          pose proof (skip_ws_length s8 (S (snd (skip_ws s6 p6)))) as Hw9.
          simpl in Hw7.
          assert (Hloop : progress (c :: s1)
                            (parse_members rt f room (dict_set key v acc)
                               (fst (skip_ws s8 (S (snd (skip_ws s6 p6)))))
                               (snd (skip_ws s8 (S (snd (skip_ws s6 p6))))))).
          { apply progress_shorter
              with (s' := fst (skip_ws s8 (S (snd (skip_ws s6 p6))))); [simpl; lia|].
            apply IHm. lia. }
          destruct y; try exact I; try apply progress_raise_errmsg.
          repeat (match goal with
                  | |- context [match ?p with xH => _ | xI _ => _ | xO _ => _ end] =>
                      destruct p; try exact I; try apply progress_raise_errmsg
                  end); try exact Hloop.
          simpl. lia. }
        destruct x; try exact I; try apply progress_raise_errmsg.
        repeat (match goal with
                | |- context [match ?p with xH => _ | xI _ => _ | xO _ => _ end] =>
                    destruct p; try exact I; try apply progress_raise_errmsg
                end).
        exact Hcolon. }
      destruct c; try exact I; try apply progress_raise_errmsg.
      repeat (match goal with
              | |- context [match ?p with xH => _ | xI _ => _ | xO _ => _ end] =>
                  destruct p; try exact I; try apply progress_raise_errmsg
              end).
      exact Hbody.
    + intros room acc s pos Hf. cbn [parse_elements].
      pose proof (IHv room s pos ltac:(lia)) as Hv.
      destruct (scan_once rt f room s pos) as [v s1 p1| | | |]; try exact I; try apply progress_raise_errmsg; [|exact Hv].
      simpl in Hv.
      pose proof (skip_ws_length s1 p1) as Hw2. cbv zeta.
      destruct (fst (skip_ws s1 p1)) as [|y s3]; [first [exact I | apply progress_raise_errmsg]|].
      pose proof (skip_ws_length s3 (S (snd (skip_ws s1 p1)))) as Hw4.
      simpl in Hw2.
      assert (Hloop : progress s
                        (parse_elements rt f room (acc ++ [v])
                           (fst (skip_ws s3 (S (snd (skip_ws s1 p1)))))
                           (snd (skip_ws s3 (S (snd (skip_ws s1 p1))))))).
      { apply progress_shorter
          with (s' := fst (skip_ws s3 (S (snd (skip_ws s1 p1))))); [lia|].
        apply IHe. lia. }
      destruct y; try exact I; try apply progress_raise_errmsg.
      repeat (match goal with
              | |- context [match ?p with xH => _ | xI _ => _ | xO _ => _ end] =>
                  destruct p; try exact I; try apply progress_raise_errmsg
              end); try exact Hloop.
      simpl. lia.
Qed.

(** The fuel [json.loads] runs its scanner with is never used up: when it
    raises RecursionError, more arrays and objects were open than the
    recursion limit leaves room for. *)
Lemma loads_fuel_suffices (rt : Runtime) (doc : pystr) :
  scan_once rt (2 * List.length doc + 2) (recursion_room rt)
    (fst (skip_ws doc 0)) (snd (skip_ws doc 0)) <> Exhausted.
Proof.
  pose proof (skip_ws_length doc 0) as Hw.
  pose proof (proj1 (scan_progress rt (2 * List.length doc + 2))
                (recursion_room rt) (fst (skip_ws doc 0)) (snd (skip_ws doc 0))
                ltac:(lia)) as H.
  intros E. rewrite E in H. exact H.
Qed.

(* ===================================================================== *)
(** * The query interpreter *)
(* ===================================================================== *)

(** A document that opens with the letter E is no JSON: the decoder stops at
    index 0. *)
Lemma loads_starting_with_E (rt : Runtime) (s : pystr) :
  loads rt (69%N :: s)
  = Failed {| err_msg := ExpectingValue; err_doc := 69%N :: s; err_pos := 0 |}.
Proof. reflexivity. Qed.

Lemma error_str_at_start (doc : pystr) :
  error_str {| err_msg := ExpectingValue; err_doc := doc; err_pos := 0 |}
  = u "Expecting value: line 1 column 1 (char 0)".
Proof. reflexivity. Qed.

Lemma extract_json_starting_with_E (s : pystr) :
  exists r, extract_json (69%N :: s) = 69%N :: r.
Proof.
  unfold extract_json, strip.
  destruct (strip_of_cons is_space 69%N s eq_refl) as [r Hr].
  exists r. rewrite Hr. reflexivity.
Qed.

Lemma loads_extract_json_E (rt : Runtime) (s : pystr) :
  loads rt (extract_json (69%N :: s))
  = Failed {| err_msg := ExpectingValue; err_doc := extract_json (69%N :: s);
              err_pos := 0 |}.
Proof.
  destruct (extract_json_starting_with_E s) as [r Hr]. rewrite Hr.
  apply loads_starting_with_E.
Qed.

(** What each interpreter answers when [json.loads] raises. *)
Lemma cli_interpret_reply_failed (rt : Runtime) (net : Network)
  (key : option pystr) (user_query reply : pystr) (e : JSONDecodeError) :
  loads rt (extract_json reply) = Failed e ->
  Cli.interpret_reply rt net key user_query (PStr reply)
  = Ret (error_dict (u "Failed to parse Claude's response: " ++ error_str e
                     ++ nl ++ u "Response: " ++ reply)).
Proof. intros H. unfold Cli.interpret_reply. now rewrite H. Qed.

Lemma server_parse_reply_failed (rt : Runtime) (reply : pystr) (e : JSONDecodeError) :
  loads rt (extract_json reply) = Failed e ->
  Server.parse_reply rt (PStr reply)
  = Ret (error_dict (u "Failed to parse query: " ++ error_str e)).
Proof. intros H. unfold Server.parse_reply. now rewrite H. Qed.

Lemma cli_interpret_reply_raised (rt : Runtime) (net : Network)
  (key : option pystr) (user_query reply : pystr) (x : pyexn) :
  loads rt (extract_json reply) = Raised x ->
  Cli.interpret_reply rt net key user_query (PStr reply)
  = Ret (error_dict (u "Error during natural language search: " ++ exn_message rt x)).
Proof. intros H. unfold Cli.interpret_reply. now rewrite H. Qed.

Lemma server_parse_reply_raised (rt : Runtime) (reply : pystr) (x : pyexn) :
  loads rt (extract_json reply) = Raised x ->
  Server.parse_reply rt (PStr reply) = Raise x.
Proof. intros H. unfold Server.parse_reply. now rewrite H. Qed.

(** C9: when the completion call fails in transport, [call_claude] returns
    the string "Error calling Claude API: ..." as if it were the reply; the
    interpreter (both copies) then fails to decode it as JSON, and the
    caller receives a JSON parse failure ("Expecting value" at the first
    character), not a transport failure. *)
Theorem transport_error_surfaces_as_parse_failure
  (rt : Runtime) (net : Network) (key : option pystr) (user_query e : pystr) :
  key_missing key = false ->
  requests_post net claude_api_url (claude_headers key)
    (claude_data (parse_prompt user_query)) = inl e ->
  Cli.call_claude net key (parse_prompt user_query)
  = Ret (PStr (u "Error calling Claude API: " ++ e))
  /\ Server.call_claude net key (parse_prompt user_query)
     = Ret (PStr (u "Error calling Claude API: " ++ e))
  /\ Cli.natural_language_search rt net key user_query
     = Ret (error_dict
              (u "Failed to parse Claude's response: "
               ++ u "Expecting value: line 1 column 1 (char 0)"
               ++ nl ++ u "Response: " ++ u "Error calling Claude API: " ++ e))
  /\ Server.parse_natural_language_query rt net key (PStr user_query)
     = Ret (error_dict
              (u "Failed to parse query: "
               ++ u "Expecting value: line 1 column 1 (char 0)")).
Proof.
  intros Hkey Hpost.
  destruct (call_claude_transport_error net key (parse_prompt user_query) e
              Hkey Hpost) as [Hc Hs].
  pose proof (loads_extract_json_E rt (tl (u "Error calling Claude API: ") ++ e)) as Hl.
  change (69%N :: tl (u "Error calling Claude API: ") ++ e)
    with (u "Error calling Claude API: " ++ e) in Hl.
  repeat split; try assumption.
  - unfold Cli.natural_language_search. rewrite Hkey, Hc. cbn [bind].
    rewrite (cli_interpret_reply_failed rt net key user_query _ _ Hl).
    now rewrite error_str_at_start.
  - unfold Server.parse_natural_language_query. simpl py_str. rewrite Hs. cbn [bind].
    rewrite (server_parse_reply_failed rt _ _ Hl).
    now rewrite error_str_at_start.
Qed.

Lemma transport_error_surfaces_as_parse_failure_witness :
  Cli.natural_language_search Scenario.rt0 Scenario.net_claude_down
    (Some Scenario.key0) (u "find gab posts about X")
  = Ret (error_dict
           (u "Failed to parse Claude's response: "
            ++ u "Expecting value: line 1 column 1 (char 0)"
            ++ nl ++ u "Response: " ++ u "Error calling Claude API: "
            ++ u "connection refused"))
  /\ Server.parse_natural_language_query Scenario.rt0 Scenario.net_claude_down
       (Some Scenario.key0) (PStr (u "find gab posts about X"))
     = Ret (error_dict
              (u "Failed to parse query: "
               ++ u "Expecting value: line 1 column 1 (char 0)")).
Proof.
  destruct (transport_error_surfaces_as_parse_failure Scenario.rt0
              Scenario.net_claude_down (Some Scenario.key0)
              (u "find gab posts about X") (u "connection refused")
              eq_refl eq_refl) as (_ & _ & Hcli & Hsrv).
  exact (conj Hcli Hsrv).
Defined.

(** C5, as stated, fails for the server: its failure carries the parse error
    only.  The reply "hello" is not JSON, and it does not occur in the
    message [parse_natural_language_query] returns. *)
Lemma server_parse_failure_drops_reply :
  Server.parse_natural_language_query Scenario.rt0
    (Scenario.net_ok (u "hello") (PDict [])) (Some Scenario.key0)
    (PStr (u "find gab posts about X"))
  = Ret (error_dict (u "Failed to parse query: Expecting value: line 1 column 1 (char 0)"))
  /\ str_contains (u "hello")
       (u "Failed to parse query: Expecting value: line 1 column 1 (char 0)") = false.
Proof. split; reflexivity. Qed.

(** C5 (amended): when [json.loads] raises JSONDecodeError on the reply
    after fence stripping, the CLI interpreter [natural_language_search]
    returns a failure whose message carries both the parse error and the
    raw reply, while the server interpreter
    [parse_natural_language_query] returns a failure whose message carries
    the parse error only.  When [json.loads] raises another exception on
    the reply (RecursionError for arrays and objects nested deeper than the
    recursion limit allows, ValueError for an integer literal beyond the
    digit limit), neither holds: the CLI interpreter returns the failure
    "Error during natural language search: ..." without the reply, and the
    server interpreter lets the exception escape. *)
Theorem parse_failure_messages
  (rt : Runtime) (net : Network) (key : option pystr) (user_query reply : pystr) :
  key_missing key = false ->
  Cli.call_claude net key (parse_prompt user_query) = Ret (PStr reply) ->
  Server.call_claude net key (parse_prompt user_query) = Ret (PStr reply) ->
  (forall e : JSONDecodeError,
      loads rt (extract_json reply) = Failed e ->
      let cli_msg := u "Failed to parse Claude's response: " ++ error_str e
                     ++ nl ++ u "Response: " ++ reply in
      let server_msg := u "Failed to parse query: " ++ error_str e in
      Cli.natural_language_search rt net key user_query = Ret (error_dict cli_msg)
      /\ str_contains (error_str e) cli_msg = true
      /\ str_contains reply cli_msg = true
      /\ Server.parse_natural_language_query rt net key (PStr user_query)
         = Ret (error_dict server_msg)
      /\ str_contains (error_str e) server_msg = true)
  /\ (forall x : pyexn,
        loads rt (extract_json reply) = Raised x ->
        Cli.natural_language_search rt net key user_query
        = Ret (error_dict (u "Error during natural language search: "
                           ++ exn_message rt x))
        /\ Server.parse_natural_language_query rt net key (PStr user_query)
           = Raise x).
Proof.
  intros Hkey Hc Hs. split.
  - intros e Hl cli_msg server_msg. split; [|split; [|split; [|split]]].
    + unfold Cli.natural_language_search. rewrite Hkey, Hc. cbn [bind].
      now apply cli_interpret_reply_failed.
    + apply str_contains_app.
    + unfold cli_msg.
      replace (u "Failed to parse Claude's response: " ++ error_str e
               ++ nl ++ u "Response: " ++ reply)
        with ((u "Failed to parse Claude's response: " ++ error_str e
               ++ nl ++ u "Response: ") ++ reply ++ [])
        by (rewrite app_nil_r, <- !app_assoc; reflexivity).
      apply str_contains_app.
    + unfold Server.parse_natural_language_query. simpl py_str. rewrite Hs. cbn [bind].
      now apply server_parse_reply_failed.
    + unfold server_msg.
      replace (error_str e) with (error_str e ++ []) at 2 by apply app_nil_r.
      apply str_contains_app.
  - intros x Hl. split.
    + unfold Cli.natural_language_search. rewrite Hkey, Hc. cbn [bind].
      now apply cli_interpret_reply_raised.
    + unfold Server.parse_natural_language_query. simpl py_str. rewrite Hs. cbn [bind].
      now apply server_parse_reply_raised.
Qed.

Lemma parse_failure_messages_witness :
  (Cli.natural_language_search Scenario.rt0 (Scenario.net_ok (u "hello") (PDict []))
     (Some Scenario.key0) (u "find gab posts about X")
   = Ret (error_dict
            (u "Failed to parse Claude's response: "
             ++ u "Expecting value: line 1 column 1 (char 0)"
             ++ nl ++ u "Response: " ++ u "hello"))
   /\ Server.parse_natural_language_query Scenario.rt0
        (Scenario.net_ok (u "hello") (PDict [])) (Some Scenario.key0)
        (PStr (u "find gab posts about X"))
      = Ret (error_dict
               (u "Failed to parse query: "
                ++ u "Expecting value: line 1 column 1 (char 0)")))
  /\ (Cli.natural_language_search Scenario.rt0
        (Scenario.net_ok Scenario.deep_reply (PDict []))
        (Some Scenario.key0) (u "find gab posts about X")
      = Ret (error_dict (u "Error during natural language search: "
                         ++ exn_message Scenario.rt0 RecursionError))
      /\ Server.parse_natural_language_query Scenario.rt0
           (Scenario.net_ok Scenario.deep_reply (PDict [])) (Some Scenario.key0)
           (PStr (u "find gab posts about X"))
         = Raise RecursionError).
Proof.
  split.
  - destruct (proj1 (parse_failure_messages Scenario.rt0
                       (Scenario.net_ok (u "hello") (PDict [])) (Some Scenario.key0)
                       (u "find gab posts about X") (u "hello")
                       eq_refl eq_refl eq_refl)
                {| err_msg := ExpectingValue; err_doc := u "hello"; err_pos := 0 |}
                eq_refl) as (Hcli & _ & _ & Hsrv & _).
    exact (conj Hcli Hsrv).
  - refine (proj2 (parse_failure_messages Scenario.rt0
                     (Scenario.net_ok Scenario.deep_reply (PDict []))
                     (Some Scenario.key0)
                     (u "find gab posts about X") Scenario.deep_reply
                     eq_refl eq_refl eq_refl)
              RecursionError _).
    vm_compute. reflexivity.
Defined.

(** ** Fenced replies *)

(** The lines of a reply fenced with a [json] tag: the opening fence, the
    lines of the text, the closing fence. *)
Lemma fenced_lines (text : pystr) :
  split_char LF (u "```json" ++ nl ++ text ++ nl ++ u "```")
  = u "```json" :: split_char LF text ++ [u "```"].
Proof.
  change (u "```json" ++ nl ++ text ++ nl ++ u "```")
    with (u "```json" ++ LF :: (text ++ LF :: u "```")).
  now rewrite !split_char_app.
Qed.

Lemma fenced_is_framed (text : pystr) :
  u "```json" ++ nl ++ text ++ nl ++ u "```"
  = 96%N :: (tl (u "```json") ++ nl ++ text ++ nl ++ u "``") ++ [96%N].
Proof.
  change (u "```") with (u "``" ++ [96%N]).
  change (u "```json") with (96%N :: tl (u "```json")).
  rewrite <- !app_comm_cons, <- !app_assoc. reflexivity.
Qed.

(** Fence stripping gives back the text between the fences, when that text
    is an object literal: it opens with a brace and closes with one. *)
Lemma extract_json_fenced (body : pystr) :
  extract_json (u "```json" ++ nl ++ (123%N :: body ++ [125%N]) ++ nl ++ u "```")
  = 123%N :: body ++ [125%N].
Proof.
  unfold extract_json, strip.
  rewrite fenced_is_framed, strip_of_framed by reflexivity.
  rewrite <- fenced_is_framed.
  change (startswith FENCE
            (u "```json" ++ nl ++ (123%N :: body ++ [125%N]) ++ nl ++ u "```"))
    with true.
  cbv iota. rewrite fenced_lines.
  unfold slice_1_m1. cbn [tl]. rewrite removelast_last.
  unfold nl. rewrite join_split_char. reflexivity.
Qed.

Lemma join_cons (sep x : pystr) (rest : list pystr) :
  rest <> [] -> join sep (x :: rest) = x ++ sep ++ join sep rest.
Proof. destruct rest; [contradiction | reflexivity]. Qed.

(** The same with the tag on a line of its own: the first and last lines go,
    then the leading [json]. *)
Lemma extract_json_fenced_tag_line (body : pystr) :
  extract_json (u "```" ++ nl ++ u "json" ++ nl ++ (123%N :: body ++ [125%N])
                ++ nl ++ u "```")
  = 123%N :: body ++ [125%N].
Proof.
  unfold extract_json, strip.
  assert (Hframed :
            u "```" ++ nl ++ u "json" ++ nl ++ (123%N :: body ++ [125%N]) ++ nl ++ u "```"
            = 96%N :: (u "``" ++ nl ++ u "json" ++ nl ++ (123%N :: body ++ [125%N])
                       ++ nl ++ u "``") ++ [96%N]).
  { unfold nl. simpl. repeat (f_equal; []). now rewrite <- !app_assoc. }
  rewrite Hframed, strip_of_framed by reflexivity. rewrite <- Hframed.
  change (startswith FENCE
            (u "```" ++ nl ++ u "json" ++ nl ++ (123%N :: body ++ [125%N])
             ++ nl ++ u "```"))
    with true.
  cbv iota.
  assert (Hj : join nl (slice_1_m1 (split_char LF
                 (u "```" ++ nl ++ u "json" ++ nl ++ (123%N :: body ++ [125%N])
                  ++ nl ++ u "```")))
               = u "json" ++ LF :: 123%N :: body ++ [125%N]).
  { change (u "```" ++ nl ++ u "json" ++ nl ++ (123%N :: body ++ [125%N])
            ++ nl ++ u "```")
      with (u "```" ++ LF :: (u "json" ++ LF
                              :: ((123%N :: body ++ [125%N]) ++ LF :: u "```"))).
    rewrite !split_char_app.
    change (split_char LF (u "```")) with [u "```"].
    change (split_char LF (u "json")) with [u "json"].
    unfold slice_1_m1. cbn [app tl].
    change (u "json" :: split_char LF (123%N :: body ++ [125%N]) ++ [u "```"])
      with ((u "json" :: split_char LF (123%N :: body ++ [125%N])) ++ [u "```"]).
    rewrite removelast_last, join_cons by apply split_char_nonempty.
    unfold nl. now rewrite join_split_char. }
  rewrite Hj.
  change (startswith (u "json") (u "json" ++ LF :: 123%N :: body ++ [125%N]))
    with true.
  cbv iota.
  change (skipn 4 (u "json" ++ LF :: 123%N :: body ++ [125%N]))
    with (LF :: 123%N :: body ++ [125%N]).
  unfold strip_of.
  change (lstrip_of is_space (LF :: 123%N :: body ++ [125%N]))
    with (123%N :: body ++ [125%N]).
  apply (rstrip_of_last is_space (123%N :: body) 125%N). reflexivity.
Qed.

Lemma extract_json_bare (body : pystr) :
  extract_json (123%N :: body ++ [125%N]) = 123%N :: body ++ [125%N].
Proof.
  unfold extract_json, strip.
  rewrite strip_of_framed by reflexivity. reflexivity.
Qed.

(** C7: a reply that wraps an object literal in a fenced block tagged
    [json] (first line the fence with the tag, last line the closing fence)
    is handed to [json.loads] as the very text of the object, exactly as
    the unwrapped reply is; so both interpreters decode the two replies to
    the same object.  The stripping drops the first and the last line, then
    a leading [json] that is left. *)
Theorem fenced_reply_parses_like_bare
  (rt : Runtime) (net : Network) (key : option pystr) (user_query body : pystr) :
  let object_text := 123%N :: body ++ [125%N] in
  let fenced := u "```json" ++ nl ++ object_text ++ nl ++ u "```" in
  extract_json fenced = object_text
  /\ extract_json (u "```" ++ nl ++ u "json" ++ nl ++ object_text ++ nl ++ u "```")
     = object_text
  /\ extract_json object_text = object_text
  /\ loads rt (extract_json fenced) = loads rt (extract_json object_text)
  /\ Server.parse_reply rt (PStr fenced) = Server.parse_reply rt (PStr object_text)
  /\ (forall params,
        loads rt object_text = Loaded params ->
        Server.parse_reply rt (PStr fenced) = Ret params
        /\ Cli.interpret_reply rt net key user_query (PStr fenced)
           = Cli.interpret_reply rt net key user_query (PStr object_text)).
Proof.
  intros object_text fenced.
  assert (Hf : extract_json fenced = object_text) by apply extract_json_fenced.
  assert (Hb : extract_json object_text = object_text) by apply extract_json_bare.
  split; [exact Hf|]. split; [apply extract_json_fenced_tag_line|].
  split; [exact Hb|]. split; [now rewrite Hf, Hb|].
  split; [unfold Server.parse_reply; now rewrite Hf, Hb|].
  intros params Hl. split.
  - unfold Server.parse_reply. now rewrite Hf, Hl.
  - unfold Cli.interpret_reply. now rewrite Hf, Hb, Hl.
Qed.

Lemma fenced_reply_parses_like_bare_witness :
  Server.parse_reply Scenario.rt0
    (PStr (u "```json" ++ nl ++ Scenario.reply_gab ++ nl ++ u "```"))
  = Ret (PDict [(u "term", PStr (u "X")); (u "site", PStr (u "gab"));
                (u "limit", PInt 50)])
  /\ Cli.interpret_reply Scenario.rt0 Scenario.net_claude_down (Some Scenario.key0)
       (u "find gab posts about X")
       (PStr (u "```json" ++ nl ++ Scenario.reply_gab ++ nl ++ u "```"))
     = Cli.interpret_reply Scenario.rt0 Scenario.net_claude_down (Some Scenario.key0)
         (u "find gab posts about X") (PStr Scenario.reply_gab).
Proof.
  exact (proj2 (proj2 (proj2 (proj2 (proj2
    (fenced_reply_parses_like_bare Scenario.rt0 Scenario.net_claude_down
       (Some Scenario.key0) (u "find gab posts about X")
       (removelast (tl Scenario.reply_gab)))))))
    (PDict [(u "term", PStr (u "X")); (u "site", PStr (u "gab")); (u "limit", PInt 50)])
    eq_refl).
Defined.

(* ===================================================================== *)
(** * Truncation of a hit's text *)
(* ===================================================================== *)

(** C6, as stated, fails in the summary path: a text of 501 characters is
    cut to its first 500 and nothing is appended; the formatted block holds
    no ellipsis. *)
Lemma summary_truncation_adds_no_ellipsis :
  Cli._format_results_for_summary Scenario.rt0
    (PList [Scenario.hit_with_message (repeat 97%N 501)])
  = Ret (u "Result 1:" ++ nl ++ u "User: Unknown" ++ nl ++ u "Time: N/A" ++ nl
         ++ u "Text: " ++ repeat 97%N 500 ++ nl)
  /\ str_contains (u "...")
       (u "Result 1:" ++ nl ++ u "User: Unknown" ++ nl ++ u "Time: N/A" ++ nl
        ++ u "Text: " ++ repeat 97%N 500 ++ nl) = false.
Proof. split; vm_compute; reflexivity. Qed.

(** C6 (amended): for a hit whose text is the string [text], the summary
    path ([_format_results_for_summary]) shows its first 500 characters
    and never appends an ellipsis; the display path (the loop of [main])
    shows its first 300 characters and appends "..." exactly when the text
    is longer than 300. *)
Theorem text_truncation (rt : Runtime) (i : nat) (text : pystr) :
  Cli._format_results_for_summary rt (PList [Scenario.hit_with_message text])
  = Ret (u "Result 1:" ++ nl ++ u "User: Unknown" ++ nl ++ u "Time: N/A" ++ nl
         ++ u "Text: " ++ firstn 500 text ++ nl)
  /\ List.length (firstn 500 text) <= 500
  /\ Cli.display_result rt i (Scenario.hit_with_message text)
     = Ret [u "Result " ++ str_of_nat i ++ u ":";
            u "  User: N/A";
            u "  Time: N/A";
            u "  Text: " ++ firstn 300 text
              ++ (if 300 <? List.length text then u "..." else []);
            List.concat (repeat (u "-") 60)]
  /\ List.length (firstn 300 text) <= 300
  /\ (List.length text <= 300 -> firstn 300 text = text)
  /\ (List.length text <= 500 -> firstn 500 text = text).
Proof.
  repeat split.
  - destruct text; reflexivity.
  - apply firstn_le_length.
  - destruct text; reflexivity.
  - apply firstn_le_length.
  - apply firstn_all2.
  - apply firstn_all2.
Qed.

Lemma text_truncation_witness :
  firstn 300 (u "hello") = u "hello" /\ firstn 500 (u "hello") = u "hello".
Proof.
  destruct (text_truncation Scenario.rt0 1 (u "hello")) as (_ & _ & _ & _ & H3 & H5).
  split; [apply H3 | apply H5]; vm_compute; repeat constructor.
Defined.

(* ===================================================================== *)
(** * The view of POST /search *)
(* ===================================================================== *)

Lemma dict_with_entry_truthy (k : pystr) (v : pyval) (d : list (pystr * pyval)) :
  dict_lookup k d = Some v -> truthy (PDict d) = true.
Proof. now destruct d. Qed.

(** A body with [messages] and without [query] and [model]: the query comes
    from the last message, and the request is not a chat completion. *)
Lemma route_messages_without_model
  (rt : Runtime) (net : Network) (key : pystr) (hdr : option pystr)
  (d : list (pystr * pyval)) (m : pyval) (ms : list pyval) :
  Server.key_configured key ->
  dict_lookup (u "messages") d = Some (PList (m :: ms)) ->
  dict_lookup (u "model") d = None ->
  dict_lookup (u "query") d = None ->
  truthy (Server.query_of_last_message (last ms m)) = true ->
  Server.search_route rt net key (PDict d) hdr
  = Server.answer_query rt net key false (PDict d) hdr
      (Server.query_of_last_message (last ms m)).
Proof.
  intros [Hk Hp] Hm Hmodel Hq Ht.
  unfold Server.search_route, Server.is_chat_completion, Server.extract_query.
  rewrite (dict_with_entry_truthy _ _ _ Hm).
  unfold py_in, py_getitem. rewrite Hm, Hmodel, Hq. cbn [bind negb].
  rewrite Ht, Hk, Hp. reflexivity.
Qed.

(** C8: for the body
    {"messages":[{"role":"user","content":"[alice (123) at 2024-01-01]:\nfind gab posts about X"}]}
    the handler extracts the query "find gab posts about X" (the text after
    the first "]:", stripped) and, once a key is configured, hands exactly
    that text to the interpreter. *)
Theorem envelope_query_extracted
  (rt : Runtime) (net : Network) (key : pystr) (hdr : option pystr) :
  Server.key_configured key ->
  loads rt Scenario.envelope_body_text = Loaded Scenario.envelope_body
  /\ Server.extract_query Scenario.envelope_body
     = Ret (PStr (u "find gab posts about X"))
  /\ Server.search_route rt net key Scenario.envelope_body hdr
     = Server.answer_query rt net key false Scenario.envelope_body hdr
         (PStr (u "find gab posts about X"))
  /\ Server.answer_query rt net key false Scenario.envelope_body hdr
       (PStr (u "find gab posts about X"))
     = bind (Server.parse_natural_language_query rt net (Some key)
               (PStr (u "find gab posts about X")))
         (fun params =>
            bind (py_in (u "error") params)
              (fun has_error =>
                 if has_error
                 then bind (py_getitem params (u "error"))
                        (fun e => Ret (Server.jsonify_with
                                         (PDict [(u "error", e);
                                                 (u "stage", PStr (u "parsing"))]) 400))
                 else
                   bind (py_get params (u "term") (PStr []))
                     (fun term =>
                   bind (py_get params (u "site") (PStr (u "telegram")))
                     (fun site =>
                   bind (py_get params (u "limit") (PInt 20))
                     (fun limit =>
                   bind (py_get params (u "querytype") (PStr (u "content")))
                     (fun querytype =>
                   bind (Server.search rt net term site limit PNone PNone querytype false)
                     (fun results => Ret (Server.jsonify results))))))))
  /\ Server.parse_natural_language_query rt net (Some key)
       (PStr (u "find gab posts about X"))
     = bind (Server.call_claude net (Some key)
               (parse_prompt (u "find gab posts about X")))
         (Server.parse_reply rt).
Proof.
  intros Hkey. split; [|split; [|split; [|split]]].
  - reflexivity.
  - reflexivity.
  - unfold Scenario.envelope_body.
    rewrite (route_messages_without_model rt net key hdr
               [(u "messages", PList [Scenario.envelope_message])]
               Scenario.envelope_message [] Hkey eq_refl eq_refl eq_refl eq_refl).
    replace (Server.query_of_last_message (last [] Scenario.envelope_message))
      with (PStr (u "find gab posts about X")) by (vm_compute; reflexivity).
    reflexivity.
  - unfold Server.answer_query.
    destruct (Server.parse_natural_language_query rt net (Some key)
                (PStr (u "find gab posts about X"))) as [params|]; [|reflexivity].
    cbn [bind]. destruct (py_in (u "error") params) as [[|]|]; reflexivity.
  - reflexivity.
Qed.

Lemma envelope_query_extracted_witness :
  Server.extract_query Scenario.envelope_body = Ret (PStr (u "find gab posts about X"))
  /\ Server.search_route Scenario.rt0 Scenario.net_claude_down Scenario.key0
       Scenario.envelope_body None
     = Server.answer_query Scenario.rt0 Scenario.net_claude_down Scenario.key0 false
         Scenario.envelope_body None (PStr (u "find gab posts about X")).
Proof.
  destruct (envelope_query_extracted Scenario.rt0 Scenario.net_claude_down
              Scenario.key0 None (conj eq_refl eq_refl)) as (_ & H1 & H2 & _).
  exact (conj H1 H2).
Defined.

(** C10: a body with a non-empty [messages] array and no [model] (and no
    [query]) is handled as a simple-format request although its query is
    taken from the last message, actor envelope stripped: an interpretation
    failure is answered with status 400 and an error object tagged stage
    "parsing", and a search that returns is answered with the raw search
    envelope, not with a chat-completion object. *)
Theorem messages_without_model_is_simple_format
  (rt : Runtime) (net : Network) (key : pystr) (hdr : option pystr)
  (d : list (pystr * pyval)) (m : pyval) (ms : list pyval) :
  Server.key_configured key ->
  dict_lookup (u "messages") d = Some (PList (m :: ms)) ->
  dict_lookup (u "model") d = None ->
  dict_lookup (u "query") d = None ->
  truthy (Server.query_of_last_message (last ms m)) = true ->
  let query := Server.query_of_last_message (last ms m) in
  Server.is_chat_completion (PDict d) = Ret false
  /\ Server.extract_query (PDict d) = Ret query
  /\ (forall md content before after,
         last ms m = PDict md ->
         dict_lookup (u "content") md = Some (PStr content) ->
         find_sub (u "]:") content = Some (before, after) ->
         query = PStr (strip after))
  /\ (forall params e,
         Server.parse_natural_language_query rt net (Some key) query = Ret params ->
         py_in (u "error") params = Ret true ->
         py_getitem params (u "error") = Ret e ->
         Server.search_route rt net key (PDict d) hdr
         = Ret (Server.jsonify_with
                  (PDict [(u "error", e); (u "stage", PStr (u "parsing"))]) 400))
  /\ (forall p term site limit querytype results,
         Server.parse_natural_language_query rt net (Some key) query = Ret (PDict p) ->
         dict_lookup (u "error") p = None ->
         py_get (PDict p) (u "term") (PStr []) = Ret term ->
         py_get (PDict p) (u "site") (PStr (u "telegram")) = Ret site ->
         py_get (PDict p) (u "limit") (PInt 20) = Ret limit ->
         py_get (PDict p) (u "querytype") (PStr (u "content")) = Ret querytype ->
         Server.search rt net term site limit PNone PNone querytype false = Ret results ->
         Server.search_route rt net key (PDict d) hdr = Ret (Server.jsonify results)).
Proof.
  intros Hkey Hm Hmodel Hq Ht query.
  pose proof (route_messages_without_model rt net key hdr d m ms
                Hkey Hm Hmodel Hq Ht) as Hroute.
  fold query in Hroute.
  split; [|split; [|split; [|split]]].
  - unfold Server.is_chat_completion, py_in. now rewrite Hm, Hmodel.
  - unfold Server.extract_query, py_in, py_getitem. now rewrite Hq, Hm.
  - intros md content before after Hlast Hc Hf. unfold query.
    rewrite Hlast. unfold Server.query_of_last_message, str_contains, split_once.
    now rewrite Hc, Hf.
  - intros params e Hparse Hin He. rewrite Hroute.
    unfold Server.answer_query. rewrite Hparse. cbn [bind].
    rewrite Hin. cbn [bind]. now rewrite He.
  - intros p term site limit querytype results Hparse Herr H1 H2 H3 H4 Hs.
    rewrite Hroute. unfold Server.answer_query. rewrite Hparse. cbn [bind].
    unfold py_in at 1. rewrite Herr. cbn [bind].
    rewrite H1. cbn [bind]. rewrite H2. cbn [bind]. rewrite H3. cbn [bind].
    rewrite H4. cbn [bind]. now rewrite Hs.
Qed.

Lemma messages_without_model_is_simple_format_witness :
  Server.search_route Scenario.rt0 (Scenario.net_ok (u "hello") Scenario.one_hit)
    Scenario.key0 Scenario.envelope_body None
  = Ret (Server.jsonify_with
           (PDict [(u "error",
                    PStr (u "Failed to parse query: Expecting value: line 1 column 1 (char 0)"));
                   (u "stage", PStr (u "parsing"))]) 400)
  /\ Server.search_route Scenario.rt0
       (Scenario.net_ok Scenario.reply_gab Scenario.one_hit)
       Scenario.key0 Scenario.envelope_body None
     = Ret (Server.jsonify Scenario.one_hit).
Proof.
  split.
  - refine (proj1 (proj2 (proj2 (proj2
      (messages_without_model_is_simple_format Scenario.rt0
         (Scenario.net_ok (u "hello") Scenario.one_hit) Scenario.key0 None
         [(u "messages", PList [Scenario.envelope_message])]
         Scenario.envelope_message []
         (conj eq_refl eq_refl) eq_refl eq_refl eq_refl eq_refl))))
      _ _ eq_refl eq_refl eq_refl).
  - refine (proj2 (proj2 (proj2 (proj2
      (messages_without_model_is_simple_format Scenario.rt0
         (Scenario.net_ok Scenario.reply_gab Scenario.one_hit) Scenario.key0 None
         [(u "messages", PList [Scenario.envelope_message])]
         Scenario.envelope_message []
         (conj eq_refl eq_refl) eq_refl eq_refl eq_refl eq_refl))))
      _ _ _ _ _ _ eq_refl eq_refl eq_refl eq_refl eq_refl eq_refl eq_refl).
Defined.

(** ** [int()] on the text of a header *)

Lemma digit_not_blank (c : N) : is_digit c = true -> is_int_space c = false.
Proof.
  unfold is_digit, is_int_space, is_space. intros H.
  apply andb_true_iff in H as [H1 H2]. apply N.leb_le in H1, H2.
  replace (c <=? 13)%N with false by (symmetry; apply N.leb_gt; lia).
  replace (c <=? 32)%N with false by (symmetry; apply N.leb_gt; lia).
  replace (8192 <=? c)%N with false by (symmetry; apply N.leb_gt; lia).
  replace (c =? 133)%N with false by (symmetry; apply N.eqb_neq; lia).
  replace (c =? 160)%N with false by (symmetry; apply N.eqb_neq; lia).
  replace (c =? 5760)%N with false by (symmetry; apply N.eqb_neq; lia).
  replace (c =? 8232)%N with false by (symmetry; apply N.eqb_neq; lia).
  replace (c =? 8233)%N with false by (symmetry; apply N.eqb_neq; lia).
  replace (c =? 8239)%N with false by (symmetry; apply N.eqb_neq; lia).
  replace (c =? 8287)%N with false by (symmetry; apply N.eqb_neq; lia).
  replace (c =? 12288)%N with false by (symmetry; apply N.eqb_neq; lia).
  now rewrite !andb_false_r.
Qed.

Lemma digit_not_sign (c : N) :
  is_digit c = true -> (c =? 45)%N = false /\ (c =? 43)%N = false.
Proof.
  unfold is_digit. intros H.
  apply andb_true_iff in H as [H1 H2]. apply N.leb_le in H1, H2.
  split; apply N.eqb_neq; lia.
Qed.

Lemma rstrip_of_no_blank (blank : N -> bool) (s : pystr) :
  forallb (fun c => negb (blank c)) s = true -> rstrip_of blank s = s.
Proof.
  induction s as [|c s IH]; simpl; [reflexivity|].
  rewrite andb_true_iff, negb_true_iff. intros [Hc Hs].
  rewrite (IH Hs). destruct s; [now rewrite Hc | reflexivity].
Qed.

Lemma strip_of_no_blank (blank : N -> bool) (s : pystr) :
  forallb (fun c => negb (blank c)) s = true -> strip_of blank s = s.
Proof.
  intros H. unfold strip_of.
  assert (Hl : lstrip_of blank s = s).
  { destruct s as [|c s]; [reflexivity|]. simpl in *.
    apply andb_true_iff in H as [Hc _]. apply negb_true_iff in Hc. now rewrite Hc. }
  rewrite Hl. now apply rstrip_of_no_blank.
Qed.

Lemma digits_no_blank (ds : pystr) :
  forallb is_digit ds = true ->
  forallb (fun c => negb (is_int_space c)) ds = true.
Proof.
  induction ds as [|c ds IH]; simpl; [reflexivity|].
  rewrite !andb_true_iff. intros [Hc Hs].
  split; [now rewrite (digit_not_blank c Hc) | now apply IH].
Qed.

Lemma int_digits_all (ds : pystr) (acc : Z) (after : bool) :
  forallb is_digit ds = true ->
  ds <> [] \/ after = true ->
  int_digits acc after ds
  = Some (fold_left (fun a c => (10 * a + digit_val c)%Z) ds acc).
Proof.
  revert acc after. induction ds as [|c ds IH]; intros acc after Hd Hne.
  - destruct Hne as [Hne| ->]; [contradiction | reflexivity].
  - simpl in Hd. apply andb_true_iff in Hd as [Hc Hs].
    simpl. rewrite Hc. apply IH; [assumption | now right].
Qed.

(** [int()] reads a run of decimal digits as their value, and the same run
    after a minus sign as the opposite. *)
Lemma py_int_digits (ds : pystr) :
  ds <> [] -> forallb is_digit ds = true ->
  py_int ds = Ret (digits_value ds)
  /\ py_int (45%N :: ds) = Ret (- digits_value ds)%Z.
Proof.
  intros Hne Hd. unfold py_int, digits_value. split.
  - rewrite strip_of_no_blank by now apply digits_no_blank.
    destruct ds as [|c rest]; [contradiction|].
    assert (Hc : is_digit c = true) by (simpl in Hd; now apply andb_true_iff in Hd).
    destruct (digit_not_sign c Hc) as [-> ->].
    now rewrite int_digits_all by (assumption || now left).
  - rewrite strip_of_no_blank
      by (simpl; now rewrite digits_no_blank).
    cbn [N.eqb Pos.eqb]. simpl N.eqb.
    now rewrite int_digits_all by (assumption || now left).
Qed.

(** ** The [created] field *)

Lemma created_of_header (h : pystr) (n : Z) :
  py_int h = Ret n ->
  Server.created (Some h) = Ret (if (n =? 0)%Z then 1234567890%Z else n).
Proof. intros H. unfold Server.created. now rewrite H. Qed.

Lemma created_without_header : Server.created None = Ret 1234567890%Z.
Proof. reflexivity. Qed.

Ltac no_created Hroute Hc :=
  inversion Hroute; subst; cbn in Hc; discriminate Hc.

(** A chat-format answer that carries a [created] field took it from
    [created]. *)
Lemma chat_route_created
  (rt : Runtime) (net : Network) (key : pystr) (data : pyval)
  (hdr : option pystr) (resp : Server.http_response) (c : pyval) :
  Server.is_chat_completion data = Ret true ->
  Server.search_route rt net key data hdr = Ret resp ->
  py_getitem (Server.body resp) (u "created") = Ret c ->
  exists t, Server.created hdr = Ret t /\ c = PInt t.
Proof.
  intros Hchat Hroute Hc. unfold Server.search_route in Hroute.
  destruct (negb (truthy data)); [no_created Hroute Hc|].
  rewrite Hchat in Hroute. cbn [bind] in Hroute.
  destruct (Server.extract_query data) as [query|]; cbn [bind] in Hroute;
    [|discriminate].
  destruct (negb (truthy query)); [no_created Hroute Hc|].
  destruct (key_missing (Some key) || str_eqb key Server.placeholder_key);
    [no_created Hroute Hc|].
  unfold Server.answer_query in Hroute.
  destruct (Server.parse_natural_language_query rt net (Some key) query)
    as [params|]; cbn [bind] in Hroute; [|discriminate].
  destruct (py_in (u "error") params) as [[|]|]; cbn [bind] in Hroute;
    [| |discriminate].
  - destruct (py_getitem params (u "error")) as [e|]; cbn [bind] in Hroute;
      [|discriminate].
    no_created Hroute Hc.
  - repeat match type of Hroute with
           | bind ?m _ = _ =>
               destruct m; cbn [bind] in Hroute; [|discriminate]
           end.
    unfold Server.chat_completion in Hroute.
    destruct (Server.created hdr) as [t|]; cbn [bind] in Hroute; [|discriminate].
    destruct (py_get data (u "model") (PStr (u "openai/gpt-oss-20b"))) as [model|];
      cbn [bind] in Hroute; [|discriminate].
    exists t. split; [reflexivity|].
    inversion Hroute; subst resp. cbn in Hc. now inversion Hc.
Qed.

(** C3, as stated, fails: with the header X-Request-Time: -5 the [created]
    field of the chat-completion answer is -5, not the fallback
    1234567890. *)
Lemma created_negative_header_kept :
  exists resp,
    Server.search_route Scenario.rt0
      (Scenario.net_ok Scenario.reply_gab Scenario.one_hit) Scenario.key0
      Scenario.chat_body (Some (u "-5")) = Ret resp
    /\ Server.status resp = 200%Z
    /\ py_getitem (Server.body resp) (u "object") = Ret (PStr (u "chat.completion"))
    /\ py_getitem (Server.body resp) (u "created") = Ret (PInt (-5))
    /\ (-5 <> 1234567890)%Z.
Proof.
  eexists. split; [vm_compute; reflexivity|].
  repeat split; try reflexivity. lia.
Qed.

(** C3 (amended): the [created] field of a chat-completion answer is the
    integer that [int()] reads from the X-Request-Time header when that
    integer is not zero, whether positive or negative, and it is 1234567890
    when the header is absent or reads as zero.  In particular a header made
    of decimal digits gives their value, and the same digits after a minus
    sign give the opposite value. *)
Theorem created_field_from_header
  (rt : Runtime) (net : Network) (key : pystr) (data : pyval)
  (hdr : option pystr) (resp : Server.http_response) (c : pyval) :
  Server.is_chat_completion data = Ret true ->
  Server.search_route rt net key data hdr = Ret resp ->
  py_getitem (Server.body resp) (u "created") = Ret c ->
  (hdr = None -> c = PInt 1234567890)
  /\ (forall h, hdr = Some h ->
        exists n, py_int h = Ret n
                  /\ c = PInt (if (n =? 0)%Z then 1234567890%Z else n))
  /\ (forall ds, ds <> [] -> forallb is_digit ds = true ->
        (hdr = Some ds ->
         c = PInt (if (digits_value ds =? 0)%Z then 1234567890%Z
                   else digits_value ds))
        /\ (hdr = Some (45%N :: ds) ->
            c = PInt (if (digits_value ds =? 0)%Z then 1234567890%Z
                      else (- digits_value ds)%Z))).
Proof.
  intros Hchat Hroute Hc.
  destruct (chat_route_created rt net key data hdr resp c Hchat Hroute Hc)
    as (t & Ht & ->).
  assert (Hgen : forall h, hdr = Some h ->
            exists n, py_int h = Ret n
                      /\ PInt t = PInt (if (n =? 0)%Z then 1234567890%Z else n)).
  { intros h ->. unfold Server.created in Ht.
    destruct (py_int h) as [n|]; cbn [bind] in Ht; [|discriminate].
    exists n. split; [reflexivity|]. now inversion Ht. }
  split; [|split].
  - intros ->. rewrite created_without_header in Ht. now inversion Ht.
  - exact Hgen.
  - intros ds Hne Hd. destruct (py_int_digits ds Hne Hd) as [Hpos Hneg].
    split; intros Hh; destruct (Hgen _ Hh) as (n & Hn & ->).
    + rewrite Hpos in Hn. now inversion Hn.
    + rewrite Hneg in Hn. inversion Hn; subst n.
      destruct (Z.eqb_spec (digits_value ds) 0) as [E|E].
      * rewrite E. reflexivity.
      * destruct (Z.eqb_spec (- digits_value ds) 0); [lia | reflexivity].
Qed.

Lemma created_field_from_header_witness :
  exists n, py_int (u "1700000000") = Ret n
            /\ PInt 1700000000 = PInt (if (n =? 0)%Z then 1234567890%Z else n).
Proof.
  refine (proj1 (proj2
    (created_field_from_header Scenario.rt0
       (Scenario.net_ok Scenario.reply_gab Scenario.one_hit) Scenario.key0
       Scenario.chat_body (Some (u "1700000000"))
       _ (PInt 1700000000) eq_refl _ _)) (u "1700000000") eq_refl).
  - vm_compute. reflexivity.
  - reflexivity.
Defined.

(** ** A failed search in chat format *)

(** With a header that [int()] reads, a chat-format request whose search
    fails is answered with status 200 and an assistant message that holds
    the error text and the rebuilt request URL. *)
Lemma chat_search_failure_described
  (rt : Runtime) (net : Network) (key : pystr) (hdr : option pystr)
  (d p : list (pystr * pyval)) (query term site limit querytype model : pyval)
  (e url : pystr) (t : Z) :
  Server.key_configured key ->
  Server.is_chat_completion (PDict d) = Ret true ->
  Server.extract_query (PDict d) = Ret query ->
  truthy query = true ->
  Server.parse_natural_language_query rt net (Some key) query = Ret (PDict p) ->
  dict_lookup (u "error") p = None ->
  py_get (PDict p) (u "term") (PStr []) = Ret term ->
  py_get (PDict p) (u "site") (PStr (u "telegram")) = Ret site ->
  py_get (PDict p) (u "limit") (PInt 20) = Ret limit ->
  py_get (PDict p) (u "querytype") (PStr (u "content")) = Ret querytype ->
  Server.search rt net term site limit PNone PNone querytype false
  = Ret (error_dict e) ->
  Server.api_request_url rt (PDict p) = Ret url ->
  Server.created hdr = Ret t ->
  py_get (PDict d) (u "model") (PStr (u "openai/gpt-oss-20b")) = Ret model ->
  let content := u "Error searching Open Measures: " ++ e ++ nl ++ nl
                 ++ Server.request_sent_block url in
  Server.chat_completion (PDict d) hdr content
  = Server.search_route rt net key (PDict d) hdr
  /\ Server.http_status (Server.search_route rt net key (PDict d) hdr) = 200%Z
  /\ str_contains e content = true
  /\ str_contains url content = true.
Proof.
  intros [Hk Hp] Hchat Hq Ht Hparse Herr H1 H2 H3 H4 Hs Hurl Hcr Hmodel content.
  assert (Hd : truthy (PDict d) = true).
  { destruct d; [discriminate Hchat | reflexivity]. }
  assert (Hroute : Server.search_route rt net key (PDict d) hdr
                   = Server.chat_completion (PDict d) hdr content).
  { unfold Server.search_route. rewrite Hd, Hchat. cbn [bind negb].
    rewrite Hq. cbn [bind]. rewrite Ht, Hk, Hp. cbn [negb orb].
    unfold Server.answer_query. rewrite Hparse. cbn [bind].
    unfold py_in at 1. rewrite Herr. cbn [bind].
    rewrite H1. cbn [bind]. rewrite H2. cbn [bind]. rewrite H3. cbn [bind].
    rewrite H4. cbn [bind]. rewrite Hs. cbn [bind].
    unfold Server.response_content. rewrite Hurl. reflexivity. }
  split; [now rewrite Hroute|]. split; [|split].
  - rewrite Hroute. unfold Server.chat_completion. rewrite Hcr. cbn [bind].
    rewrite Hmodel. reflexivity.
  - apply str_contains_app.
  - unfold content, Server.request_sent_block.
    replace (u "Error searching Open Measures: " ++ e ++ nl ++ nl
             ++ u "**API Request Sent:**" ++ nl ++ FENCE ++ nl ++ url ++ nl ++ FENCE)
      with ((u "Error searching Open Measures: " ++ e ++ nl ++ nl
             ++ u "**API Request Sent:**" ++ nl ++ FENCE ++ nl) ++ url ++ nl ++ FENCE)
      by (rewrite <- !app_assoc; reflexivity).
    apply str_contains_app.
Qed.

(** C2 fails on the code at this request: chat format, the search service
    down, and a header X-Request-Time: abc.  The assistant message is built,
    then [int('abc')] raises ValueError while the answer is assembled, and
    the client gets status 500 instead of 200.  The same request without
    the header is answered with 200 and the message describing the failure. *)
Theorem chat_search_failure_bad_header_raises :
  Server.search_route Scenario.rt0 (Scenario.net_search_down Scenario.reply_gab)
    Scenario.key0 Scenario.chat_body (Some (u "abc"))
  = Raise ValueError
  /\ Server.http_status
       (Server.search_route Scenario.rt0 (Scenario.net_search_down Scenario.reply_gab)
          Scenario.key0 Scenario.chat_body (Some (u "abc"))) = 500%Z
  /\ Server.response_content Scenario.rt0 (PStr (u "find gab posts about X"))
       (PDict [(u "term", PStr (u "X")); (u "site", PStr (u "gab"));
               (u "limit", PInt 50)])
       (error_dict (u "connection refused"))
     = Ret (u "Error searching Open Measures: connection refused" ++ nl ++ nl
            ++ u "**API Request Sent:**" ++ nl ++ u "```" ++ nl
            ++ u "https://api.openmeasures.io/content?term=X&site=gab&limit=50&querytype=None"
            ++ nl ++ u "```")
  /\ Server.http_status
       (Server.search_route Scenario.rt0 (Scenario.net_search_down Scenario.reply_gab)
          Scenario.key0 Scenario.chat_body None) = 200%Z.
Proof. repeat split; vm_compute; reflexivity. Qed.


(* ===================================================================== *)
(** * Further properties: the search client *)
(* ===================================================================== *)

(** X1: the query parameters [search] sends, in both files, for an int
    [limit]: always term, site, limit, querytype and sortdesc, in this
    order, with [sortdesc] as the text true or false; [since] and [until]
    are added after them exactly when their value is truthy, so an empty
    string is left out like None.  The two copies build the same dict. *)
Theorem search_params_entries
  (rt : Runtime) (term site since until querytype : pyval) (sortdesc : bool) (L : Z) :
  exists d,
    Cli.search_params rt term site (PInt L) since until querytype sortdesc = Ret (PDict d)
    /\ Server.search_params rt term site (PInt L) since until querytype sortdesc
       = Ret (PDict d)
    /\ map fst d
       = [u "term"; u "site"; u "limit"; u "querytype"; u "sortdesc"]
         ++ (if truthy since then [u "since"] else [])
         ++ (if truthy until then [u "until"] else [])
    /\ dict_lookup (u "term") d = Some term
    /\ dict_lookup (u "site") d = Some site
    /\ dict_lookup (u "querytype") d = Some querytype
    /\ dict_lookup (u "sortdesc") d
       = Some (PStr (if sortdesc then u "true" else u "false"))
    /\ dict_lookup (u "since") d = (if truthy since then Some since else None)
    /\ dict_lookup (u "until") d = (if truthy until then Some until else None).
Proof.
  unfold Cli.search_params, Server.search_params. cbn [min_10000 bind].
  destruct (truthy since), (truthy until), sortdesc;
    eexists; repeat (split; [reflexivity|]); reflexivity.
Qed.



(** X3: what [simple_search] returns from the response of [search]: the
    empty list when the response has an [error] entry (also when it has
    hits beside it), or when [hits] is missing or is no dict; otherwise
    the inner [hits] value as it is, the empty list when that is missing.
    A response that is a list or a string gives the empty list too, through
    the AttributeError the [try] catches, but a number or null as response
    raises TypeError at the test ["error" in response], which stands before
    the [try]. *)
Theorem simple_search_outcomes
  (rt : Runtime) (net : Network) (term site limit response : pyval) :
  Cli.search rt net term site limit PNone PNone (PStr (u "content")) false
  = Ret response ->
  (forall e, response = error_dict e ->
             Cli.simple_search rt net term site limit = Ret (PList []))
  /\ (forall b, response = PDict b ->
        Cli.simple_search rt net term site limit
        = Ret (match dict_lookup (u "error") b, dict_lookup (u "hits") b with
               | None, Some (PDict h) =>
                   match dict_lookup (u "hits") h with
                   | Some hits => hits
                   | None => PList []
                   end
               | _, _ => PList []
               end))
  /\ (forall l, response = PList l ->
                Cli.simple_search rt net term site limit = Ret (PList []))
  /\ (forall s, response = PStr s ->
                Cli.simple_search rt net term site limit = Ret (PList []))
  /\ (is_number response = true \/ response = PNone ->
      Cli.simple_search rt net term site limit = Raise TypeError).
Proof.
  intros Hs. unfold Cli.simple_search. rewrite Hs. cbn [bind].
  split; [|split; [|split; [|split]]].
  - intros e ->. reflexivity.
  - intros b ->. cbn [py_in bind].
    destruct (dict_lookup (u "error") b); [reflexivity|].
    cbn [py_get bind].
    destruct (dict_lookup (u "hits") b) as [[]|]; reflexivity.
  - intros l ->. cbn [py_in bind]. now destruct (existsb (is_str_eq (u "error")) l).
  - intros s ->. cbn [py_in bind]. now destruct (str_contains (u "error") s).
  - intros [H| ->]; [|reflexivity]. destruct response; try discriminate H; reflexivity.
Qed.

Lemma simple_search_outcomes_witness :
  Cli.simple_search Scenario.rt0 Scenario.net_claude_down
    (PStr (u "x")) (PStr (u "gab")) (PInt 5) = Ret (PList [])
  /\ Cli.simple_search Scenario.rt0 (Scenario.net_ok [] Scenario.one_hit)
       (PStr (u "x")) (PStr (u "gab")) (PInt 5)
     = Ret (PList [PDict [(u "_source", PDict [(u "message", PStr (u "hello"))])]]).
Proof.
  split.
  - exact (proj1 (simple_search_outcomes Scenario.rt0 Scenario.net_claude_down
                    (PStr (u "x")) (PStr (u "gab")) (PInt 5)
                    (error_dict (u "connection refused")) eq_refl)
             (u "connection refused") eq_refl).
  - exact (proj1 (proj2 (simple_search_outcomes Scenario.rt0
                           (Scenario.net_ok [] Scenario.one_hit)
                           (PStr (u "x")) (PStr (u "gab")) (PInt 5)
                           Scenario.one_hit eq_refl))
             _ eq_refl).
Defined.

(* ===================================================================== *)
(** * Further properties: the completion client and the interpreters *)
(* ===================================================================== *)

(** X4: without an API key (None or the empty string) nothing depends on
    the network: [call_claude] returns the text
    "Error: Claude API key not set" in both files and
    [natural_language_search] returns [{"error": "Claude API key not set"}].
    The server's [parse_natural_language_query] has no key test of its own:
    it hands that text to the JSON decoder and reports
    "Failed to parse query: Expecting value: line 1 column 1 (char 0)". *)
Theorem missing_key_sends_nothing
  (rt : Runtime) (net : Network) (key : option pystr) (prompt user_query : pystr) :
  key_missing key = true ->
  Cli.call_claude net key prompt = Ret (PStr (u "Error: Claude API key not set"))
  /\ Server.call_claude net key prompt = Ret (PStr (u "Error: Claude API key not set"))
  /\ Cli.natural_language_search rt net key user_query
     = Ret (error_dict (u "Claude API key not set"))
  /\ Server.parse_natural_language_query rt net key (PStr user_query)
     = Ret (error_dict
              (u "Failed to parse query: Expecting value: line 1 column 1 (char 0)")).
Proof.
  intros Hk.
  assert (Hc : Cli.call_claude net key prompt
               = Ret (PStr (u "Error: Claude API key not set")))
    by (unfold Cli.call_claude; now rewrite Hk).
  assert (Hs : forall p, Server.call_claude net key p
                         = Ret (PStr (u "Error: Claude API key not set")))
    by (intros p; unfold Server.call_claude; now rewrite Hk).
  split; [exact Hc|]. split; [apply Hs|]. split.
  - unfold Cli.natural_language_search. now rewrite Hk.
  - unfold Server.parse_natural_language_query. rewrite Hs. cbn [bind].
    pose proof (loads_extract_json_E rt (tl (u "Error: Claude API key not set"))) as Hl.
    change (69%N :: tl (u "Error: Claude API key not set"))
      with (u "Error: Claude API key not set") in Hl.
    rewrite (server_parse_reply_failed rt _ _ Hl).
    now rewrite error_str_at_start.
Qed.

Lemma missing_key_sends_nothing_witness :
  Cli.natural_language_search Scenario.rt0 Scenario.net_claude_down None (u "q")
  = Ret (error_dict (u "Claude API key not set"))
  /\ Server.parse_natural_language_query Scenario.rt0 Scenario.net_claude_down
       (Some []) (PStr (u "q"))
     = Ret (error_dict
              (u "Failed to parse query: Expecting value: line 1 column 1 (char 0)")).
Proof.
  split.
  - exact (proj1 (proj2 (proj2
      (missing_key_sends_nothing Scenario.rt0 Scenario.net_claude_down None
         (u "p") (u "q") eq_refl)))).
  - exact (proj2 (proj2 (proj2
      (missing_key_sends_nothing Scenario.rt0 Scenario.net_claude_down (Some [])
         (u "p") (u "q") eq_refl)))).
Defined.

(** ** Fences without enough lines *)

Lemma count_lf_app (a b : pystr) : count_lf (a ++ b) = count_lf a + count_lf b.
Proof. unfold count_lf. now rewrite filter_app, length_app. Qed.

Lemma lstrip_of_suffix (blank : N -> bool) (s : pystr) :
  exists t, s = t ++ lstrip_of blank s.
Proof.
  induction s as [|c s [t IH]]; [now exists []|]. simpl.
  destruct (blank c); [|now exists []].
  exists (c :: t). simpl. now rewrite <- IH.
Qed.

Lemma rstrip_of_prefix (blank : N -> bool) (s : pystr) :
  exists t, s = rstrip_of blank s ++ t.
Proof.
  induction s as [|c s [t IH]]; [now exists []|]. simpl.
  destruct (rstrip_of blank s) as [|x r].
  - destruct (blank c); [now exists (c :: s) | exists s; reflexivity].
  - exists t. simpl. f_equal. exact IH.
Qed.

(** Stripping adds no line feed. *)
Lemma count_lf_strip (s : pystr) : count_lf (strip s) <= count_lf s.
Proof.
  unfold strip, strip_of.
  destruct (lstrip_of_suffix is_space s) as [t Ht].
  destruct (rstrip_of_prefix is_space (lstrip_of is_space s)) as [t' Ht'].
  rewrite Ht at 2. rewrite Ht' at 2. rewrite !count_lf_app. lia.
Qed.

Lemma split_char_length (s : pystr) :
  List.length (split_char LF s) = S (count_lf s).
Proof.
  induction s as [|c s IH]; [reflexivity|].
  unfold count_lf in *. cbn [split_char filter].
  rewrite (N.eqb_sym LF c). destruct (N.eqb c LF); cbn [List.length].
  - now rewrite IH.
  - destruct (split_char LF s); cbn [List.length] in *; [discriminate IH | exact IH].
Qed.

Lemma slice_1_m1_short (A : Type) (xs : list A) :
  List.length xs <= 2 -> slice_1_m1 xs = [].
Proof.
  destruct xs as [|a [|b [|c xs]]]; simpl; try reflexivity. lia.
Qed.

Lemma extract_json_short_fence (reply : pystr) :
  startswith FENCE (strip reply) = true ->
  count_lf reply <= 1 ->
  extract_json reply = [].
Proof.
  intros Hf Hn. unfold extract_json. rewrite Hf.
  rewrite slice_1_m1_short; [reflexivity|].
  rewrite split_char_length. pose proof (count_lf_strip reply). lia.
Qed.

(** X5: a reply that starts with a code fence and has at most one line
    feed (the whole object on the fence's line, or no closing fence on a
    line of its own) loses everything in [lines[1:-1]]: the text handed to
    the decoder is empty and both interpreters report
    "Expecting value: line 1 column 1 (char 0)", whatever JSON the reply
    held. *)
Theorem short_fenced_reply_is_parse_failure
  (rt : Runtime) (net : Network) (key : option pystr) (user_query reply : pystr) :
  startswith FENCE (strip reply) = true ->
  count_lf reply <= 1 ->
  extract_json reply = []
  /\ Server.parse_reply rt (PStr reply)
     = Ret (error_dict
              (u "Failed to parse query: Expecting value: line 1 column 1 (char 0)"))
  /\ Cli.interpret_reply rt net key user_query (PStr reply)
     = Ret (error_dict
              (u "Failed to parse Claude's response: "
               ++ u "Expecting value: line 1 column 1 (char 0)"
               ++ nl ++ u "Response: " ++ reply)).
Proof.
  intros Hf Hn.
  pose proof (extract_json_short_fence reply Hf Hn) as He.
  assert (Hl : loads rt (extract_json reply)
               = Failed {| err_msg := ExpectingValue; err_doc := []; err_pos := 0 |})
    by now rewrite He.
  split; [exact He|]. split.
  - now rewrite (server_parse_reply_failed rt reply _ Hl).
  - now rewrite (cli_interpret_reply_failed rt net key user_query reply _ Hl).
Qed.

Lemma short_fenced_reply_is_parse_failure_witness :
  extract_json (Scenario.q "```json{'term': 'X'}```") = []
  /\ extract_json (u "```json" ++ nl ++ Scenario.q "{'term': 'X'}```") = [].
Proof.
  split.
  - refine (proj1 (short_fenced_reply_is_parse_failure Scenario.rt0
                     Scenario.net_claude_down None []
                     (Scenario.q "```json{'term': 'X'}```") eq_refl _)).
    vm_compute. lia.
  - refine (proj1 (short_fenced_reply_is_parse_failure Scenario.rt0
                     Scenario.net_claude_down None []
                     (u "```json" ++ nl ++ Scenario.q "{'term': 'X'}```") eq_refl _)).
    vm_compute. lia.
Defined.

(** ** What the interpreters let escape *)

Lemma call_claude_same (net : Network) (key : option pystr) (prompt : pystr) :
  Server.call_claude net key prompt = Cli.call_claude net key prompt.
Proof. reflexivity. Qed.

Lemma cli_interpret_reply_returns
  (rt : Runtime) (net : Network) (key : option pystr) (user_query : pystr)
  (response : pyval) :
  exists v, Cli.interpret_reply rt net key user_query response = Ret v.
Proof.
  unfold Cli.interpret_reply.
  destruct response; try (eexists; reflexivity).
  destruct (loads rt (extract_json s)); try (eexists; reflexivity).
  destruct (Cli.search_and_summarize rt net key user_query v); eexists; reflexivity.
Qed.

(** X6: the [try] statement of [natural_language_search] lets nothing
    escape: whatever the first completion call returned, a dict comes back.
    So [natural_language_search] raises [e] exactly when a key is set and
    that first [call_claude], which stands before the [try], raises [e]. *)
Theorem natural_language_search_raises_only_from_first_call
  (rt : Runtime) (net : Network) (key : option pystr) (user_query : pystr) :
  (forall response,
      exists v, Cli.interpret_reply rt net key user_query response = Ret v)
  /\ (forall e,
        Cli.natural_language_search rt net key user_query = Raise e <->
        key_missing key = false
        /\ Cli.call_claude net key (parse_prompt user_query) = Raise e).
Proof.
  split; [apply cli_interpret_reply_returns|].
  intros e. unfold Cli.natural_language_search.
  destruct (key_missing key); [split; [discriminate | intros [H _]; discriminate]|].
  destruct (Cli.call_claude net key (parse_prompt user_query)) as [response|e'];
    cbn [bind].
  - destruct (cli_interpret_reply_returns rt net key user_query response) as [v ->].
    split; [discriminate | intros [_ H]; discriminate].
  - split; [intros H; split; [reflexivity | exact H] | intros [_ H]; exact H].
Qed.

Lemma natural_language_search_raises_only_from_first_call_witness :
  Cli.natural_language_search Scenario.rt0 (Scenario.net_claude_body (PDict []))
    (Some Scenario.key0) (u "q") = Raise KeyError.
Proof.
  apply (proj2 (natural_language_search_raises_only_from_first_call Scenario.rt0
                  (Scenario.net_claude_body (PDict [])) (Some Scenario.key0)
                  (u "q"))).
  split; reflexivity.
Defined.

(** X7: when the completion's [text] is not a string (null, a number, a
    list, an object), [strip] raises AttributeError.  The command-line
    client catches it and returns
    [{"error": "Error during natural language search: ..."}]; the server's
    [parse_natural_language_query] catches JSONDecodeError only and lets
    the AttributeError escape. *)
Theorem completion_text_not_a_string
  (rt : Runtime) (net : Network) (key : option pystr) (user_query : pystr)
  (v : pyval) :
  key_missing key = false ->
  Cli.call_claude net key (parse_prompt user_query) = Ret v ->
  (forall s, v <> PStr s) ->
  Cli.natural_language_search rt net key user_query
  = Ret (error_dict (u "Error during natural language search: "
                     ++ exn_message rt AttributeError))
  /\ Server.parse_natural_language_query rt net key (PStr user_query)
     = Raise AttributeError.
Proof.
  intros Hk Hc Hv. split.
  - unfold Cli.natural_language_search. rewrite Hk, Hc. cbn [bind].
    destruct v; try reflexivity. now contradiction (Hv s).
  - unfold Server.parse_natural_language_query. cbn [py_str].
    rewrite call_claude_same, Hc. cbn [bind].
    destruct v; try reflexivity. now contradiction (Hv s).
Qed.

Lemma completion_text_not_a_string_witness :
  Server.parse_natural_language_query Scenario.rt0
    (Scenario.net_claude_body
       (PDict [(u "content", PList [PDict [(u "text", PNone)]])]))
    (Some Scenario.key0) (PStr (u "q"))
  = Raise AttributeError.
Proof.
  refine (proj2 (completion_text_not_a_string Scenario.rt0
                   (Scenario.net_claude_body
                      (PDict [(u "content", PList [PDict [(u "text", PNone)]])]))
                   (Some Scenario.key0) (u "q") PNone eq_refl eq_refl _)).
  intros s H. discriminate H.
Defined.

(* ===================================================================== *)
(** * Further properties: the view of POST /search *)
(* ===================================================================== *)

(** Where the view goes once the body is read: no query, no key, or on to
    the interpreter. *)
Lemma route_missing_query
  (rt : Runtime) (net : Network) (key : pystr) (data : pyval) (hdr : option pystr)
  (b : bool) (query : pyval) :
  truthy data = true ->
  Server.is_chat_completion data = Ret b ->
  Server.extract_query data = Ret query ->
  truthy query = false ->
  Server.search_route rt net key data hdr
  = Ret (Server.jsonify_with
           (error_dict (u "Missing query. Provide either 'query' field or 'messages' array"))
           400).
Proof.
  intros Hd Hc Hq Ht. unfold Server.search_route.
  rewrite Hd, Hc. cbn [negb bind]. rewrite Hq. cbn [bind]. now rewrite Ht.
Qed.

Lemma route_unconfigured_key
  (rt : Runtime) (net : Network) (key : pystr) (data : pyval) (hdr : option pystr)
  (b : bool) (query : pyval) :
  truthy data = true ->
  Server.is_chat_completion data = Ret b ->
  Server.extract_query data = Ret query ->
  truthy query = true ->
  key = [] \/ key = Server.placeholder_key ->
  Server.search_route rt net key data hdr
  = Ret (Server.jsonify_with
           (error_dict
              (u "Claude API key not configured. Please set CLAUDE_API_KEY in the code."))
           500).
Proof.
  intros Hd Hc Hq Ht Hk. unfold Server.search_route.
  rewrite Hd, Hc. cbn [negb bind]. rewrite Hq. cbn [bind]. rewrite Ht. cbn [negb].
  destruct Hk as [-> | ->]; reflexivity.
Qed.

Lemma route_reaches_answer
  (rt : Runtime) (net : Network) (key : pystr) (data : pyval) (hdr : option pystr)
  (b : bool) (query : pyval) :
  Server.key_configured key ->
  truthy data = true ->
  Server.is_chat_completion data = Ret b ->
  Server.extract_query data = Ret query ->
  truthy query = true ->
  Server.search_route rt net key data hdr
  = Server.answer_query rt net key b data hdr query.
Proof.
  intros [Hk Hp] Hd Hc Hq Ht. unfold Server.search_route.
  rewrite Hd, Hc. cbn [negb bind]. rewrite Hq. cbn [bind].
  now rewrite Ht, Hk, Hp.
Qed.

(** X8: the three early answers of [POST /search], whatever the network
    would answer: a falsy body gives 400 "Missing request body"; a body
    without a truthy query gives 400 "Missing query. ..."; and with a
    query but [CLAUDE_API_KEY] empty or still the placeholder the answer
    is 500 "Claude API key not configured. ...".  The body and the query
    are tested before the key. *)
Theorem route_refuses_before_any_request
  (rt : Runtime) (net : Network) (key : pystr) (data : pyval) (hdr : option pystr) :
  (truthy data = false ->
   Server.search_route rt net key data hdr
   = Ret (Server.jsonify_with (error_dict (u "Missing request body")) 400))
  /\ (forall b query,
        truthy data = true ->
        Server.is_chat_completion data = Ret b ->
        Server.extract_query data = Ret query ->
        truthy query = false ->
        Server.search_route rt net key data hdr
        = Ret (Server.jsonify_with
                 (error_dict
                    (u "Missing query. Provide either 'query' field or 'messages' array"))
                 400))
  /\ (forall b query,
        truthy data = true ->
        Server.is_chat_completion data = Ret b ->
        Server.extract_query data = Ret query ->
        truthy query = true ->
        key = [] \/ key = Server.placeholder_key ->
        Server.search_route rt net key data hdr
        = Ret (Server.jsonify_with
                 (error_dict
                    (u "Claude API key not configured. Please set CLAUDE_API_KEY in the code."))
                 500)).
Proof.
  split; [|split].
  - intros Hd. unfold Server.search_route. now rewrite Hd.
  - intros b query. apply route_missing_query.
  - intros b query. apply route_unconfigured_key.
Qed.

Lemma route_refuses_before_any_request_witness :
  Server.search_route Scenario.rt0 Scenario.net_claude_down Scenario.key0
    (PDict []) None
  = Ret (Server.jsonify_with (error_dict (u "Missing request body")) 400)
  /\ Server.search_route Scenario.rt0 Scenario.net_claude_down Scenario.key0
       (PDict [(u "messages", PList [])]) None
     = Ret (Server.jsonify_with
              (error_dict
                 (u "Missing query. Provide either 'query' field or 'messages' array"))
              400)
  /\ Server.search_route Scenario.rt0 Scenario.net_claude_down Server.placeholder_key
       Scenario.chat_body None
     = Ret (Server.jsonify_with
              (error_dict
                 (u "Claude API key not configured. Please set CLAUDE_API_KEY in the code."))
              500).
Proof.
  split; [|split].
  - exact (proj1 (route_refuses_before_any_request Scenario.rt0
                    Scenario.net_claude_down Scenario.key0 (PDict []) None) eq_refl).
  - exact (proj1 (proj2 (route_refuses_before_any_request Scenario.rt0
                           Scenario.net_claude_down Scenario.key0
                           (PDict [(u "messages", PList [])]) None))
             false PNone eq_refl eq_refl eq_refl eq_refl).
  - exact (proj2 (proj2 (route_refuses_before_any_request Scenario.rt0
                           Scenario.net_claude_down Server.placeholder_key
                           Scenario.chat_body None))
             true (PStr (u "find gab posts about X"))
             eq_refl eq_refl eq_refl eq_refl (or_intror eq_refl)).
Defined.

(** ** The actor envelope *)

Lemma startswith_split (p s : pystr) :
  startswith p s = true -> s = p ++ skipn (List.length p) s.
Proof.
  revert s. induction p as [|x p IH]; intros s H; [reflexivity|].
  destruct s as [|y s]; [discriminate|]. simpl in H.
  apply andb_true_iff in H as [Hx Hp]. apply N.eqb_eq in Hx. subst y.
  simpl. f_equal. now apply IH.
Qed.

Lemma find_sub_cons (sub : pystr) (c : N) (s : pystr) :
  find_sub sub (c :: s)
  = if startswith sub (c :: s) then Some ([], skipn (List.length sub) (c :: s))
    else match find_sub sub s with
         | Some (before, after) => Some (c :: before, after)
         | None => None
         end.
Proof. reflexivity. Qed.

(** What [find_sub] returns is a decomposition of the string. *)
Lemma find_sub_some (sub s before after : pystr) :
  find_sub sub s = Some (before, after) -> s = before ++ sub ++ after.
Proof.
  revert before. induction s as [|c s IH]; intros before H.
  - unfold find_sub in H. destruct (startswith sub []) eqn:E; [|discriminate].
    inversion H; subst. now apply startswith_split in E.
  - rewrite find_sub_cons in H. destruct (startswith sub (c :: s)) eqn:E.
    + inversion H; subst. now apply startswith_split in E.
    + destruct (find_sub sub s) as [[b a]|]; [|discriminate].
      inversion H; subst. simpl. f_equal. now apply IH.
Qed.

(** And it is the leftmost one. *)
Lemma find_sub_first (sub s before after : pystr) :
  find_sub sub s = Some (before, after) ->
  forall pre post, s = pre ++ sub ++ post -> List.length before <= List.length pre.
Proof.
  revert before. induction s as [|c s IH]; intros before H pre post Hs.
  - unfold find_sub in H. destruct (startswith sub []); [|discriminate].
    inversion H; subst. simpl. lia.
  - rewrite find_sub_cons in H. destruct (startswith sub (c :: s)) eqn:E.
    + inversion H; subst. simpl. lia.
    + destruct (find_sub sub s) as [[b a]|] eqn:F; [|discriminate].
      inversion H; subst. destruct pre as [|x pre].
      * simpl in Hs. rewrite Hs, startswith_app in E. discriminate.
      * simpl in Hs. inversion Hs; subst. simpl.
        specialize (IH b eq_refl pre post eq_refl). lia.
Qed.

Lemma find_sub_none (sub s : pystr) :
  find_sub sub s = None -> forall pre post, s <> pre ++ sub ++ post.
Proof.
  intros H pre post ->. destruct (find_sub_app sub pre post) as (b & a & E).
  rewrite E in H. discriminate.
Qed.

(** X9: the actor envelope of a chat message.  A string content without
    "]:" is the query unchanged (not even stripped).  With "]:" the query
    is what follows the FIRST occurrence, stripped: a later "]:" stays in
    the query. *)
Theorem envelope_takes_text_after_first_marker
  (md : list (pystr * pyval)) (content : pystr) :
  dict_lookup (u "content") md = Some (PStr content) ->
  ((forall pre post, content <> pre ++ u "]:" ++ post) ->
   Server.query_of_last_message (PDict md) = PStr content)
  /\ (forall pre post,
        content = pre ++ u "]:" ++ post ->
        exists before after,
          content = before ++ u "]:" ++ after
          /\ List.length before <= List.length pre
          /\ Server.query_of_last_message (PDict md) = PStr (strip after)).
Proof.
  intros Hc. unfold Server.query_of_last_message, str_contains, split_once.
  rewrite Hc. split.
  - intros Hno. destruct (find_sub (u "]:") content) as [[b a]|] eqn:F; [|reflexivity].
    apply find_sub_some in F. now contradiction (Hno b a).
  - intros pre post Hs.
    destruct (find_sub (u "]:") content) as [[b a]|] eqn:F.
    + exists b, a. split; [now apply find_sub_some|]. split; [|reflexivity].
      exact (find_sub_first _ _ _ _ F pre post Hs).
    + now contradiction (find_sub_none _ _ F pre post).
Qed.

Lemma envelope_takes_text_after_first_marker_witness :
  exists before after,
    u "a]:b]: c " = before ++ u "]:" ++ after
    /\ List.length before <= 1
    /\ Server.query_of_last_message (PDict [(u "content", PStr (u "a]:b]: c "))])
       = PStr (strip after).
Proof.
  exact (proj2 (envelope_takes_text_after_first_marker
                  [(u "content", PStr (u "a]:b]: c "))] (u "a]:b]: c ") eq_refl)
           (u "a") (u "b]: c ") eq_refl).
Defined.

(** X10: a chat message whose content has only white space after the
    first "]:" leaves an empty query, and the view answers 400
    "Missing query. ..." although the message was not empty. *)
Theorem envelope_with_nothing_after_is_missing_query
  (rt : Runtime) (net : Network) (key : pystr) (hdr : option pystr)
  (d md : list (pystr * pyval)) (m : pyval) (ms : list pyval)
  (content before after : pystr) :
  dict_lookup (u "query") d = None ->
  dict_lookup (u "messages") d = Some (PList (m :: ms)) ->
  last ms m = PDict md ->
  dict_lookup (u "content") md = Some (PStr content) ->
  find_sub (u "]:") content = Some (before, after) ->
  strip after = [] ->
  Server.search_route rt net key (PDict d) hdr
  = Ret (Server.jsonify_with
           (error_dict (u "Missing query. Provide either 'query' field or 'messages' array"))
           400).
Proof.
  intros Hq Hm Hl Hc Hf Hs.
  assert (Hmodel : exists b, Server.is_chat_completion (PDict d) = Ret b).
  { unfold Server.is_chat_completion, py_in. rewrite Hm. cbn [bind]. eauto. }
  destruct Hmodel as [b Hb].
  apply (route_missing_query rt net key (PDict d) hdr b
           (Server.query_of_last_message (last ms m))).
  - now destruct d.
  - exact Hb.
  - unfold Server.extract_query, py_in, py_getitem. now rewrite Hq, Hm.
  - rewrite Hl. unfold Server.query_of_last_message, str_contains, split_once.
    now rewrite Hc, Hf, Hs.
Qed.

Lemma envelope_with_nothing_after_is_missing_query_witness :
  Server.search_route Scenario.rt0 Scenario.net_claude_down Scenario.key0
    (PDict [(u "messages",
             PList [PDict [(u "role", PStr (u "user"));
                           (u "content", PStr (u "[bob (7) at noon]: "))]])])
    None
  = Ret (Server.jsonify_with
           (error_dict (u "Missing query. Provide either 'query' field or 'messages' array"))
           400).
Proof.
  exact (envelope_with_nothing_after_is_missing_query Scenario.rt0
           Scenario.net_claude_down Scenario.key0 None
           [(u "messages",
             PList [PDict [(u "role", PStr (u "user"));
                           (u "content", PStr (u "[bob (7) at noon]: "))]])]
           [(u "role", PStr (u "user")); (u "content", PStr (u "[bob (7) at noon]: "))]
           (PDict [(u "role", PStr (u "user"));
                   (u "content", PStr (u "[bob (7) at noon]: "))])
           [] (u "[bob (7) at noon]: ") (u "[bob (7) at noon") (u " ")
           eq_refl eq_refl eq_refl eq_refl eq_refl eq_refl).
Defined.

(** X11: when the body has a [query] entry, the query is that value as it
    is: [messages] is not read and no envelope is removed from it.  The
    answer is still in chat format when the body also has [messages] and
    [model], since the format is decided from those two keys alone. *)
Theorem query_field_wins_over_messages
  (rt : Runtime) (net : Network) (key : pystr) (hdr : option pystr)
  (d : list (pystr * pyval)) (v : pyval) :
  dict_lookup (u "query") d = Some v ->
  Server.extract_query (PDict d) = Ret v
  /\ Server.is_chat_completion (PDict d)
     = Ret (match dict_lookup (u "messages") d, dict_lookup (u "model") d with
            | Some _, Some _ => true
            | _, _ => false
            end)
  /\ (Server.key_configured key -> truthy v = true ->
      Server.search_route rt net key (PDict d) hdr
      = Server.answer_query rt net key
          (match dict_lookup (u "messages") d, dict_lookup (u "model") d with
           | Some _, Some _ => true
           | _, _ => false
           end) (PDict d) hdr v).
Proof.
  intros Hq.
  assert (He : Server.extract_query (PDict d) = Ret v)
    by (unfold Server.extract_query, py_in, py_getitem; now rewrite Hq).
  assert (Hc : Server.is_chat_completion (PDict d)
               = Ret (match dict_lookup (u "messages") d, dict_lookup (u "model") d with
                      | Some _, Some _ => true
                      | _, _ => false
                      end)).
  { unfold Server.is_chat_completion, py_in.
    destruct (dict_lookup (u "messages") d); cbn [bind]; [|reflexivity].
    now destruct (dict_lookup (u "model") d). }
  split; [exact He|]. split; [exact Hc|].
  intros Hk Ht. apply route_reaches_answer; try assumption. now destruct d.
Qed.

Lemma query_field_wins_over_messages_witness :
  Server.extract_query
    (PDict [(u "query", PStr (u "[x]: y")); (u "messages", PList [PStr (u "z")]);
            (u "model", PStr (u "m"))])
  = Ret (PStr (u "[x]: y")).
Proof.
  exact (proj1 (query_field_wins_over_messages Scenario.rt0 Scenario.net_claude_down
                  Scenario.key0 None
                  [(u "query", PStr (u "[x]: y")); (u "messages", PList [PStr (u "z")]);
                   (u "model", PStr (u "m"))]
                  (PStr (u "[x]: y")) eq_refl)).
Defined.

(** ** Statuses *)

Ltac run_binds H :=
  repeat match type of H with
         | bind ?m _ = _ => destruct m; cbn [bind] in H; [|discriminate]
         end.

(** X12: every response the view of [POST /search] returns itself has
    status 200, 400 or 500; with 400 or 500 the body has an [error] entry,
    and 500 is returned only for an empty or placeholder
    [CLAUDE_API_KEY]. *)
Theorem route_statuses
  (rt : Runtime) (net : Network) (key : pystr) (data : pyval) (hdr : option pystr)
  (resp : Server.http_response) :
  Server.search_route rt net key data hdr = Ret resp ->
  (Server.status resp = 200%Z
   \/ (Server.status resp = 400%Z /\ py_in (u "error") (Server.body resp) = Ret true)
   \/ (Server.status resp = 500%Z /\ py_in (u "error") (Server.body resp) = Ret true
       /\ (key = [] \/ key = Server.placeholder_key))).
Proof.
  intros H. unfold Server.search_route in H.
  destruct (negb (truthy data)).
  { inversion H; subst. right; left. split; reflexivity. }
  destruct (Server.is_chat_completion data) as [b|]; cbn [bind] in H; [|discriminate].
  destruct (Server.extract_query data) as [query|]; cbn [bind] in H; [|discriminate].
  destruct (negb (truthy query)).
  { inversion H; subst. right; left. split; reflexivity. }
  destruct (key_missing (Some key) || str_eqb key Server.placeholder_key) eqn:Hk.
  { inversion H; subst. right; right. split; [reflexivity|]. split; [reflexivity|].
    apply orb_true_iff in Hk as [Hk|Hk].
    - left. destruct key; [reflexivity | discriminate].
    - right. now apply str_eqb_eq. }
  unfold Server.answer_query in H.
  destruct (Server.parse_natural_language_query rt net (Some key) query)
    as [params|]; cbn [bind] in H; [|discriminate].
  destruct (py_in (u "error") params) as [[|]|]; cbn [bind] in H; [| |discriminate].
  - destruct (py_getitem params (u "error")) as [e|]; cbn [bind] in H; [|discriminate].
    destruct b; inversion H; subst; [now left|].
    right; left. split; reflexivity.
  - run_binds H. destruct b.
    + run_binds H. unfold Server.chat_completion in H. run_binds H.
      inversion H; subst. now left.
    + inversion H; subst. now left.
Qed.

Lemma route_statuses_witness :
  Server.status (Server.jsonify Scenario.one_hit) = 200%Z
  \/ (Server.status (Server.jsonify Scenario.one_hit) = 400%Z
      /\ py_in (u "error") (Server.body (Server.jsonify Scenario.one_hit)) = Ret true)
  \/ (Server.status (Server.jsonify Scenario.one_hit) = 500%Z
      /\ py_in (u "error") (Server.body (Server.jsonify Scenario.one_hit)) = Ret true
      /\ (Scenario.key0 = [] \/ Scenario.key0 = Server.placeholder_key)).
Proof.
  refine (route_statuses Scenario.rt0 (Scenario.net_ok Scenario.reply_gab Scenario.one_hit)
            Scenario.key0 (PDict [(u "query", PStr (u "gab posts about X"))]) None
            (Server.jsonify Scenario.one_hit) _).
  vm_compute. reflexivity.
Defined.

(** ** The completion service down, seen from the view *)

Lemma server_parse_query_transport_error
  (rt : Runtime) (net : Network) (key : option pystr) (query : pyval) (e : pystr) :
  key_missing key = false ->
  requests_post net claude_api_url (claude_headers key)
    (claude_data (parse_prompt (py_str rt query))) = inl e ->
  Server.parse_natural_language_query rt net key query
  = Ret (error_dict
           (u "Failed to parse query: Expecting value: line 1 column 1 (char 0)")).
Proof.
  intros Hk Hp. unfold Server.parse_natural_language_query.
  rewrite (proj2 (call_claude_transport_error net key _ e Hk Hp)). cbn [bind].
  pose proof (loads_extract_json_E rt (tl (u "Error calling Claude API: ") ++ e)) as Hl.
  change (69%N :: tl (u "Error calling Claude API: ") ++ e)
    with (u "Error calling Claude API: " ++ e) in Hl.
  rewrite (server_parse_reply_failed rt _ _ Hl).
  now rewrite error_str_at_start.
Qed.

(** X13: when the request to the completion service fails, the view
    reports a parsing failure, not a transport failure: in simple format
    400 with [{"error": "Failed to parse query: Expecting value: line 1
    column 1 (char 0)", "stage": "parsing"}], in chat format status 200
    with that text after "Error parsing query: " as the assistant's
    message (a dict with [choices] only). *)
Theorem completion_down_is_reported_as_parsing
  (rt : Runtime) (net : Network) (key : pystr) (data : pyval) (hdr : option pystr)
  (b : bool) (query : pyval) (e : pystr) :
  Server.key_configured key ->
  truthy data = true ->
  Server.is_chat_completion data = Ret b ->
  Server.extract_query data = Ret query ->
  truthy query = true ->
  requests_post net claude_api_url (claude_headers (Some key))
    (claude_data (parse_prompt (py_str rt query))) = inl e ->
  let msg := u "Failed to parse query: Expecting value: line 1 column 1 (char 0)" in
  Server.search_route rt net key data hdr
  = Ret (if b
         then Server.jsonify (PDict
                [(u "choices",
                  PList [PDict [(u "message",
                                 PDict [(u "role", PStr (u "assistant"));
                                        (u "content",
                                         PStr (u "Error parsing query: " ++ msg))]);
                                (u "finish_reason", PStr (u "stop"))]])])
         else Server.jsonify_with
                (PDict [(u "error", PStr msg); (u "stage", PStr (u "parsing"))]) 400).
Proof.
  intros Hk Hd Hc Hq Ht Hp msg.
  rewrite (route_reaches_answer rt net key data hdr b query Hk Hd Hc Hq Ht).
  unfold Server.answer_query.
  rewrite (server_parse_query_transport_error rt net (Some key) query e (proj1 Hk) Hp).
  now destruct b.
Qed.

Lemma completion_down_is_reported_as_parsing_witness :
  Server.http_status
    (Server.search_route Scenario.rt0 Scenario.net_claude_down Scenario.key0
       Scenario.chat_body None) = 200%Z
  /\ Server.http_status
       (Server.search_route Scenario.rt0 Scenario.net_claude_down Scenario.key0
          (PDict [(u "query", PStr (u "gab posts about X"))]) None) = 400%Z.
Proof.
  split.
  - now rewrite (completion_down_is_reported_as_parsing Scenario.rt0
                   Scenario.net_claude_down Scenario.key0 Scenario.chat_body None
                   true (PStr (u "find gab posts about X")) (u "connection refused")
                   (conj eq_refl eq_refl) eq_refl eq_refl eq_refl eq_refl eq_refl).
  - now rewrite (completion_down_is_reported_as_parsing Scenario.rt0
                   Scenario.net_claude_down Scenario.key0
                   (PDict [(u "query", PStr (u "gab posts about X"))]) None
                   false (PStr (u "gab posts about X")) (u "connection refused")
                   (conj eq_refl eq_refl) eq_refl eq_refl eq_refl eq_refl eq_refl).
Defined.

(** ** A limit that is no number *)

(** X14: when the interpreted parameters carry a [limit] that is no
    number (the string "50", null), [min(limit, 10000)] raises TypeError
    inside the view, in either format: the caller gets Flask's 500 and no
    JSON error body from the view. *)
Theorem non_numeric_limit_is_a_server_error
  (rt : Runtime) (net : Network) (key : pystr) (data : pyval) (hdr : option pystr)
  (b : bool) (query : pyval) (p : list (pystr * pyval)) (limit : pyval) :
  Server.key_configured key ->
  truthy data = true ->
  Server.is_chat_completion data = Ret b ->
  Server.extract_query data = Ret query ->
  truthy query = true ->
  Server.parse_natural_language_query rt net (Some key) query = Ret (PDict p) ->
  dict_lookup (u "error") p = None ->
  dict_lookup (u "limit") p = Some limit ->
  is_number limit = false ->
  Server.search_route rt net key data hdr = Raise TypeError
  /\ Server.http_status (Server.search_route rt net key data hdr) = 500%Z.
Proof.
  intros Hk Hd Hc Hq Ht Hp He Hl Hn.
  assert (H : Server.search_route rt net key data hdr = Raise TypeError).
  { rewrite (route_reaches_answer rt net key data hdr b query Hk Hd Hc Hq Ht).
    unfold Server.answer_query. rewrite Hp. cbn [bind py_in py_get].
    rewrite He, Hl. cbn [bind].
    unfold Server.search, Server.search_params.
    destruct limit; try discriminate Hn; reflexivity. }
  split; [exact H | now rewrite H].
Qed.

Lemma non_numeric_limit_is_a_server_error_witness :
  Server.search_route Scenario.rt0
    (Scenario.net_ok (Scenario.q "{'term': 'X', 'limit': '50'}") Scenario.one_hit)
    Scenario.key0 Scenario.chat_body None = Raise TypeError
  /\ Server.search_route Scenario.rt0
       (Scenario.net_ok (Scenario.q "{'term': 'X', 'limit': null}") Scenario.one_hit)
       Scenario.key0 (PDict [(u "query", PStr (u "gab posts about X"))]) None
     = Raise TypeError.
Proof.
  split.
  - exact (proj1 (non_numeric_limit_is_a_server_error Scenario.rt0
                    (Scenario.net_ok (Scenario.q "{'term': 'X', 'limit': '50'}")
                       Scenario.one_hit)
                    Scenario.key0 Scenario.chat_body None true
                    (PStr (u "find gab posts about X"))
                    [(u "term", PStr (u "X")); (u "limit", PStr (u "50"))]
                    (PStr (u "50"))
                    (conj eq_refl eq_refl) eq_refl eq_refl eq_refl eq_refl
                    eq_refl eq_refl eq_refl eq_refl)).
  - exact (proj1 (non_numeric_limit_is_a_server_error Scenario.rt0
                    (Scenario.net_ok (Scenario.q "{'term': 'X', 'limit': null}")
                       Scenario.one_hit)
                    Scenario.key0 (PDict [(u "query", PStr (u "gab posts about X"))])
                    None false (PStr (u "gab posts about X"))
                    [(u "term", PStr (u "X")); (u "limit", PNone)] PNone
                    (conj eq_refl eq_refl) eq_refl eq_refl eq_refl eq_refl
                    eq_refl eq_refl eq_refl eq_refl)).
Defined.

(** ** The URL shown and the request sent *)

(** X15: the URL a chat answer shows under "API Request Sent" is rebuilt
    from the interpreted parameters, not from the request: it shows the
    limit as interpreted, while the request carried [min(limit, 10000)];
    and without a [limit] it shows [limit=None] while the request carried
    20. *)
Theorem shown_url_keeps_the_uncapped_limit
  (rt : Runtime) (p : list (pystr * pyval)) (term site querytype : pyval) :
  py_get (PDict p) (u "term") PNone = Ret term ->
  py_get (PDict p) (u "site") PNone = Ret site ->
  py_get (PDict p) (u "querytype") PNone = Ret querytype ->
  (forall L,
      dict_lookup (u "limit") p = Some (PInt L) ->
      Server.api_request_url rt (PDict p)
      = Ret (BASE_URL ++ u "?term=" ++ py_str rt term ++ u "&site=" ++ py_str rt site
             ++ u "&limit=" ++ str_of_Z L ++ u "&querytype=" ++ py_str rt querytype)
      /\ exists params,
           Server.search_params rt term site (PInt L) PNone PNone querytype false
           = Ret params
           /\ sent_limit params = Some (Z.min L 10000))
  /\ (dict_lookup (u "limit") p = None ->
      Server.api_request_url rt (PDict p)
      = Ret (BASE_URL ++ u "?term=" ++ py_str rt term ++ u "&site=" ++ py_str rt site
             ++ u "&limit=" ++ u "None" ++ u "&querytype=" ++ py_str rt querytype)
      /\ py_get (PDict p) (u "limit") (PInt 20) = Ret (PInt 20)
      /\ exists params,
           Server.search_params rt term site (PInt 20) PNone PNone querytype false
           = Ret params
           /\ sent_limit params = Some 20%Z).
Proof.
  intros Ht Hs Hq. split.
  - intros L Hl. split.
    + unfold Server.api_request_url. rewrite Ht, Hs, Hq. cbn [bind py_get].
      now rewrite Hl.
    + destruct (server_search_params_limit rt term site PNone PNone querytype false L)
        as (params & Hp & Hsent).
      now exists params.
  - intros Hl. split; [|split].
    + unfold Server.api_request_url. rewrite Ht, Hs, Hq. cbn [bind py_get].
      now rewrite Hl.
    + cbn [py_get]. now rewrite Hl.
    + destruct (server_search_params_limit rt term site PNone PNone querytype false 20)
        as (params & Hp & Hsent).
      now exists params.
Qed.

Lemma shown_url_keeps_the_uncapped_limit_witness :
  Server.api_request_url Scenario.rt0
    (PDict [(u "term", PStr (u "X")); (u "limit", PInt 50000)])
  = Ret (BASE_URL ++ u "?term=" ++ u "X" ++ u "&site=" ++ u "None"
         ++ u "&limit=" ++ u "50000" ++ u "&querytype=" ++ u "None")
  /\ exists params,
       Server.search_params Scenario.rt0 (PStr (u "X")) PNone (PInt 50000) PNone PNone
         PNone false = Ret params
       /\ sent_limit params = Some 10000%Z.
Proof.
  exact (proj1 (shown_url_keeps_the_uncapped_limit Scenario.rt0
                  [(u "term", PStr (u "X")); (u "limit", PInt 50000)]
                  (PStr (u "X")) PNone PNone eq_refl eq_refl eq_refl)
           50000%Z eq_refl).
Defined.

(** ** A search without hits, in chat format *)



(* ===================================================================== *)
(** * Further properties: formatting hits *)
(* ===================================================================== *)

(** X17: [_format_results_for_summary] reads the first twenty hits only:
    whatever follows them, even a value that is no hit at all, changes
    nothing. *)
Theorem summary_reads_twenty_hits_at_most
  (rt : Runtime) (hits extra : list pyval) :
  List.length hits = 20 ->
  Cli._format_results_for_summary rt (PList (hits ++ extra))
  = Cli._format_results_for_summary rt (PList hits).
Proof.
  intros H. unfold Cli._format_results_for_summary. cbn [py_slice_to bind].
  rewrite firstn_app, H, Nat.sub_diag, firstn_O, app_nil_r.
  now rewrite <- H, firstn_all.
Qed.

Lemma summary_reads_twenty_hits_at_most_witness :
  Cli._format_results_for_summary Scenario.rt0
    (PList (repeat (Scenario.hit_with_message (u "a")) 20 ++ [PInt 7]))
  = Cli._format_results_for_summary Scenario.rt0
      (PList (repeat (Scenario.hit_with_message (u "a")) 20)).
Proof.
  exact (summary_reads_twenty_hits_at_most Scenario.rt0
           (repeat (Scenario.hit_with_message (u "a")) 20) [PInt 7] eq_refl).
Defined.

(** X18: the text of a hit is the first non-empty one of [message], [txt]
    and [content], in this order and whatever the order of the keys; an
    empty [message] falls through to [txt], and a hit without any of them,
    or without [_source], has the empty text.  The summary formatter and
    the display of [main] choose the same field (cut at 500 and at 300). *)
Theorem text_field_precedence (rt : Runtime) (i : nat) (message txt content : pystr) :
  let chosen := match message, txt with
                | _ :: _, _ => message
                | [], _ :: _ => txt
                | [], [] => content
                end in
  let all_three := PDict [(u "_source",
                           PDict [(u "content", PStr content); (u "txt", PStr txt);
                                  (u "message", PStr message)])] in
  Cli.summary_entry rt i all_three
  = Ret (u "Result " ++ str_of_nat i ++ u ":" ++ nl ++ u "User: Unknown" ++ nl
         ++ u "Time: N/A" ++ nl ++ u "Text: " ++ firstn 500 chosen ++ nl)
  /\ Cli.summary_entry rt i (PDict [(u "_source", PDict [(u "txt", PStr txt)])])
     = Ret (u "Result " ++ str_of_nat i ++ u ":" ++ nl ++ u "User: Unknown" ++ nl
            ++ u "Time: N/A" ++ nl ++ u "Text: " ++ firstn 500 txt ++ nl)
  /\ Cli.summary_entry rt i (PDict [(u "_source", PDict [(u "content", PStr content)])])
     = Ret (u "Result " ++ str_of_nat i ++ u ":" ++ nl ++ u "User: Unknown" ++ nl
            ++ u "Time: N/A" ++ nl ++ u "Text: " ++ firstn 500 content ++ nl)
  /\ Cli.summary_entry rt i (PDict [])
     = Ret (u "Result " ++ str_of_nat i ++ u ":" ++ nl ++ u "User: Unknown" ++ nl
            ++ u "Time: N/A" ++ nl ++ u "Text: " ++ nl)
  /\ Cli.display_result rt i all_three
     = Ret [u "Result " ++ str_of_nat i ++ u ":";
            u "  User: N/A";
            u "  Time: N/A";
            u "  Text: " ++ firstn 300 chosen
              ++ (if 300 <? List.length chosen then u "..." else []);
            List.concat (repeat (u "-") 60)].
Proof.
  split; [|split; [|split; [|split]]].
  - destruct message, txt, content; reflexivity.
  - destruct txt; reflexivity.
  - destruct content; reflexivity.
  - reflexivity.
  - destruct message, txt, content; reflexivity.
Qed.

(* ===================================================================== *)
(** * Further properties: the manual mode of [main] *)
(* ===================================================================== *)

(** X19: whatever is typed at the query-type prompt of [main], the query
    type sent is one of [QUERY_TYPES]: 2 and 3 (white space around them
    allowed) select [boolean_content] and [query_string], and every other
    input selects [content], the empty line and 1 among them. *)
Theorem main_querytype_is_known (typed : pystr) :
  (exists qt, Cli.main_querytype typed = PStr qt /\ In qt QUERY_TYPES)
  /\ (strip typed = u "2" -> Cli.main_querytype typed = PStr (u "boolean_content"))
  /\ (strip typed = u "3" -> Cli.main_querytype typed = PStr (u "query_string"))
  /\ (strip typed <> u "2" -> strip typed <> u "3" ->
      Cli.main_querytype typed = PStr (u "content"))
  /\ (strip typed = [] -> Cli.main_querytype typed = PStr (u "content")).
Proof.
  assert (Hother : strip typed <> u "2" -> strip typed <> u "3" ->
                   Cli.main_querytype typed = PStr (u "content")).
  { intros H2 H3. unfold Cli.main_querytype.
    assert (Hc2 : (match strip typed with [] => u "1" | c => c end) <> u "2").
    { destruct (strip typed); [discriminate | exact H2]. }
    assert (Hc3 : (match strip typed with [] => u "1" | c => c end) <> u "3").
    { destruct (strip typed); [discriminate | exact H3]. }
    set (choice := match strip typed with [] => u "1" | c => c end) in *.
    unfold Cli.query_type_map, dict_lookup.
    destruct (str_eqb choice (u "1")); [reflexivity|].
    destruct (str_eqb choice (u "2")) eqn:E2;
      [apply str_eqb_eq in E2; contradiction|].
    destruct (str_eqb choice (u "3")) eqn:E3;
      [apply str_eqb_eq in E3; contradiction|].
    reflexivity. }
  split; [|split; [|split; [|split]]].
  - unfold Cli.main_querytype.
    set (choice := match strip typed with [] => u "1" | c => c end).
    unfold Cli.query_type_map, dict_lookup.
    destruct (str_eqb choice (u "1")); [exists (u "content"); simpl; auto|].
    destruct (str_eqb choice (u "2")); [exists (u "boolean_content"); simpl; auto|].
    destruct (str_eqb choice (u "3")); [exists (u "query_string"); simpl; auto|].
    exists (u "content"); simpl; auto.
  - unfold Cli.main_querytype. intros ->. reflexivity.
  - unfold Cli.main_querytype. intros ->. reflexivity.
  - exact Hother.
  - intros H. apply Hother; rewrite H; discriminate.
Qed.

Lemma main_querytype_is_known_witness :
  Cli.main_querytype (u " 2 ") = PStr (u "boolean_content")
  /\ Cli.main_querytype (u "4") = PStr (u "content")
  /\ Cli.main_querytype (u "query_string") = PStr (u "content").
Proof.
  split; [|split].
  - exact (proj1 (proj2 (main_querytype_is_known (u " 2 "))) eq_refl).
  - refine (proj1 (proj2 (proj2 (proj2 (main_querytype_is_known (u "4")))))
              _ _); vm_compute; discriminate.
  - refine (proj1 (proj2 (proj2 (proj2 (main_querytype_is_known (u "query_string")))))
              _ _); vm_compute; discriminate.
Defined.

(** X20: the total [main] prints: [hits.total] may be an object, whose
    [value] is taken (0 when it has none), or a bare number, which is taken
    as it is; without [total] it is 0.  A null [total] is printed as
    None. *)
Theorem total_value_accepts_both_shapes
  (r h : list (pystr * pyval)) :
  dict_lookup (u "hits") r = Some (PDict h) ->
  (forall tv,
      dict_lookup (u "total") h = Some (PDict tv) ->
      Cli.main_total_value (PDict r)
      = Ret (match dict_lookup (u "value") tv with
             | Some v => v
             | None => PInt 0
             end))
  /\ (forall n,
        dict_lookup (u "total") h = Some (PInt n) ->
        Cli.main_total_value (PDict r) = Ret (PInt n))
  /\ (dict_lookup (u "total") h = None ->
      Cli.main_total_value (PDict r) = Ret (PInt 0))
  /\ (dict_lookup (u "total") h = Some PNone ->
      Cli.main_total_value (PDict r) = Ret PNone).
Proof.
  intros Hh. unfold Cli.main_total_value. cbn [py_get bind]. rewrite Hh.
  cbn [py_get bind].
  split; [|split; [|split]].
  - intros tv ->. reflexivity.
  - intros n ->. reflexivity.
  - intros ->. reflexivity.
  - intros ->. reflexivity.
Qed.

Lemma total_value_accepts_both_shapes_witness :
  Cli.main_total_value
    (PDict [(u "hits", PDict [(u "total", PDict [(u "value", PInt 42)])])])
  = Ret (PInt 42)
  /\ Cli.main_total_value (PDict [(u "hits", PDict [(u "total", PInt 42)])])
     = Ret (PInt 42).
Proof.
  split.
  - exact (proj1 (total_value_accepts_both_shapes
                    [(u "hits", PDict [(u "total", PDict [(u "value", PInt 42)])])]
                    [(u "total", PDict [(u "value", PInt 42)])] eq_refl)
             [(u "value", PInt 42)] eq_refl).
  - exact (proj1 (proj2 (total_value_accepts_both_shapes
                           [(u "hits", PDict [(u "total", PInt 42)])]
                           [(u "total", PInt 42)] eq_refl))
             42%Z eq_refl).
Defined.

(** The block [main] prints for a hit that has only a [message]. *)
Lemma display_result_message (rt : Runtime) (i : nat) (text : pystr) :
  Cli.display_result rt i (Scenario.hit_with_message text)
  = Ret [u "Result " ++ str_of_nat i ++ u ":";
         u "  User: N/A";
         u "  Time: N/A";
         u "  Text: " ++ firstn 300 text
           ++ (if 300 <? List.length text then u "..." else []);
         List.concat (repeat (u "-") 60)].
Proof. destruct text; reflexivity. Qed.

Lemma for_enumerate_display (rt : Runtime) (texts : list pystr) (i : nat) :
  exists blocks,
    for_enumerate (Cli.display_result rt) i (map Scenario.hit_with_message texts)
    = Ret blocks
    /\ List.length blocks = List.length texts
    /\ Forall (fun b => List.length b = 5) blocks.
Proof.
  revert i. induction texts as [|t texts IH]; intros i.
  - exists []. repeat split; constructor.
  - destruct (IH (S i)) as (blocks & Hb & Hl & Hf).
    eexists. cbn [map for_enumerate]. rewrite display_result_message. cbn [bind].
    rewrite Hb. cbn [bind]. split; [reflexivity|]. split.
    + simpl. now rewrite Hl.
    + constructor; [reflexivity | exact Hf].
Qed.

Lemma concat_length_five (A : Type) (blocks : list (list A)) :
  Forall (fun b => List.length b = 5) blocks ->
  List.length (List.concat blocks) = 5 * List.length blocks.
Proof.
  induction 1 as [|b blocks Hb _ IH]; [reflexivity|].
  simpl. rewrite length_app, Hb, IH. lia.
Qed.

(** X21: what [main] prints for a search result.  With an [error] entry
    it prints the one line "Error: ..." and nothing else, also when hits
    came with it.  Otherwise it first prints "Found n results (total
    matching: t)", n being the number of hits received; then
    "No results found." when there are none, or five lines for every hit,
    with no cap on their number. *)
Theorem main_display_outcomes
  (rt : Runtime) (r h : list (pystr * pyval)) (total_value : pyval) :
  (forall e, dict_lookup (u "error") r = Some e ->
             Cli.main_display rt (PDict r) = Ret [u "Error: " ++ py_str rt e])
  /\ (dict_lookup (u "error") r = None ->
      dict_lookup (u "hits") r = Some (PDict h) ->
      Cli.main_total_value (PDict r) = Ret total_value ->
      (dict_lookup (u "hits") h = Some (PList []) \/ dict_lookup (u "hits") h = None ->
       Cli.main_display rt (PDict r)
       = Ret [u "Found " ++ str_of_nat 0 ++ u " results (total matching: "
              ++ py_str rt total_value ++ u ")" ++ nl;
              u "No results found."])
      /\ (forall t texts,
            dict_lookup (u "hits") h
            = Some (PList (map Scenario.hit_with_message (t :: texts))) ->
            exists printed,
              Cli.main_display rt (PDict r)
              = Ret ((u "Found " ++ str_of_nat (S (List.length texts))
                      ++ u " results (total matching: "
                      ++ py_str rt total_value ++ u ")" ++ nl) :: printed)
              /\ List.length printed = 5 * S (List.length texts))).
Proof.
  split.
  - intros e He. unfold Cli.main_display. cbn [py_in bind py_getitem].
    now rewrite He.
  - intros He Hh Ht. unfold Cli.main_display. cbn [py_in bind py_get].
    rewrite He, Hh. cbn [bind py_get]. rewrite Ht. cbn [bind]. split.
    + intros [Hl | Hl]; rewrite Hl; reflexivity.
    + intros t texts Hl. rewrite Hl.
      destruct (for_enumerate_display rt (t :: texts) 1) as (blocks & Hb & Hn & Hf).
      exists (List.concat blocks).
      cbn [py_len bind truthy negb map py_iter] in *.
      rewrite Hb. cbn [bind]. split.
      * cbn [List.length]. rewrite length_map. reflexivity.
      * rewrite (concat_length_five _ blocks Hf), Hn. reflexivity.
Qed.

Lemma main_display_outcomes_witness :
  Cli.main_display Scenario.rt0 (PDict [(u "error", PStr (u "boom"))])
  = Ret [u "Error: " ++ py_str Scenario.rt0 (PStr (u "boom"))]
  /\ exists printed,
       Cli.main_display Scenario.rt0 Scenario.one_hit
       = Ret ((u "Found " ++ str_of_nat 1 ++ u " results (total matching: "
               ++ py_str Scenario.rt0 (PInt 1) ++ u ")" ++ nl) :: printed)
       /\ List.length printed = 5 * 1.
Proof.
  split.
  - exact (proj1 (main_display_outcomes Scenario.rt0 [(u "error", PStr (u "boom"))]
                    [] PNone)
             (PStr (u "boom")) eq_refl).
  - exact (proj2 (proj2 (main_display_outcomes Scenario.rt0
                           [(u "hits",
                             PDict [(u "total", PDict [(u "value", PInt 1)]);
                                    (u "hits",
                                     PList [Scenario.hit_with_message (u "hello")])])]
                           [(u "total", PDict [(u "value", PInt 1)]);
                            (u "hits", PList [Scenario.hit_with_message (u "hello")])]
                           (PInt 1))
                    eq_refl eq_refl eq_refl)
             (u "hello") [] eq_refl).
Defined.

(* ===================================================================== *)
(** * Further properties: answers of POST /search *)
(* ===================================================================== *)

(** X22: the message of a chat answer with hits: "Results Received" is
    the number of hits in the response, "Total Available" is the total as
    [main] of the command-line client computes it (object or bare number),
    and the raw JSON that follows is the whole response, not the hits
    alone. *)
Theorem chat_success_content
  (rt : Runtime) (query : pyval) (p r h : list (pystr * pyval))
  (x : pyval) (xs : list pyval) (total_value : pyval) (url block : pystr) :
  dict_lookup (u "error") r = None ->
  dict_lookup (u "hits") r = Some (PDict h) ->
  dict_lookup (u "hits") h = Some (PList (x :: xs)) ->
  Cli.main_total_value (PDict r) = Ret total_value ->
  Server.api_request_url rt (PDict p) = Ret url ->
  Server.search_parameters_block rt (PDict p) = Ret block ->
  Server.response_content rt query (PDict p) (PDict r)
  = Ret ([9989%N] ++ u " Open Measures Search Complete" ++ nl ++ nl
         ++ block
         ++ u "- Results Received: `" ++ str_of_nat (S (List.length xs)) ++ u "`" ++ nl
         ++ u "- Total Available: `" ++ py_str rt total_value ++ u "`" ++ nl ++ nl
         ++ Server.request_sent_block url ++ nl ++ nl
         ++ u "**Raw JSON Results:**" ++ nl ++ FENCE ++ u "json" ++ nl
         ++ json_dumps_indent2 rt (PDict r)
         ++ nl ++ FENCE).
Proof.
  intros He Hh Hl Ht Hurl Hblock.
  unfold Cli.main_total_value in Ht. cbn [py_get bind] in Ht. rewrite Hh in Ht.
  cbn [py_get bind] in Ht.
  unfold Server.response_content. cbn [py_get py_in bind].
  rewrite He, Hh. cbn [py_get bind]. rewrite Hl.
  destruct (dict_lookup (u "total") h) as [[]|]; cbn [py_get bind] in Ht |- *;
    inversion Ht; subst total_value;
    rewrite Hurl; cbn [bind truthy negb]; rewrite Hblock; reflexivity.
Qed.

Lemma chat_success_content_witness :
  exists content,
    Server.response_content Scenario.rt0 (PStr (u "q")) (PDict []) Scenario.one_hit
    = Ret content.
Proof.
  eexists.
  exact (chat_success_content Scenario.rt0 (PStr (u "q")) []
           [(u "hits",
             PDict [(u "total", PDict [(u "value", PInt 1)]);
                    (u "hits",
                     PList [PDict [(u "_source",
                                    PDict [(u "message", PStr (u "hello"))])]])])]
           [(u "total", PDict [(u "value", PInt 1)]);
            (u "hits",
             PList [PDict [(u "_source", PDict [(u "message", PStr (u "hello"))])]])]
           (PDict [(u "_source", PDict [(u "message", PStr (u "hello"))])]) []
           (PInt 1) _ _ eq_refl eq_refl eq_refl eq_refl eq_refl eq_refl).
Defined.

(** X23: in simple format the view returns what [search] returned, as it
    is and with status 200; so a failed request to Open Measures is
    answered with status 200 and the body [{"error": ...}], without a
    [stage] entry. *)
Theorem simple_format_returns_search_body
  (rt : Runtime) (net : Network) (key : pystr) (data : pyval) (hdr : option pystr)
  (query : pyval) (p : list (pystr * pyval))
  (term site limit querytype results : pyval) :
  Server.key_configured key ->
  truthy data = true ->
  Server.is_chat_completion data = Ret false ->
  Server.extract_query data = Ret query ->
  truthy query = true ->
  Server.parse_natural_language_query rt net (Some key) query = Ret (PDict p) ->
  dict_lookup (u "error") p = None ->
  py_get (PDict p) (u "term") (PStr []) = Ret term ->
  py_get (PDict p) (u "site") (PStr (u "telegram")) = Ret site ->
  py_get (PDict p) (u "limit") (PInt 20) = Ret limit ->
  py_get (PDict p) (u "querytype") (PStr (u "content")) = Ret querytype ->
  Server.search rt net term site limit PNone PNone querytype false = Ret results ->
  Server.search_route rt net key data hdr = Ret (Server.jsonify results)
  /\ Server.http_status (Server.search_route rt net key data hdr) = 200%Z.
Proof.
  intros Hk Hd Hc Hq Ht Hparse Herr H1 H2 H3 H4 Hs.
  assert (H : Server.search_route rt net key data hdr = Ret (Server.jsonify results)).
  { rewrite (route_reaches_answer rt net key data hdr false query Hk Hd Hc Hq Ht).
    unfold Server.answer_query. rewrite Hparse. cbn [bind py_in].
    rewrite Herr. cbn [bind].
    rewrite H1. cbn [bind]. rewrite H2. cbn [bind]. rewrite H3. cbn [bind].
    rewrite H4. cbn [bind]. now rewrite Hs. }
  split; [exact H | now rewrite H].
Qed.

Lemma simple_format_returns_search_body_witness :
  Server.search_route Scenario.rt0 (Scenario.net_search_down Scenario.reply_gab)
    Scenario.key0 (PDict [(u "query", PStr (u "gab posts about X"))]) None
  = Ret (Server.jsonify (error_dict (u "connection refused"))).
Proof.
  exact (proj1 (simple_format_returns_search_body Scenario.rt0
                  (Scenario.net_search_down Scenario.reply_gab) Scenario.key0
                  (PDict [(u "query", PStr (u "gab posts about X"))]) None
                  (PStr (u "gab posts about X"))
                  [(u "term", PStr (u "X")); (u "site", PStr (u "gab"));
                   (u "limit", PInt 50)]
                  (PStr (u "X")) (PStr (u "gab")) (PInt 50) (PStr (u "content"))
                  (error_dict (u "connection refused"))
                  (conj eq_refl eq_refl) eq_refl eq_refl eq_refl eq_refl eq_refl
                  eq_refl eq_refl eq_refl eq_refl eq_refl eq_refl)).
Defined.

(** X24: a request body that is valid JSON but no object.  A non-zero
    number or [true] raises TypeError at ['messages' in data].  A list or a
    string is searched for the elements (substrings) "query" and
    "messages": with one of them present, indexing the body by that name
    raises TypeError; with none the answer is 400 "Missing query. ...".
    The interpreter is never reached. *)
Theorem body_that_is_no_object
  (rt : Runtime) (net : Network) (key : pystr) (data : pyval) (hdr : option pystr) :
  truthy data = true ->
  (is_number data = true ->
   Server.search_route rt net key data hdr = Raise TypeError)
  /\ (forall has_query has_messages,
        (exists l, data = PList l) \/ (exists s, data = PStr s) ->
        py_in (u "query") data = Ret has_query ->
        py_in (u "messages") data = Ret has_messages ->
        Server.search_route rt net key data hdr
        = if has_query || has_messages then Raise TypeError
          else Ret (Server.jsonify_with
                      (error_dict
                         (u "Missing query. Provide either 'query' field or 'messages' array"))
                      400)).
Proof.
  intros Hd. unfold Server.search_route. rewrite Hd. cbn [negb]. split.
  - intros Hn. destruct data; try discriminate Hn; reflexivity.
  - intros hq hm Hshape Hq Hm.
    unfold Server.is_chat_completion, Server.extract_query.
    rewrite Hq, Hm. cbn [bind].
    destruct Hshape as [[l ->] | [s ->]]; cbn [py_in py_getitem bind] in *.
    + destruct (existsb (is_str_eq (u "model")) l), hq, hm; reflexivity.
    + destruct (str_contains (u "model") s), hq, hm; reflexivity.
Qed.

Lemma body_that_is_no_object_witness :
  Server.search_route Scenario.rt0 Scenario.net_claude_down Scenario.key0
    (PInt 7) None = Raise TypeError
  /\ Server.search_route Scenario.rt0 Scenario.net_claude_down Scenario.key0
       (PList [PStr (u "query")]) None = Raise TypeError
  /\ Server.search_route Scenario.rt0 Scenario.net_claude_down Scenario.key0
       (PStr (u "find posts")) None
     = Ret (Server.jsonify_with
              (error_dict
                 (u "Missing query. Provide either 'query' field or 'messages' array"))
              400).
Proof.
  split; [|split].
  - exact (proj1 (body_that_is_no_object Scenario.rt0 Scenario.net_claude_down
                    Scenario.key0 (PInt 7) None eq_refl) eq_refl).
  - exact (proj2 (body_that_is_no_object Scenario.rt0 Scenario.net_claude_down
                    Scenario.key0 (PList [PStr (u "query")]) None eq_refl)
             true false (or_introl (ex_intro _ [PStr (u "query")] eq_refl))
             eq_refl eq_refl).
  - exact (proj2 (body_that_is_no_object Scenario.rt0 Scenario.net_claude_down
                    Scenario.key0 (PStr (u "find posts")) None eq_refl)
             false false (or_intror (ex_intro _ (u "find posts") eq_refl))
             eq_refl eq_refl).
Defined.

(* ===================================================================== *)
(** * Further properties: replies the decoder refuses without a JSONDecodeError *)
(* ===================================================================== *)

Lemma repeat_snoc (A : Type) (x : A) (n : nat) :
  repeat x (S n) = repeat x n ++ [x].
Proof. induction n as [|n IH]; [reflexivity|]. simpl in *. now rewrite <- IH. Qed.

(** One opening bracket more than there is room for. *)
Lemma scan_once_deep (rt : Runtime) (room : nat) :
  forall fuel rest pos,
    2 * room + 1 <= fuel ->
    scan_once rt fuel room (repeat 91%N (S room) ++ rest) pos = Raises RecursionError.
Proof.
  induction room as [|room IH]; intros fuel rest pos Hf.
  - destruct fuel as [|f]; [lia|]. reflexivity.
  - destruct fuel as [|[|f]]; try lia.
    change (repeat 91%N (S (S room)) ++ rest)
      with (91%N :: 91%N :: (repeat 91%N room ++ rest)).
    cbn [scan_once N.eqb Pos.eqb skip_ws is_json_ws orb fst snd parse_elements].
    change (91%N :: repeat 91%N room ++ rest) with (repeat 91%N (S room) ++ rest).
    rewrite IH by lia. reflexivity.
Qed.

(** As many arrays inside one another as there is room for, or fewer. *)
Lemma scan_once_nested (rt : Runtime) (n : nat) :
  forall fuel room rest pos,
    n < room -> 2 * n + 1 <= fuel ->
    scan_once rt fuel room (repeat 91%N (S n) ++ repeat 93%N (S n) ++ rest) pos
    = Scanned (Scenario.nested_lists n) rest (pos + 2 * S n).
Proof.
  induction n as [|n IH]; intros fuel room rest pos Hr Hf.
  - destruct fuel as [|f]; [lia|]. destruct room as [|inner]; [lia|].
    cbn. repeat f_equal. lia.
  - destruct fuel as [|[|f]]; try lia. destruct room as [|inner]; [lia|].
    rewrite (repeat_snoc _ 93%N (S n)), <- app_assoc.
    change (repeat 91%N (S (S n)) ++ repeat 93%N (S n) ++ [93%N] ++ rest)
      with (91%N :: 91%N :: (repeat 91%N n ++ repeat 93%N (S n) ++ 93%N :: rest)).
    cbn [scan_once N.eqb Pos.eqb skip_ws is_json_ws orb fst snd parse_elements].
    change (91%N :: repeat 91%N n ++ repeat 93%N (S n) ++ 93%N :: rest)
      with (repeat 91%N (S n) ++ repeat 93%N (S n) ++ 93%N :: rest).
    rewrite (IH f inner (93%N :: rest) (S pos)) by lia.
    cbn [skip_ws is_json_ws N.eqb Pos.eqb orb fst snd app Scenario.nested_lists].
    repeat f_equal. lia.
Qed.

Lemma skip_ws_bracket (s : pystr) (pos : nat) :
  skip_ws (91%N :: s) pos = (91%N :: s, pos).
Proof. reflexivity. Qed.

Lemma loads_deep (rt : Runtime) (n : nat) (rest : pystr) :
  recursion_room rt < n ->
  loads rt (repeat 91%N n ++ rest) = Raised RecursionError.
Proof.
  intros Hn. unfold loads.
  replace n with (S (recursion_room rt) + (n - S (recursion_room rt))) by lia.
  rewrite repeat_app, <- app_assoc.
  generalize (repeat 91%N (n - S (recursion_room rt)) ++ rest) as tail.
  generalize (recursion_room rt) as room. intros room tail.
  change (repeat 91%N (S room) ++ tail) with (91%N :: (repeat 91%N room ++ tail)).
  cbn [startswith BOM N.eqb Pos.eqb andb]. rewrite skip_ws_bracket. cbn [fst snd].
  change (91%N :: (repeat 91%N room ++ tail)) with (repeat 91%N (S room) ++ tail).
  rewrite scan_once_deep; [reflexivity|].
  rewrite length_app, repeat_length. lia.
Qed.

Lemma loads_nested (rt : Runtime) (n : nat) :
  n < recursion_room rt ->
  loads rt (repeat 91%N (S n) ++ repeat 93%N (S n)) = Loaded (Scenario.nested_lists n).
Proof.
  intros Hn. unfold loads.
  generalize dependent (recursion_room rt). intros room Hn.
  rewrite <- (app_nil_r (repeat 93%N (S n))).
  change (repeat 91%N (S n) ++ repeat 93%N (S n) ++ [])
    with (91%N :: (repeat 91%N n ++ repeat 93%N (S n) ++ [])).
  cbn [startswith BOM N.eqb Pos.eqb andb]. rewrite skip_ws_bracket. cbn [fst snd].
  change (91%N :: (repeat 91%N n ++ repeat 93%N (S n) ++ []))
    with (repeat 91%N (S n) ++ repeat 93%N (S n) ++ []).
  rewrite (scan_once_nested rt n _ room [] 0 Hn); [reflexivity|].
  rewrite !length_app, !repeat_length. simpl. lia.
Qed.

Lemma no_blank_brackets (n : nat) :
  forallb (fun c => negb (is_space c)) (repeat 91%N n) = true.
Proof. induction n as [|n IH]; [reflexivity|]. simpl repeat. cbn [forallb]. now rewrite IH. Qed.

Lemma extract_json_brackets (n : nat) :
  extract_json (repeat 91%N n) = repeat 91%N n.
Proof.
  unfold extract_json, strip.
  rewrite (strip_of_no_blank is_space _ (no_blank_brackets n)).
  destruct n; reflexivity.
Qed.

(** X25: the nesting [json.loads] takes is bounded by the recursion limit.
    A reply of [n] opening brackets, whatever follows them, makes
    [json.loads] raise RecursionError as soon as [n] exceeds the room the
    limit leaves, and as many arrays inside one another as there is room
    for are decoded.  On a reply of too many brackets the server's
    interpreter raises RecursionError, which nothing catches, and the
    command-line client returns the failure "Error during natural language
    search: ...": neither reports a JSON parse error. *)
Theorem reply_nested_too_deep
  (rt : Runtime) (net : Network) (key : option pystr) (user_query : pystr)
  (n : nat) :
  (recursion_room rt < n ->
   (forall rest, loads rt (repeat 91%N n ++ rest) = Raised RecursionError)
   /\ Server.parse_reply rt (PStr (repeat 91%N n)) = Raise RecursionError
   /\ Cli.interpret_reply rt net key user_query (PStr (repeat 91%N n))
      = Ret (error_dict (u "Error during natural language search: "
                         ++ exn_message rt RecursionError)))
  /\ (0 < n -> n <= recursion_room rt ->
      loads rt (repeat 91%N n ++ repeat 93%N n) = Loaded (Scenario.nested_lists (n - 1))).
Proof.
  split.
  - intros Hn.
    assert (Hl : loads rt (extract_json (repeat 91%N n)) = Raised RecursionError).
    { rewrite extract_json_brackets, <- (app_nil_r (repeat 91%N n)).
      now apply loads_deep. }
    split; [intros rest; now apply loads_deep|]. split.
    + now apply server_parse_reply_raised.
    + now apply cli_interpret_reply_raised.
  - intros Hpos Hn. destruct n as [|m]; [lia|].
    replace (S m - 1) with m by lia. apply loads_nested. lia.
Qed.

Lemma reply_nested_too_deep_witness :
  Server.parse_reply Scenario.rt0 (PStr (repeat 91%N 995)) = Raise RecursionError
  /\ loads Scenario.rt0 (repeat 91%N 994 ++ repeat 93%N 994)
     = Loaded (Scenario.nested_lists 993).
Proof.
  split.
  - refine (proj1 (proj2 (proj1 (reply_nested_too_deep Scenario.rt0
                                   Scenario.net_claude_down None [] 995) _))).
    vm_compute. lia.
  - refine (proj2 (reply_nested_too_deep Scenario.rt0 Scenario.net_claude_down
                     None [] 994) _ _); vm_compute; lia.
Defined.

(** ** An integer literal beyond the digit limit *)

Lemma span_digits_sevens (n : nat) :
  span_digits (repeat 55%N n) = (repeat 55%N n, []).
Proof.
  induction n as [|n IH]; [reflexivity|].
  simpl repeat. cbn [span_digits]. change (is_digit 55%N) with true. cbv iota.
  now rewrite IH.
Qed.

Lemma loads_sevens (rt : Runtime) (n : nat) :
  exceeds_int_limit (int_max_str_digits rt) (S n) = true ->
  loads rt (repeat 55%N (S n)) = Raised ValueError.
Proof.
  intros Hx. unfold loads. simpl repeat.
  cbn [startswith BOM N.eqb Pos.eqb andb skip_ws is_json_ws orb fst snd].
  replace (2 * List.length (55%N :: repeat 55%N n) + 2)
    with (S (2 * List.length (55%N :: repeat 55%N n) + 1)) by lia.
  cbn [scan_once N.eqb Pos.eqb startswith u andb].
  unfold match_number.
  cbn [N.eqb Pos.eqb N.leb N.compare Pos.compare Pos.compare_cont andb tl].
  rewrite span_digits_sevens. cbn [fst snd].
  repeat match goal with
         | |- context [startswith ?p (55%N :: ?t)] =>
             change (startswith p (55%N :: t)) with false
         end.
  cbv iota. cbn [List.length]. rewrite repeat_length. now rewrite Hx.
Qed.

Lemma no_blank_sevens (n : nat) :
  forallb (fun c => negb (is_space c)) (repeat 55%N n) = true.
Proof. induction n as [|n IH]; [reflexivity|]. simpl repeat. cbn [forallb]. now rewrite IH. Qed.

Lemma extract_json_sevens (n : nat) :
  extract_json (repeat 55%N n) = repeat 55%N n.
Proof.
  unfold extract_json, strip.
  rewrite (strip_of_no_blank is_space _ (no_blank_sevens n)).
  destruct n; reflexivity.
Qed.

(** X26: a reply that is one integer literal of more digits than [int()]
    converts (more than [sys.get_int_max_str_digits()], 4300 unless
    changed, when that limit is set) is valid JSON, yet [json.loads] raises
    ValueError on it.  This is no JSONDecodeError: the server's interpreter
    lets it escape, and the command-line client returns the failure
    "Error during natural language search: ...". *)
Theorem reply_integer_too_long
  (rt : Runtime) (net : Network) (key : option pystr) (user_query : pystr)
  (n : nat) :
  0 < int_max_str_digits rt ->
  int_max_str_digits rt < n ->
  640 < n ->
  loads rt (repeat 55%N n) = Raised ValueError
  /\ Server.parse_reply rt (PStr (repeat 55%N n)) = Raise ValueError
  /\ Cli.interpret_reply rt net key user_query (PStr (repeat 55%N n))
     = Ret (error_dict (u "Error during natural language search: "
                        ++ exn_message rt ValueError)).
Proof.
  intros H0 Hmax H640.
  assert (Hx : exceeds_int_limit (int_max_str_digits rt) n = true).
  { unfold exceeds_int_limit.
    rewrite (proj2 (Nat.ltb_lt _ _) H0), (proj2 (Nat.ltb_lt _ _) Hmax),
      (proj2 (Nat.ltb_lt _ _) H640). reflexivity. }
  destruct n as [|m]; [lia|].
  assert (Hl : loads rt (repeat 55%N (S m)) = Raised ValueError)
    by now apply loads_sevens.
  split; [exact Hl|].
  rewrite <- (extract_json_sevens (S m)) in Hl. split.
  - now apply server_parse_reply_raised.
  - now apply cli_interpret_reply_raised.
Qed.

Lemma reply_integer_too_long_witness :
  loads Scenario.rt0 (repeat 55%N 4301) = Raised ValueError
  /\ Server.parse_reply Scenario.rt0 (PStr (repeat 55%N 4301)) = Raise ValueError.
Proof.
  assert (H : 0 < int_max_str_digits Scenario.rt0
              /\ int_max_str_digits Scenario.rt0 < 4301 /\ 640 < 4301)
    by (vm_compute; lia).
  destruct H as (H0 & Hmax & H640).
  destruct (reply_integer_too_long Scenario.rt0 Scenario.net_claude_down None []
              4301 H0 Hmax H640) as (Hl & Hs & _).
  exact (conj Hl Hs).
Defined.

(** ** A reply that opens with a byte order mark *)

Lemma extract_json_starting_with_BOM (s : pystr) :
  exists r, extract_json (BOM :: s) = BOM :: r.
Proof.
  unfold extract_json, strip.
  destruct (strip_of_cons is_space BOM s eq_refl) as [r Hr].
  exists r. rewrite Hr. reflexivity.
Qed.

(** X27: a reply that opens with a byte order mark (U+FEFF, which
    [strip] keeps) is refused by [json.loads] before any scanning, with a
    JSONDecodeError of its own; both interpreters report it as a parse
    failure at the first character, whatever JSON follows the mark. *)
Theorem reply_with_byte_order_mark
  (rt : Runtime) (net : Network) (key : option pystr) (user_query s : pystr) :
  Server.parse_reply rt (PStr (BOM :: s))
  = Ret (error_dict
           (u "Failed to parse query: "
            ++ u "Unexpected UTF-8 BOM (decode using utf-8-sig): line 1 column 1 (char 0)"))
  /\ Cli.interpret_reply rt net key user_query (PStr (BOM :: s))
     = Ret (error_dict
              (u "Failed to parse Claude's response: "
               ++ u "Unexpected UTF-8 BOM (decode using utf-8-sig): line 1 column 1 (char 0)"
               ++ nl ++ u "Response: " ++ BOM :: s)).
Proof.
  assert (Hl : loads rt (extract_json (BOM :: s))
               = Failed {| err_msg := UnexpectedBOM;
                           err_doc := extract_json (BOM :: s); err_pos := 0 |}).
  { destruct (extract_json_starting_with_BOM s) as [r ->]. reflexivity. }
  split.
  - now rewrite (server_parse_reply_failed rt _ _ Hl).
  - now rewrite (cli_interpret_reply_failed rt net key user_query _ _ Hl).
Qed.
